(** * Lead generator pipeline: search, cross-reference, verify, persist

    A shallow embedding of the business resolution pipeline
    ([business_finder.py], [yelp_api_client.py], [smarty_verification.py],
    [leadgen/views/dashboard.py]) and the properties its specification
    states about it.

    Python values are embedded as a JSON-like datatype with IEEE binary64
    floats; dictionaries are insertion-ordered association lists.  Methods
    of [BusinessFinder] run in a state-and-exception monad over the finder's
    instance state, the listing objects it is handed (a store of mutable
    dictionaries addressed by reference) and a log of the upstream requests
    issued so far.  The remote services are arbitrary deterministic
    functions of that log and of the request. *)

From Stdlib Require Import ZArith String List Floats Lia Bool.
From stdpp Require Import base option gmap strings list.
Import ListNotations.

Set Warnings "-inexact-float,-register-all".
Local Open Scope string_scope.
Local Open Scope Z_scope.

(** ** Python values *)

Inductive pyval : Type :=
| PNone
| PBool (b : bool)
| PInt (n : Z)
| PFloat (x : float)
| PStr (s : string)
| PList (items : list pyval)
| PDict (entries : list (string * pyval)).

(** A dictionary's contents: keys in insertion order, no key twice. *)
Abbreviation pydict := (list (string * pyval)).

Inductive exn_class : Type :=
| RequestException   (* requests.exceptions.RequestException and subclasses *)
| AttributeError
| TypeError
| KeyError
| IndexError
| ValueError
| OverflowError
| ZeroDivisionError
| ReferenceError     (* a reference to no object: never raised by a Python run *)
| IntegrityError     (* sqlalchemy.exc.IntegrityError *)
| InterfaceError.    (* sqlalchemy.exc.InterfaceError *)

Record pyexn : Type := MkExn { exn_cls : exn_class; exn_str : string }.

Inductive result (A : Type) : Type :=
| Ok (a : A)
| Raise (e : pyexn).
Arguments Ok {A} a.
Arguments Raise {A} e.

Definition is_request_exception (e : pyexn) : bool :=
  match exn_cls e with RequestException => true | _ => false end.

(** [bool(v)]: the truth value Python's [if v] and [not v] test. *)
Definition truthy (v : pyval) : bool :=
  match v with
  | PNone => false
  | PBool b => b
  | PInt n => negb (n =? 0)
  | PFloat x => negb (PrimFloat.eqb x 0%float)
  | PStr s => negb (String.eqb s "")
  | PList items => match items with [] => false | _ => true end
  | PDict entries => match entries with [] => false | _ => true end
  end.

Fixpoint dict_lookup (k : string) (d : pydict) : option pyval :=
  match d with
  | [] => None
  | (k', v) :: rest => if String.eqb k k' then Some v else dict_lookup k rest
  end.

(** [d[k] = v] on a dictionary: overwrite in place, or append a new key. *)
Fixpoint dict_set (k : string) (v : pyval) (d : pydict) : pydict :=
  match d with
  | [] => [(k, v)]
  | (k', v') :: rest =>
      if String.eqb k k' then (k', v) :: rest else (k', v') :: dict_set k v rest
  end.

(** [d.get(k, default)] on the contents of a dictionary. *)
Definition dict_get (d : pydict) (k : string) (default : pyval) : pyval :=
  match dict_lookup k d with Some v => v | None => default end.

(** [k in d] on the contents of a dictionary. *)
Definition dict_has (k : string) (d : pydict) : bool :=
  match dict_lookup k d with Some _ => true | None => false end.

Definition type_name (v : pyval) : string :=
  match v with
  | PNone => "NoneType" | PBool _ => "bool" | PInt _ => "int"
  | PFloat _ => "float" | PStr _ => "str" | PList _ => "list"
  | PDict _ => "dict"
  end.

(** [o.get(k, default)] on an arbitrary value: only dictionaries have the
    method. *)
Definition py_get (o : pyval) (k : string) (default : pyval) : result pyval :=
  match o with
  | PDict d => Ok (dict_get d k default)
  | _ => Raise (MkExn AttributeError
                  ("'" ++ type_name o ++ "' object has no attribute 'get'"))
  end.

(** [o[k]] for a string key. *)
Definition py_getitem (o : pyval) (k : string) : result pyval :=
  match o with
  | PDict d =>
      match dict_lookup k d with
      | Some v => Ok v
      | None => Raise (MkExn KeyError ("'" ++ k ++ "'"))
      end
  | PList _ => Raise (MkExn TypeError "list indices must be integers or slices, not str")
  | PStr _ => Raise (MkExn TypeError "string indices must be integers, not 'str'")
  | _ => Raise (MkExn TypeError ("'" ++ type_name o ++ "' object is not subscriptable"))
  end.

(** [o[0]].  Dictionaries decoded from JSON have string keys only, so the
    integer key is never found. *)
Definition py_getitem0 (o : pyval) : result pyval :=
  match o with
  | PList (x :: _) => Ok x
  | PList [] => Raise (MkExn IndexError "list index out of range")
  | PStr (String c _) => Ok (PStr (String c ""))
  | PStr "" => Raise (MkExn IndexError "string index out of range")
  | PDict _ => Raise (MkExn KeyError "0")
  | _ => Raise (MkExn TypeError ("'" ++ type_name o ++ "' object is not subscriptable"))
  end.

Fixpoint chars (s : string) : list pyval :=
  match s with
  | EmptyString => []
  | String c rest => PStr (String c "") :: chars rest
  end.

(** The items a [for] loop or [list.extend] draws from a value. *)
Definition py_iter (o : pyval) : result (list pyval) :=
  match o with
  | PList items => Ok items
  | PStr s => Ok (chars s)
  | PDict d => Ok (map (fun kv => PStr (fst kv)) d)
  | _ => Raise (MkExn TypeError ("'" ++ type_name o ++ "' object is not iterable"))
  end.

(** [len(o)]. *)
Definition py_len (o : pyval) : result Z :=
  match o with
  | PList items => Ok (Z.of_nat (length items))
  | PStr s => Ok (Z.of_nat (String.length s))
  | PDict d => Ok (Z.of_nat (length d))
  | _ => Raise (MkExn TypeError ("object of type '" ++ type_name o ++ "' has no len()"))
  end.

(** [v == s] for a string literal [s]. *)
Definition eq_str (v : pyval) (s : string) : bool :=
  match v with PStr s' => String.eqb s' s | _ => false end.

(** [v in [s1, ..., sn]] for a list of string literals. *)
Definition in_strs (v : pyval) (l : list string) : bool :=
  existsb (eq_str v) l.

(** [l[:n]] on a list: a negative bound counts from the end. *)
Definition slice_to {A} (n : Z) (l : list A) : list A :=
  if n <? 0 then firstn (length l - Z.to_nat (- n)) l
  else firstn (Z.to_nat n) l.

(** [l[a:b]] for bounds that are not negative. *)
Definition slice {A} (a b : Z) (l : list A) : list A :=
  skipn (Z.to_nat a) (firstn (Z.to_nat b) l).

(** ** Floats *)

(** [int(x)]: truncation toward zero of a finite float; Python raises
    [OverflowError] on infinities and [ValueError] on NaN. *)
Definition float_trunc (x : float) : result Z :=
  match Prim2SF x with
  | S754_zero _ => Ok 0
  | S754_finite s m e =>
      let mag := if 0 <=? e then Z.pos m * 2 ^ e else Z.pos m / 2 ^ (- e) in
      Ok (if s then - mag else mag)
  | S754_infinity _ => Raise (MkExn OverflowError "cannot convert float infinity to integer")
  | S754_nan => Raise (MkExn ValueError "cannot convert float NaN to integer")
  end.

(** [round(x)] with one argument: the nearest integer, ties to even. *)
Definition float_round (x : float) : result Z :=
  match Prim2SF x with
  | S754_zero _ => Ok 0
  | S754_finite s m e =>
      let mag :=
        if 0 <=? e then Z.pos m * 2 ^ e
        else
          let d := 2 ^ (- e) in
          let q := Z.pos m / d in
          let r := Z.pos m mod d in
          if 2 * r <? d then q
          else if d <? 2 * r then q + 1
          else if Z.even q then q else q + 1 in
      Ok (if s then - mag else mag)
  | S754_infinity _ => Raise (MkExn OverflowError "cannot convert float infinity to integer")
  | S754_nan => Raise (MkExn ValueError "cannot convert float NaN to integer")
  end.

(** [max(a, b)] and [min(a, b)] on floats: the first argument wins unless the
    second is strictly beyond it. *)
Definition float_max (a b : float) : float := if PrimFloat.ltb a b then b else a.
Definition float_min (a b : float) : float := if PrimFloat.ltb b a then b else a.

(** ** Upstream services, the request log and the state *)

(** One upstream request, with the reply it received.  An HTTP reply is the
    decoded JSON body, or the exception that [requests.get],
    [raise_for_status] or [json] raised. *)
Inductive Call : Type :=
| HttpGet (url : string) (params : pydict) (reply : result pyval)
| GooglePlaces (query : string) (reply : result pyval)
| GooglePlace (place_id : pyval) (fields : list string) (reply : result pyval).

(** The world outside the process: each service answers a request as a
    function of everything requested before; [getenv] is the process
    environment. *)
Record Services : Type := MkServices {
  http_get : list Call -> string -> pydict -> result pyval;
  places_api : list Call -> string -> result pyval;
  place_api : list Call -> pyval -> list string -> result pyval;
  getenv : string -> option string
}.

(** References to listing dictionaries. *)
Definition loc : Type := positive.

(** A row of the [businesses] table ([leadgen/models.py], [Business]); the
    primary key is the row's position, [created_at] is left out. *)
Record Business : Type := MkBusiness {
  b_yelp_id : pyval;
  b_name : pyval;
  b_address : pyval;
  b_city : pyval;
  b_state : pyval;
  b_zip_code : pyval;
  b_phone : pyval;
  b_website : pyval;
  b_business_type : pyval;
  b_rating : pyval;
  b_review_count : pyval;
  b_price_level : pyval;
  b_yelp_url : pyval;
  b_address_verified : pyval;
  b_address_verification_status : pyval;
  b_verified_address : pyval;
  b_verified_city : pyval;
  b_verified_state : pyval;
  b_verified_zip_code : pyval;
  b_verification_confidence : pyval
}.

Record State : Type := MkState {
  calls : list Call;                  (* upstream requests so far, oldest first *)
  objects : gmap loc pydict;          (* the listing dictionaries *)
  google_cache : gmap string pyval;   (* BusinessFinder.google_cache *)
  google_api_calls : Z;               (* BusinessFinder.google_api_calls *)
  businesses_table : list Business    (* committed rows, oldest first *)
}.

Definition set_calls (f : list Call -> list Call) (st : State) : State :=
  MkState (f (calls st)) (objects st) (google_cache st) (google_api_calls st)
          (businesses_table st).
Definition set_objects (f : gmap loc pydict -> gmap loc pydict) (st : State) : State :=
  MkState (calls st) (f (objects st)) (google_cache st) (google_api_calls st)
          (businesses_table st).
Definition set_google_cache (f : gmap string pyval -> gmap string pyval) (st : State) : State :=
  MkState (calls st) (objects st) (f (google_cache st)) (google_api_calls st)
          (businesses_table st).
Definition set_google_api_calls (f : Z -> Z) (st : State) : State :=
  MkState (calls st) (objects st) (google_cache st) (f (google_api_calls st))
          (businesses_table st).
Definition set_businesses_table (f : list Business -> list Business) (st : State) : State :=
  MkState (calls st) (objects st) (google_cache st) (google_api_calls st)
          (f (businesses_table st)).

(** ** The monad: state that survives an exception *)

Definition M (A : Type) : Type := State -> result A * State.

Definition ret {A} (a : A) : M A := fun st => (Ok a, st).
Definition raise {A} (e : pyexn) : M A := fun st => (Raise e, st).
Definition bind {A B} (m : M A) (k : A -> M B) : M B :=
  fun st =>
    match m st with
    | (Ok a, st') => k a st'
    | (Raise e, st') => (Raise e, st')
    end.
(** [try: m  except Exception as e: h e]. *)
Definition try_except {A} (m : M A) (h : pyexn -> M A) : M A :=
  fun st =>
    match m st with
    | (Ok a, st') => (Ok a, st')
    | (Raise e, st') => h e st'
    end.
(** A pure operation that may raise. *)
Definition lift {A} (r : result A) : M A := fun st => (r, st).

Declare Scope py_scope.
Delimit Scope py_scope with py.
Notation "x <- m ;; k" := (bind m (fun x => k))
  (at level 100, m at next level, right associativity) : py_scope.
Notation "m ;;; k" := (bind m (fun _ => k))
  (at level 100, right associativity) : py_scope.
Local Open Scope py_scope.

Section Pipeline.

Variable svc : Services.
(** [str.lower]: Unicode case mapping, kept abstract. *)
Variable str_lower : string -> string.

(** [requests.get(url, params=params)], [raise_for_status()], [json()]. *)
Definition requests_get (url : string) (params : pydict) : M pyval :=
  fun st =>
    let r := http_get svc (calls st) url params in
    (r, set_calls (fun cs => (cs ++ [HttpGet url params r])%list) st).

(** [google_client.places(query)]. *)
Definition google_places (query : string) : M pyval :=
  fun st =>
    let r := places_api svc (calls st) query in
    (r, set_calls (fun cs => (cs ++ [GooglePlaces query r])%list) st).

(** [google_client.place(place_id, fields=fields)]. *)
Definition google_place (place_id : pyval) (fields : list string) : M pyval :=
  fun st =>
    let r := place_api svc (calls st) place_id fields in
    (r, set_calls (fun cs => (cs ++ [GooglePlace place_id fields r])%list) st).

(** ** smarty_verification.py *)

Record SmartyStreetsVerifier : Type := MkVerifier {
  auth_id : string;
  auth_token : string
}.

Definition base_url : string := "https://us-street.api.smartystreets.com/verify".

(** [SmartyStreetsVerifier._calculate_confidence]. *)
Definition _calculate_confidence (result : pyval) : M float :=
  analysis <- lift (py_get result "analysis" (PDict [])) ;;
  dpv_match <- lift (py_get analysis "dpv_match_code" (PStr "N")) ;;
  (* confidence_map.get(dpv_match, 0.0): the key must be hashable *)
  base_confidence <- lift
    match dpv_match with
    | PStr "Y" => Ok 1.0%float   (* Confirmed deliverable *)
    | PStr "S" => Ok 0.9%float   (* Confirmed deliverable (secondary address) *)
    | PStr "D" => Ok 0.8%float   (* Confirmed deliverable (business) *)
    | PStr "N" => Ok 0.0%float   (* Not deliverable *)
    | PList _ => Raise (MkExn TypeError "unhashable type: 'list'")
    | PDict _ => Raise (MkExn TypeError "unhashable type: 'dict'")
    | _ => Ok 0.0%float
    end ;;
  vacant <- lift (py_get analysis "dpv_vacant" (PBool false)) ;;
  let base_confidence :=
    if truthy vacant then (base_confidence * 0.7)%float else base_confidence in
  cmra <- lift (py_get analysis "dpv_cmra" (PBool false)) ;;
  let base_confidence :=
    if truthy cmra then (base_confidence * 0.9)%float else base_confidence in
  ret (float_min (float_max base_confidence 0.0%float) 1.0%float).

(** The dictionary [verify_address] returns when the address is not
    verified; the source writes it out at each of its four returns. *)
Definition not_verified (status : string) (error : pyval) : pydict :=
  [ ("verified", PBool false);
    ("status", PStr status);
    ("confidence", PFloat 0.0%float);
    ("verified_address", PNone);
    ("verified_city", PNone);
    ("verified_state", PNone);
    ("verified_zip_code", PNone);
    ("error", error) ].

(** The query parameters [verify_address] sends. *)
Definition verify_params (self : SmartyStreetsVerifier)
    (street city state zip_code : pyval) : pydict :=
  [ ("auth-id", PStr (auth_id self));
    ("auth-token", PStr (auth_token self));
    ("street", street);
    ("city", city);
    ("state", state);
    ("zipcode", zip_code) ].

(** The [try] block of [verify_address]. *)
Definition verify_address_try (self : SmartyStreetsVerifier)
    (street city state zip_code : pyval) : M pydict :=
  let params := verify_params self street city state zip_code in
  results <- requests_get base_url params ;;
  if negb (truthy results) then
    ret (not_verified "invalid" (PStr "No results returned"))
  else
    (* Get the first result *)
    result <- lift (py_getitem0 results) ;;
    (* Check if address was verified *)
    analysis <- lift (py_get result "analysis" (PDict [])) ;;
    code <- lift (py_get analysis "dpv_match_code" PNone) ;;
    if in_strs code ["Y"; "S"; "D"] then
      (* Address is deliverable *)
      confidence <- _calculate_confidence result ;;
      delivery_line <- lift (py_get result "delivery_line_1" (PStr "")) ;;
      components <- lift (py_get result "components" (PDict [])) ;;
      city_name <- lift (py_get components "city_name" (PStr "")) ;;
      components <- lift (py_get result "components" (PDict [])) ;;
      state_abbreviation <- lift (py_get components "state_abbreviation" (PStr "")) ;;
      components <- lift (py_get result "components" (PDict [])) ;;
      zipcode <- lift (py_get components "zipcode" (PStr "")) ;;
      ret [ ("verified", PBool true);
            ("status", PStr "verified");
            ("confidence", PFloat confidence);
            ("verified_address", delivery_line);
            ("verified_city", city_name);
            ("verified_state", state_abbreviation);
            ("verified_zip_code", zipcode);
            ("error", PNone) ]
    else
      (* Address is not deliverable *)
      analysis <- lift (py_get result "analysis" (PDict [])) ;;
      footnotes <- lift (py_get analysis "dpv_footnotes" (PStr "Address not deliverable")) ;;
      ret (not_verified "invalid" footnotes).

(** [SmartyStreetsVerifier.verify_address]: the [try] block under its two
    handlers, [except RequestException] and [except Exception]. *)
Definition verify_address (self : SmartyStreetsVerifier)
    (street city state zip_code : pyval) : M pydict :=
  try_except
    (verify_address_try self street city state zip_code)
    (fun e =>
       if is_request_exception e then
         ret (not_verified "error" (PStr ("API Error: " ++ exn_str e)))
       else
         ret (not_verified "error" (PStr ("Unexpected error: " ++ exn_str e)))).

(** [get_smarty_verifier]. *)
Definition get_smarty_verifier : option SmartyStreetsVerifier :=
  match getenv svc "SMARTY_STREETS_AUTH_ID", getenv svc "SMARTY_STREETS_AUTH_TOKEN" with
  | Some id, Some token =>
      if (String.eqb id "" || String.eqb token "")%bool then None
      else Some (MkVerifier id token)
  | _, _ => None
  end.

(** ** Listing objects *)

Definition obj_read (l : loc) : M pydict :=
  fun st =>
    match objects st !! l with
    | Some d => (Ok d, st)
    | None => (Raise (MkExn ReferenceError "no such object"), st)
    end.

(** [o.get(k, default)] on a listing object. *)
Definition obj_get (l : loc) (k : string) (default : pyval) : M pyval :=
  d <- obj_read l ;; ret (dict_get d k default).

(** [k in o] on a listing object. *)
Definition obj_contains (l : loc) (k : string) : M bool :=
  d <- obj_read l ;; ret (dict_has k d).

(** [o[k] = v] on a listing object: the object itself changes. *)
Definition obj_setitem (l : loc) (k : string) (v : pyval) : M unit :=
  d <- obj_read l ;;
  fun st => (Ok tt, set_objects (fun h => <[l := dict_set k v d]> h) st).

(** ** business_finder.py *)

(** [config.BusinessSearchParams]. *)
Record BusinessSearchParams : Type := MkParams {
  city : string;
  industry : string;
  distance_miles : float;
  max_results : Z
}.

Definition yelp_base_url : string := "https://api.yelp.com/v3".

(** The query parameters of one page request of [search_yelp_businesses]. *)
Definition search_params_dict (params : BusinessSearchParams)
    (radius_meters limit offset : Z) : pydict :=
  [ ("term", PStr (industry params));
    ("location", PStr (city params));
    ("radius", PInt radius_meters);
    ("limit", PInt limit);
    ("offset", PInt offset);
    ("sort_by", PStr "rating") ].   (* Sort by rating *)

(** One iteration of the [while] loop of [search_yelp_businesses]: the
    [try] block under its handler.  The result says whether the loop goes
    on, with the new [all_businesses] and [offset].  The two variables
    change only after the last operation of the block that can raise, so
    the handler sees their values at loop entry. *)
Definition search_yelp_page (params : BusinessSearchParams)
    (radius_meters limit : Z) (all_businesses : list pyval) (offset : Z)
    : M (bool * list pyval * Z) :=
  let url := yelp_base_url ++ "/businesses/search" in
  let params_dict := search_params_dict params radius_meters limit offset in
  try_except
    (data <- requests_get url params_dict ;;
     businesses <- lift (py_get data "businesses" (PList [])) ;;
     if negb (truthy businesses) then
       ret (false, all_businesses, offset)       (* No more results *)
     else
       items <- lift (py_iter businesses) ;;
       n <- lift (py_len businesses) ;;
       let all_businesses := (all_businesses ++ items)%list in
       let offset := offset + n in
       (* If we got fewer results than requested, we've reached the end *)
       if n <? limit then ret (false, all_businesses, offset)
       else ret (true, all_businesses, offset))
    (fun e =>
       if is_request_exception e then ret (false, all_businesses, offset)
       else raise e).

(** The [while] loop of [search_yelp_businesses]; the result is the pair
    [(all_businesses, offset)] at loop exit, [None] when [fuel] iterations
    did not reach the exit. *)
Fixpoint search_yelp_loop (fuel : nat) (params : BusinessSearchParams)
    (radius_meters limit : Z) (all_businesses : list pyval) (offset : Z)
    : M (option (list pyval * Z)) :=
  if Z.of_nat (length all_businesses) <? max_results params then
    match fuel with
    | O => ret None
    | S fuel =>
        step <- search_yelp_page params radius_meters limit all_businesses offset ;;
        let '(continue, all_businesses, offset) := step in
        if continue : bool
        then search_yelp_loop fuel params radius_meters limit all_businesses offset
        else ret (Some (all_businesses, offset))
    end
  else ret (Some (all_businesses, offset)).

(** [BusinessFinder.search_yelp_businesses].  The loop gets [max_results]
    iterations of fuel; [None] would mean it needed more. *)
Definition search_yelp_businesses (params : BusinessSearchParams)
    : M (option (list pyval)) :=
  (* Convert miles to meters for Yelp API *)
  radius_meters <- lift (float_trunc (distance_miles params * 1609.34)%float) ;;
  let limit := Z.min 50 (max_results params) in
  r <- search_yelp_loop (Z.to_nat (max_results params)) params radius_meters limit [] 0 ;;
  match r with
  | None => ret None
  | Some (all_businesses, offset) =>
      (* Limit to requested number of results *)
      let all_businesses := slice_to (max_results params) all_businesses in
      (* the log line evaluates offset//limit *)
      if limit =? 0 then raise (MkExn ZeroDivisionError "integer division or modulo by zero")
      else ret (Some all_businesses)
  end.

(** [business_name.lower()]: a method of [str] only. *)
Definition py_lower (v : pyval) : result string :=
  match v with
  | PStr s => Ok (str_lower s)
  | _ => Raise (MkExn AttributeError
                  ("'" ++ type_name v ++ "' object has no attribute 'lower'"))
  end.

Definition detail_fields : list string :=
  [ "name"; "formatted_address"; "formatted_phone_number";
    "business_status"; "opening_hours"; "rating"; "user_ratings_total" ].

(** The [cache_key] of [get_google_business_info] for two strings. *)
Definition cache_key_of (business_name address : string) : string :=
  str_lower business_name ++ "_" ++ str_lower address.

(** [self.google_cache], [self.google_cache[key] = v] and
    [self.google_api_calls += 1]. *)
Definition read_google_cache : M (gmap string pyval) :=
  fun st => (Ok (google_cache st), st).
Definition store_google_cache (key : string) (v : pyval) : M unit :=
  fun st => (Ok tt, set_google_cache (fun c => <[key := v]> c) st).
Definition count_google_api_call : M unit :=
  fun st => (Ok tt, set_google_api_calls (fun n => n + 1) st).

(** [BusinessFinder.get_google_business_info]; [None] is [PNone]. *)
Definition get_google_business_info (business_name address : pyval) : M pyval :=
  (* Create cache key *)
  name_l <- lift (py_lower business_name) ;;
  address_l <- lift (py_lower address) ;;
  let cache_key := name_l ++ "_" ++ address_l in
  cache <- read_google_cache ;;
  (* Check cache first *)
  match cache !! cache_key with
  | Some cached => ret cached
  | None =>
      try_except
        ((* Search for the business *)
         let search_query :=   (* both are strings here: [lower] returned *)
           match business_name, address with
           | PStr n, PStr a => n ++ " " ++ a
           | _, _ => ""
           end in
         places_result <- google_places search_query ;;
         count_google_api_call ;;;
         results <- lift (py_get places_result "results" PNone) ;;
         if truthy results then
           results <- lift (py_getitem places_result "results") ;;
           place <- lift (py_getitem0 results) ;;
           place_id <- lift (py_get place "place_id" PNone) ;;
           (* Get detailed information *)
           details_result <- google_place place_id detail_fields ;;
           count_google_api_call ;;;
           result <- lift (py_get details_result "result" (PDict [])) ;;
           (* Cache the result *)
           store_google_cache cache_key result ;;;
           ret result
         else
           (* Cache None result to avoid repeated failed searches *)
           store_google_cache cache_key PNone ;;;
           ret PNone)
        (fun e =>
           store_google_cache cache_key PNone ;;;
           ret PNone)
  end.

(** [BusinessFinder.fast_verify_business]: [yelp_data] is a listing object,
    [google_data] the cross-reference record or [PNone]. *)
Definition fast_verify_business (yelp_data : loc) (google_data : pyval) : M pydict :=
  (* Extract Yelp info *)
  name <- obj_get yelp_data "name" PNone ;;
  location <- obj_get yelp_data "location" (PDict []) ;;
  address <- lift (py_get location "address1" PNone) ;;
  location <- obj_get yelp_data "location" (PDict []) ;;
  city <- lift (py_get location "city" PNone) ;;
  phone <- obj_get yelp_data "phone" PNone ;;
  rating <- obj_get yelp_data "rating" PNone ;;
  review_count <- obj_get yelp_data "review_count" PNone ;;
  let yelp_info :=
    [ ("name", name); ("address", address); ("city", city);
      ("phone", phone); ("rating", rating); ("review_count", review_count) ] in
  (* Use Yelp data as primary source *)
  let verified_data :=
    [ ("verified_name", dict_get yelp_info "name" PNone);
      ("verified_address", dict_get yelp_info "address" PNone);
      ("verified_city", dict_get yelp_info "city" PNone);
      ("verified_phone", dict_get yelp_info "phone" PNone);
      ("business_status", PStr "unknown");
      ("confidence_level", PStr "medium");
      ("reasoning", PStr "Using Yelp data as primary source");
      ("discrepancies_found", PBool false);
      ("discrepancy_details", PStr "Fast verification used") ] in
  (* Quick Google cross-reference if available *)
  if truthy google_data then
    (* Check for closed business *)
    status <- lift (py_get google_data "business_status" PNone) ;;
    let verified_data :=
      if eq_str status "CLOSED_PERMANENTLY" then
        dict_set "reasoning" (PStr "Google indicates business is permanently closed")
          (dict_set "confidence_level" (PStr "high")
             (dict_set "business_status" (PStr "closed") verified_data))
      else verified_data in
    (* Use Google phone if Yelp doesn't have one *)
    verified_phone <- lift (py_getitem (PDict verified_data) "verified_phone") ;;
    if negb (truthy verified_phone) then
      google_phone <- lift (py_get google_data "formatted_phone_number" PNone) ;;
      if truthy google_phone then
        google_phone <- lift (py_getitem google_data "formatted_phone_number") ;;
        ret (dict_set "verified_phone" google_phone verified_data)
      else ret verified_data
    else ret verified_data
  else ret verified_data.

(** The assignments of [verify_business_address] that add the verification
    data to the listing. *)
Definition add_verification_data (business : loc) (verification_result : pydict)
    : M unit :=
  let vr := PDict verification_result in
  v <- lift (py_getitem vr "verified") ;;
  obj_setitem business "address_verified" v ;;;
  v <- lift (py_getitem vr "status") ;;
  obj_setitem business "address_verification_status" v ;;;
  v <- lift (py_getitem vr "verified_address") ;;
  obj_setitem business "verified_address" v ;;;
  v <- lift (py_getitem vr "verified_city") ;;
  obj_setitem business "verified_city" v ;;;
  v <- lift (py_getitem vr "verified_state") ;;
  obj_setitem business "verified_state" v ;;;
  v <- lift (py_getitem vr "verified_zip_code") ;;
  obj_setitem business "verified_zip_code" v ;;;
  v <- lift (py_getitem vr "confidence") ;;
  obj_setitem business "verification_confidence" v ;;;
  err <- lift (py_getitem vr "error") ;;
  if truthy err then
    err <- lift (py_getitem vr "error") ;;
    obj_setitem business "verification_error" err
  else ret tt.

(** [BusinessFinder.verify_business_address]: returns the object it was
    given. *)
Definition verify_business_address (business : loc) : M loc :=
  match get_smarty_verifier with
  | None => ret business
  | Some verifier =>
      location <- obj_get business "location" (PDict []) ;;
      street <- lift (py_get location "address1" (PStr "")) ;;
      city <- lift (py_get location "city" (PStr "")) ;;
      state <- lift (py_get location "state" (PStr "")) ;;
      zip_code <- lift (py_get location "zip_code" (PStr "")) ;;
      if negb (forallb truthy [street; city; state; zip_code]) then ret business
      else
        (* Verify the address *)
        verification_result <- verify_address verifier street city state zip_code ;;
        (* Add verification data to business *)
        add_verification_data business verification_result ;;;
        ret business
  end.

(** ** leadgen/views/dashboard.py: persisting a page of listings *)

(** [Business.query.filter_by(yelp_id=v).first()].  The column is
    [String, unique, nullable=False]: a string is looked up, [None] matches
    no row; the driver's coercions of other values are not modelled and
    such a value is refused. *)
Definition query_first_by_yelp_id (v : pyval) : M (option Business) :=
  match v with
  | PStr s => fun st => (Ok (List.find (fun b => eq_str (b_yelp_id b) s) (businesses_table st)), st)
  | PNone => ret None
  | _ => raise (MkExn InterfaceError "Error binding parameter: type not supported")
  end.

(** [db.session.add(row); db.session.commit()]: [yelp_id] and [name] are
    [nullable=False], [yelp_id] is [unique]. *)
Definition session_add_commit (row : Business) : M unit :=
  match b_yelp_id row with
  | PStr s =>
      match b_name row with
      | PNone => raise (MkExn IntegrityError "NOT NULL constraint failed: businesses.name")
      | _ =>
          fun st =>
            if existsb (fun b => eq_str (b_yelp_id b) s) (businesses_table st)
            then (Raise (MkExn IntegrityError "UNIQUE constraint failed: businesses.yelp_id"), st)
            else (Ok tt, set_businesses_table (fun t => (t ++ [row])%list) st)
      end
  | PNone => raise (MkExn IntegrityError "NOT NULL constraint failed: businesses.yelp_id")
  | _ => raise (MkExn InterfaceError "Error binding parameter: type not supported")
  end.

(** [Business(yelp_id=business.get('id'), ...)]: the new row, read off the
    listing object. *)
Definition new_business_row (business_type : string) (business : loc) : M Business :=
  yelp_id <- obj_get business "id" PNone ;;
  name <- obj_get business "name" PNone ;;
  location <- obj_get business "location" (PDict []) ;;
  address <- lift (py_get location "address1" (PStr "")) ;;
  location <- obj_get business "location" (PDict []) ;;
  city <- lift (py_get location "city" (PStr "")) ;;
  location <- obj_get business "location" (PDict []) ;;
  state <- lift (py_get location "state" (PStr "")) ;;
  location <- obj_get business "location" (PDict []) ;;
  zip_code <- lift (py_get location "zip_code" (PStr "")) ;;
  phone <- obj_get business "phone" (PStr "") ;;
  website <- obj_get business "url" (PStr "") ;;
  rating <- obj_get business "rating" (PInt 0) ;;
  review_count <- obj_get business "review_count" (PInt 0) ;;
  price_level <- obj_get business "price" (PStr "") ;;
  yelp_url <- obj_get business "url" (PStr "") ;;
  (* Smarty Streets verification fields *)
  address_verified <- obj_get business "address_verified" (PBool false) ;;
  address_verification_status <-
    obj_get business "address_verification_status" (PStr "pending") ;;
  verified_address <- obj_get business "verified_address" PNone ;;
  verified_city <- obj_get business "verified_city" PNone ;;
  verified_state <- obj_get business "verified_state" PNone ;;
  verified_zip_code <- obj_get business "verified_zip_code" PNone ;;
  verification_confidence <-
    obj_get business "verification_confidence" (PFloat 0.0%float) ;;
  ret (MkBusiness yelp_id name address city state zip_code phone website
         (PStr business_type) rating review_count price_level yelp_url
         address_verified address_verification_status verified_address
         verified_city verified_state verified_zip_code verification_confidence).

(** The branch of the loop body for a listing that is not stored yet:
    verify its address, build its row, commit it. *)
Definition store_new_business (business_type : string) (business : loc) : M Business :=
  (* Verify address if Smarty Streets is available *)
  has <- obj_contains business "address_verified" ;;
  business <- (if negb has then verify_business_address business else ret business) ;;
  (* Create new business record *)
  new_business <- new_business_row business_type business ;;
  session_add_commit new_business ;;;
  ret new_business.

(** The body of the [for business in businesses[start_idx:end_idx]] loop of
    the [search_businesses] view: one listing. *)
Definition ingest_business (business_type : string) (business : loc) : M Business :=
  (* Check if business already exists *)
  id <- obj_get business "id" PNone ;;
  existing_business <- query_first_by_yelp_id id ;;
  match existing_business with
  | Some existing => ret existing
  | None => store_new_business business_type business
  end.

(** The whole loop over the page; the result is the [results] list.  An
    exception leaves the loop (the view answers 500) and keeps the rows
    committed before it. *)
Fixpoint ingest_page (business_type : string) (page : list loc) : M (list Business) :=
  match page with
  | [] => ret []
  | business :: rest =>
      row <- ingest_business business_type business ;;
      rows <- ingest_page business_type rest ;;
      ret (row :: rows)
  end.

(** ** yelp_api_client.py *)

Definition DEFAULT_LIMIT : Z := 50.

(** [YelpAPIClient._make_search_request]. *)
Definition _make_search_request (location : string) (business_type : pyval)
    (radius limit offset : Z) : M pyval :=
  let url := yelp_base_url ++ "/businesses/search" in
  let params :=
    [ ("location", PStr location);
      ("radius", PInt radius);
      ("limit", PInt limit);
      ("offset", PInt offset);
      ("sort_by", PStr "best_match") ] in
  let params :=
    if truthy business_type then dict_set "categories" business_type params
    else params in
  try_except (requests_get url params)
    (fun e => if is_request_exception e then ret PNone else raise e).

(** [', '.join(parts)]: every part must be a string. *)
Fixpoint join_comma (parts : list pyval) : result string :=
  match parts with
  | [] => Ok ""
  | [PStr s] => Ok s
  | PStr s :: rest =>
      match join_comma rest with
      | Ok r => Ok (s ++ ", " ++ r)
      | Raise e => Raise e
      end
  | _ :: _ => Raise (MkExn TypeError "sequence item: expected str instance")
  end.

(** [YelpAPIClient._format_address]. *)
Definition _format_address (location : pyval) : M string :=
  let add (field : string) (address_parts : list pyval) : M (list pyval) :=
    v <- lift (py_get location field PNone) ;;
    if truthy v then
      v <- lift (py_getitem location field) ;;
      ret (address_parts ++ [v])%list
    else ret address_parts in
  address_parts <- add "address1" [] ;;
  address_parts <- add "address2" address_parts ;;
  address_parts <- add "address3" address_parts ;;
  lift (join_comma address_parts).

(** [YelpAPIClient._get_primary_category]. *)
Definition _get_primary_category (categories : pyval) : M pyval :=
  if negb (truthy categories) then ret (PStr "other")
  else
    (* Return the first category's alias *)
    first <- lift (py_getitem0 categories) ;;
    lift (py_get first "alias" (PStr "other")).

(** [YelpAPIClient._process_business]. *)
Definition _process_business (business : pyval) : M pyval :=
  location <- lift (py_get business "location" (PDict [])) ;;
  coordinates <- lift (py_get business "coordinates" (PDict [])) ;;
  yelp_id <- lift (py_get business "id" PNone) ;;
  name <- lift (py_get business "name" PNone) ;;
  address <- _format_address location ;;
  city <- lift (py_get location "city" PNone) ;;
  state <- lift (py_get location "state" PNone) ;;
  zip_code <- lift (py_get location "zip_code" PNone) ;;
  phone <- lift (py_get business "phone" PNone) ;;
  website <- lift (py_get business "url" PNone) ;;
  categories <- lift (py_get business "categories" (PList [])) ;;
  business_type <- _get_primary_category categories ;;
  rating <- lift (py_get business "rating" PNone) ;;
  review_count <- lift (py_get business "review_count" PNone) ;;
  price_level <- lift (py_get business "price" PNone) ;;
  yelp_url <- lift (py_get business "url" PNone) ;;
  latitude <- lift (py_get coordinates "latitude" PNone) ;;
  longitude <- lift (py_get coordinates "longitude" PNone) ;;
  image_url <- lift (py_get business "image_url" PNone) ;;
  is_closed <- lift (py_get business "is_closed" (PBool false)) ;;
  ret (PDict
    [ ("yelp_id", yelp_id); ("name", name); ("address", PStr address);
      ("city", city); ("state", state); ("zip_code", zip_code);
      ("phone", phone); ("website", website); ("business_type", business_type);
      ("rating", rating); ("review_count", review_count);
      ("price_level", price_level); ("yelp_url", yelp_url);
      ("latitude", latitude); ("longitude", longitude);
      ("image_url", image_url); ("is_closed", is_closed) ]).

(** The [for business in response.get('businesses', [])] loop of
    [search_businesses]: the list as it stands when the loop ends, and the
    exception that ended it, if one did. *)
Fixpoint process_page (items : list pyval) (max_results : Z)
    (businesses : list pyval) : M (list pyval * option pyexn) :=
  match items with
  | [] => ret (businesses, None)
  | business :: rest =>
      if max_results <=? Z.of_nat (length businesses) then ret (businesses, None)
      else
        r <- try_except
               (processed_business <- _process_business business ;;
                ret (inl processed_business))
               (fun e => ret (inr e)) ;;
        match r with
        | inl processed_business =>
            process_page rest max_results (businesses ++ [processed_business])%list
        | inr e => ret (businesses, Some e)
        end
  end.

(** One iteration of the [while] loop of [YelpAPIClient.search_businesses]:
    the [try] block under its handler, which ends the loop on every
    exception.  The result says whether the loop goes on, with the new
    [businesses] and [offset]. *)
Definition search_businesses_page (location : string) (business_type : pyval)
    (radius max_results current_limit : Z) (businesses : list pyval) (offset : Z)
    : M (bool * list pyval * Z) :=
  try_except
    ((* Make API request *)
     response <- _make_search_request location business_type radius
                   current_limit offset ;;
     if negb (truthy response) then ret (false, businesses, offset)
     else
       (* Process results *)
       page <- lift (py_get response "businesses" (PList [])) ;;
       items <- lift (py_iter page) ;;
       r <- process_page items max_results businesses ;;
       match r with
       | (businesses, Some e) => ret (false, businesses, offset)
       | (businesses, None) =>
           (* Check if we have more results *)
           more <- try_except
             (page <- lift (py_get response "businesses" (PList [])) ;;
              n <- lift (py_len page) ;;
              ret (negb (n <? current_limit)))
             (fun e => ret false) ;;
           if more : bool then ret (true, businesses, offset + current_limit)
           else ret (false, businesses, offset)
       end)
    (fun e => ret (false, businesses, offset)).

(** The [while] loop of [YelpAPIClient.search_businesses]; [None] when
    [fuel] iterations did not reach the exit. *)
Fixpoint search_businesses_loop (fuel : nat) (location : string)
    (business_type : pyval) (radius max_results limit : Z)
    (businesses : list pyval) (offset : Z) : M (option (list pyval)) :=
  if Z.of_nat (length businesses) <? max_results then
    match fuel with
    | O => ret None
    | S fuel =>
        (* Calculate how many results to fetch *)
        let remaining := max_results - Z.of_nat (length businesses) in
        let current_limit := Z.min limit remaining in
        step <- search_businesses_page location business_type radius max_results
                  current_limit businesses offset ;;
        let '(continue, businesses, offset) := step in
        if continue : bool
        then search_businesses_loop fuel location business_type radius
               max_results limit businesses offset
        else ret (Some businesses)
    end
  else ret (Some businesses).

(** [YelpAPIClient.search_businesses]; [self.api_key] is the environment's
    [YELP_API_KEY]. *)
Definition search_businesses (location : string) (business_type : pyval)
    (radius max_results : Z) : M (option (list pyval)) :=
  match getenv svc "YELP_API_KEY" with
  | None | Some "" => raise (MkExn ValueError "Yelp API key is required")
  | Some _ =>
      let limit := Z.min DEFAULT_LIMIT max_results in
      r <- search_businesses_loop (Z.to_nat max_results) location business_type
             radius max_results limit [] 0 ;;
      match r with
      | None => ret None
      | Some businesses => ret (Some (slice_to max_results businesses))
      end
  end.

End Pipeline.

(** * Vocabulary of the specification *)

Definition run {A} (m : M A) (st : State) : result A := fst (m st).
Definition exec {A} (m : M A) (st : State) : State := snd (m st).

(** A computation whose every run relates the state it starts in to the
    state it ends in, whether it returns or raises. *)
Definition preserves {A} (R : State -> State -> Prop) (m : M A) : Prop :=
  forall st, R st (snd (m st)).

(** Total correctness: from a state satisfying [Pre], [m] returns, and its
    value and final state satisfy [Post]. *)
Definition total {A} (Pre : State -> Prop) (m : M A) (Post : A -> State -> Prop)
    : Prop :=
  forall st, Pre st -> exists a st', m st = (Ok a, st') /\ Post a st'.

(** The listing objects and the table are as they were: the computation may
    have issued requests and filled the cross-reference cache. *)
Definition reads_only (st st' : State) : Prop :=
  objects st' = objects st /\ businesses_table st' = businesses_table st.

(** The keys [verify_business_address] writes into a listing. *)
Definition verification_keys : list string :=
  [ "address_verified"; "address_verification_status"; "verified_address";
    "verified_city"; "verified_state"; "verified_zip_code";
    "verification_confidence"; "verification_error" ].

(** Nothing changed but the request log. *)
Definition only_requests (st st' : State) : Prop :=
  objects st' = objects st /\
  google_cache st' = google_cache st /\
  google_api_calls st' = google_api_calls st /\
  businesses_table st' = businesses_table st.

(** Two contents of one listing agree on every key outside [keys]. *)
Definition agree_outside (keys : list string) (d d' : pydict) : Prop :=
  forall k, ~ In k keys -> dict_lookup k d' = dict_lookup k d.

(** Nothing changed but, at most, the values under [keys] in the listing
    object [l]; requests may have been issued. *)
Definition writes_only (keys : list string) (l : loc) (st st' : State) : Prop :=
  google_cache st' = google_cache st /\
  google_api_calls st' = google_api_calls st /\
  businesses_table st' = businesses_table st /\
  (forall l', l' <> l -> objects st' !! l' = objects st !! l') /\
  match objects st !! l, objects st' !! l with
  | Some d, Some d' => agree_outside keys d d'
  | None, None => True
  | _, _ => False
  end.

(** ** Verification results *)

(** What the caller reads in a verification result. *)
Definition vr_verified (d : pydict) : option pyval := dict_lookup "verified" d.
Definition vr_status (d : pydict) : option pyval := dict_lookup "status" d.
Definition vr_confidence (d : pydict) : option pyval := dict_lookup "confidence" d.
Definition vr_error (d : pydict) : option pyval := dict_lookup "error" d.

(** The reply the verification service gives to a request in state [st]. *)
Definition smarty_reply (svc : Services) (self : SmartyStreetsVerifier)
    (street city state zip_code : pyval) (st : State) : result pyval :=
  http_get svc (calls st) base_url (verify_params self street city state zip_code).

(** [results[0].get('analysis', {}).get(key, default)], read the way
    [verify_address] and [_calculate_confidence] read it; [None] when one of
    the steps raises. *)
Definition response_analysis (results : pyval) (key : string) (default : pyval)
    : option pyval :=
  match py_getitem0 results with
  | Ok result =>
      match py_get result "analysis" (PDict []) with
      | Ok analysis =>
          match py_get analysis key default with
          | Ok v => Some v
          | Raise _ => None
          end
      | Raise _ => None
      end
  | Raise _ => None
  end.

(** The DPV match code of a response. *)
Definition response_match_code (results : pyval) : option pyval :=
  response_analysis results "dpv_match_code" PNone.

(** An auxiliary flag of the response is set. *)
Definition response_flag (results : pyval) (flag : string) : bool :=
  match response_analysis results flag (PBool false) with
  | Some v => truthy v
  | None => false
  end.

(** The component fields of a response, [results[0].get('components', {})],
    when they are a JSON object. *)
Definition response_components (results : pyval) : option pydict :=
  match py_getitem0 results with
  | Ok result =>
      match py_get result "components" (PDict []) with
      | Ok (PDict c) => Some c
      | _ => None
      end
  | Raise _ => None
  end.

(** The keys every verification result carries. *)
Definition result_keys : list string :=
  [ "verified"; "status"; "confidence"; "verified_address"; "verified_city";
    "verified_state"; "verified_zip_code"; "error" ].

Definition has_result_keys (d : pydict) : bool :=
  forallb (fun k => dict_has k d) result_keys.

(** Status "error", confidence 0.0 and a non-empty error string. *)
Definition is_error_result (d : pydict) : Prop :=
  vr_verified d = Some (PBool false) /\
  vr_status d = Some (PStr "error") /\
  vr_confidence d = Some (PFloat 0.0%float) /\
  exists msg, vr_error d = Some (PStr msg) /\ (0 < String.length msg)%nat.

(** ** Listings and cross-reference records *)

(** The address components of a listing, when [location] is a JSON object
    or is absent. *)
Definition listing_location (d : pydict) : option pydict :=
  match dict_get d "location" (PDict []) with
  | PDict l => Some l
  | _ => None
  end.

(** A cross-reference is a record (a JSON object) or absent ([None]). *)
Definition cross_reference_ok (g : pyval) : Prop :=
  match g with
  | PNone | PDict _ => True
  | _ => False
  end.

(** The cross-reference record says the business is permanently closed. *)
Definition indicates_closed (g : pyval) : bool :=
  match g with
  | PDict e =>
      match dict_lookup "business_status" e with
      | Some (PStr s) => String.eqb s "CLOSED_PERMANENTLY"
      | _ => false
      end
  | _ => false
  end.

(** The phone number a cross-reference record carries, if it carries one. *)
Definition cross_reference_phone (g : pyval) : option pyval :=
  match g with
  | PDict e =>
      match dict_lookup "formatted_phone_number" e with
      | Some p => if truthy p then Some p else None
      | None => None
      end
  | _ => None
  end.

(** One of the four address fields [verify_business_address] needs is
    missing or empty. *)
Definition address_incomplete (d : pydict) : Prop :=
  exists l, listing_location d = Some l /\
    forallb truthy [ dict_get l "address1" (PStr ""); dict_get l "city" (PStr "");
                     dict_get l "state" (PStr ""); dict_get l "zip_code" (PStr "") ]
    = false.

(** The listing has no phone: the field is missing, [None] or empty. *)
Definition phone_missing (d : pydict) : Prop :=
  truthy (dict_get d "phone" PNone) = false.

Definition out_confidence_level (v : pydict) : option pyval := dict_lookup "confidence_level" v.
Definition out_business_status (v : pydict) : option pyval := dict_lookup "business_status" v.
Definition out_phone (v : pydict) : option pyval := dict_lookup "verified_phone" v.

(** ** Directory search *)

(** The listings a logged page request received: the items the search loop
    draws from [data.get("businesses", [])]; none when the request failed or
    the body carries no such sequence. *)
Definition page_items (c : Call) : list pyval :=
  match c with
  | HttpGet _ _ (Ok data) =>
      match py_get data "businesses" (PList []) with
      | Ok businesses =>
          match py_iter businesses with
          | Ok items => items
          | Raise _ => []
          end
      | Raise _ => []
      end
  | _ => []
  end.

Definition page_size (c : Call) : Z := Z.of_nat (length (page_items c)).

(** A query parameter of a logged HTTP request. *)
Definition request_param (k : string) (c : Call) : option pyval :=
  match c with
  | HttpGet _ params _ => dict_lookup k params
  | _ => None
  end.

(** A reply of the directory API as the provider sends it: a JSON object
    whose [businesses], when present, is a list; or a transport failure. *)
Definition well_formed_page (reply : result pyval) : Prop :=
  match reply with
  | Ok (PDict data) =>
      match dict_get data "businesses" (PList []) with
      | PList _ => True
      | _ => False
      end
  | Ok _ => False
  | Raise e => is_request_exception e = true
  end.

Definition directory_well_formed (svc : Services) : Prop :=
  forall cs url params, well_formed_page (http_get svc cs url params).

(** The page-size cap: the provider's maximum, or [max_results] if less. *)
Definition page_cap (max_results : Z) : Z := Z.min 50 max_results.

(** ** Cross-reference lookups *)

(** The place identifier the search step of a lookup resolves from the
    reply of the place search, if it resolves one: the search succeeded,
    its [results] are not empty and the first is a record. *)
Definition search_candidate (reply : result pyval) : option pyval :=
  match reply with
  | Ok places_result =>
      match py_get places_result "results" PNone with
      | Ok results =>
          if truthy results then
            match py_getitem places_result "results" with
            | Ok results =>
                match py_getitem0 results with
                | Ok place =>
                    match py_get place "place_id" PNone with
                    | Ok place_id => Some place_id
                    | Raise _ => None
                    end
                | Raise _ => None
                end
            | Raise _ => None
            end
          else None
      | Raise _ => None
      end
  | Raise _ => None
  end.

(** What kind of upstream request a log entry is. *)
Inductive CallKind : Type := Http | PlaceSearch | PlaceDetail.

Definition call_kind (c : Call) : CallKind :=
  match c with
  | HttpGet _ _ _ => Http
  | GooglePlaces _ _ => PlaceSearch
  | GooglePlace _ _ _ => PlaceDetail
  end.

(** The number of upstream requests issued between two states. *)
Definition calls_between (st st' : State) : Z :=
  Z.of_nat (length (calls st')) - Z.of_nat (length (calls st)).

(** A sequence of lookups, one after the other; a lookup that raises (its
    arguments are not strings) does not stop the next. *)
Fixpoint lookups (svc : Services) (str_lower : string -> string)
    (queries : list (pyval * pyval)) : M unit :=
  match queries with
  | [] => ret tt
  | (business_name, address) :: rest =>
      try_except
        (get_google_business_info svc str_lower business_name address ;;; ret tt)
        (fun _ => ret tt) ;;;
      lookups svc str_lower rest
  end.

(** ** The stored table *)

(** A row with external identifier [s] is stored. *)
Definition stored (s : string) (table : list Business) : bool :=
  existsb (fun b => eq_str (b_yelp_id b) s) table.

(** The row stored under the external identifier [s], if one is. *)
Definition stored_row (s : string) (table : list Business) : option Business :=
  List.find (fun b => eq_str (b_yelp_id b) s) table.

(** The listing objects of two states agree outside the verification
    keys. *)
Definition objects_agree (st st' : State) : Prop :=
  forall l,
    match objects st !! l, objects st' !! l with
    | Some d, Some d' => agree_outside verification_keys d d'
    | None, None => True
    | _, _ => False
    end.

(** What ingestion does to the state: rows are only appended, listings
    change in their verification keys only. *)
Definition ingest_rel (st st' : State) : Prop :=
  objects_agree st st' /\
  exists new, businesses_table st' = (businesses_table st ++ new)%list.

(** The view takes the listing: it has a string identifier that is already
    stored, or else a name and address components to store. *)
Definition acceptable (st : State) (l : loc) : Prop :=
  exists d s,
    objects st !! l = Some d /\
    dict_get d "id" PNone = PStr s /\
    (stored s (businesses_table st) = true \/
     (is_Some (listing_location d) /\ dict_get d "name" PNone <> PNone)).

(** * Stub services and sample data *)

(** Services that give the same reply to every request. *)
Definition stub_services (http places place : result pyval)
    (env : string -> option string) : Services :=
  MkServices (fun _ _ _ => http) (fun _ _ => places) (fun _ _ _ => place) env.

Definition no_env : string -> option string := fun _ => None.

(** A fresh finder holding the listing objects [objs]. *)
Definition initial_state (objs : gmap loc pydict) : State :=
  MkState [] objs ∅ 0 [].

(** A listing with no phone. *)
Definition sample_listing : pydict :=
  [ ("id", PStr "abc123");
    ("name", PStr "Hattie B's");
    ("location",
      PDict [ ("address1", PStr "112 19th Ave S"); ("city", PStr "Nashville");
              ("state", PStr "TN"); ("zip_code", PStr "37203") ]);
    ("rating", PFloat 4.5%float);
    ("review_count", PInt 120) ].

Definition sample_closed_record : pyval :=
  PDict [ ("name", PStr "Hattie B's");
          ("business_status", PStr "CLOSED_PERMANENTLY") ].

Definition sample_phone_record : pyval :=
  PDict [ ("business_status", PStr "OPERATIONAL");
          ("formatted_phone_number", PStr "615-555-0100") ].

(** [str.lower] on the ASCII letters. *)
Fixpoint ascii_lower (s : string) : string :=
  match s with
  | EmptyString => EmptyString
  | String c rest =>
      let n := Ascii.nat_of_ascii c in
      String (if ((65 <=? n) && (n <=? 90))%nat then Ascii.ascii_of_nat (n + 32) else c)
             (ascii_lower rest)
  end.

(** A directory that answers every page request with no listing. *)
Definition empty_directory : Services :=
  stub_services (Ok (PDict [ ("businesses", PList []); ("total", PInt 0) ]))
                (Raise (MkExn ValueError "unused"))
                (Raise (MkExn ValueError "unused"))
                no_env.

(** A directory that answers every page request with the same three
    listings. *)
Definition three_listings : Services :=
  stub_services
    (Ok (PDict [ ("businesses",
                   PList [ PDict sample_listing;
                           PDict [ ("id", PStr "def456"); ("name", PStr "Prince's") ];
                           PDict [ ("id", PStr "ghi789"); ("name", PStr "Bolton's") ] ]);
                 ("total", PInt 3) ]))
    (Ok (PDict [ ("results", PList []) ]))
    (Raise (MkExn ValueError "unused"))
    (fun k => if String.eqb k "YELP_API_KEY" then Some "key" else None).

Definition nashville_restaurants (miles : float) (n : Z) : BusinessSearchParams :=
  MkParams "Nashville, TN" "restaurants" miles n.

(** An address verification service that confirms every address with match
    code "Y" and no auxiliary flag; its credentials are in the environment. *)
Definition confirming_verifier : Services :=
  stub_services
    (Ok (PList [ PDict [ ("delivery_line_1", PStr "112 19th Ave S");
                         ("components",
                           PDict [ ("city_name", PStr "Nashville");
                                   ("state_abbreviation", PStr "TN");
                                   ("zipcode", PStr "37203") ]);
                         ("analysis",
                           PDict [ ("dpv_match_code", PStr "Y");
                                   ("dpv_footnotes", PStr "AABB") ]) ] ]))
    (Ok (PDict [ ("results", PList []) ]))
    (Raise (MkExn ValueError "unused"))
    (fun k => if String.eqb k "SMARTY_STREETS_AUTH_ID" then Some "id"
              else if String.eqb k "SMARTY_STREETS_AUTH_TOKEN" then Some "token"
              else None).

(** A place search that finds nothing. *)
Definition no_match_services : Services :=
  stub_services (Raise (MkExn RequestException "unreachable"))
                (Ok (PDict [ ("results", PList []); ("status", PStr "ZERO_RESULTS") ]))
                (Raise (MkExn ValueError "unused"))
                no_env.

(** A place search that finds one place, whose details carry a phone. *)
Definition match_services : Services :=
  stub_services (Raise (MkExn RequestException "unreachable"))
                (Ok (PDict [ ("results", PList [ PDict [ ("place_id", PStr "p1") ] ]) ]))
                (Ok (PDict [ ("result", sample_phone_record) ]))
                no_env.

(** * The remaining entry points *)

(** [l[a:b]] on a list, for any two integers: a negative bound counts from
    the end, and both are clamped to the list. *)
Definition py_slice {A} (a b : Z) (l : list A) : list A :=
  let n := Z.of_nat (length l) in
  let clamp (i : Z) := if i <? 0 then Z.max (i + n) 0 else Z.min i n in
  skipn (Z.to_nat (clamp a)) (firstn (Z.to_nat (clamp b)) l).

Section Entries.

Variable svc : Services.
Variable str_lower : string -> string.
(** [str(v)] of a value that is not a string, kept abstract. *)
Variable py_repr : pyval -> string.

(** ** smarty_verification.py *)

(** [SmartyStreetsVerifier.batch_verify_addresses], over the items of
    [addresses]. *)
Fixpoint batch_verify_addresses (self : SmartyStreetsVerifier)
    (addresses : list pyval) : M (list pydict) :=
  match addresses with
  | [] => ret []
  | address :: rest =>
      street <- lift (py_get address "street" (PStr "")) ;;
      city <- lift (py_get address "city" (PStr "")) ;;
      state <- lift (py_get address "state" (PStr "")) ;;
      zip_code <- lift (py_get address "zip_code" (PStr "")) ;;
      result <- verify_address svc self street city state zip_code ;;
      results <- batch_verify_addresses self rest ;;
      ret (result :: results)
  end.

(** ** business_finder.py *)

(** [models.VerifiedBusiness]. *)
Record VerifiedBusiness : Type := MkVerifiedBusiness {
  vb_name : pyval;
  vb_address : pyval;
  vb_phone_number : pyval;
  vb_city : pyval;
  vb_source : string;
  vb_verification_metadata : pydict
}.

(** A replacement field of an f-string: [format(v, '')]. *)
Definition format_value (v : pyval) : string :=
  match v with
  | PStr s => s
  | _ => py_repr v
  end.

(** [BusinessFinder._process_single_business]: the [try] block under
    [except Exception], which answers [None]. *)
Definition _process_single_business (yelp_business : loc)
    : M (option VerifiedBusiness) :=
  try_except
    ((* Get Google data for cross-referencing *)
     location <- obj_get yelp_business "location" (PDict []) ;;
     yelp_address <- lift (py_get location "address1" (PStr "")) ;;
     name <- obj_get yelp_business "name" (PStr "") ;;
     google_data <- get_google_business_info svc str_lower name yelp_address ;;
     (* Fast verification *)
     verified_data <- fast_verify_business yelp_business google_data ;;
     (* Create verification metadata *)
     yelp_rating <- obj_get yelp_business "rating" PNone ;;
     yelp_review_count <- obj_get yelp_business "review_count" PNone ;;
     let verification_metadata :=
       [ ("confidence_level", dict_get verified_data "confidence_level" PNone);
         ("business_status", dict_get verified_data "business_status" PNone);
         ("discrepancies_found", dict_get verified_data "discrepancies_found" PNone);
         ("discrepancy_details", dict_get verified_data "discrepancy_details" PNone);
         ("yelp_rating", yelp_rating);
         ("yelp_review_count", yelp_review_count) ] in
     (* Create VerifiedBusiness object *)
     ret (Some (MkVerifiedBusiness
       (dict_get verified_data "verified_name" PNone)
       (dict_get verified_data "verified_address" PNone)
       (dict_get verified_data "verified_phone" PNone)
       (dict_get verified_data "verified_city" PNone)
       ("Yelp+Google_Fast_Verified_" ++
          format_value (dict_get verified_data "confidence_level" (PStr "unknown")))
       verification_metadata)))
    (fun e => ret None).

(** [BusinessFinder.get_api_usage_stats]. *)
Definition get_api_usage_stats : M pydict :=
  fun st =>
    let values := (map_to_list (google_cache st)).*2 in
    let is_none (v : pyval) := match v with PNone => true | _ => false end in
    (Ok [ ("google_api_calls", PInt (google_api_calls st));
          ("google_cache_size", PInt (Z.of_nat (size (google_cache st))));
          ("google_cache_hits",
             PInt (Z.of_nat (length (List.filter (fun v => negb (is_none v)) values))));
          ("google_cache_misses",
             PInt (Z.of_nat (length (List.filter is_none values)))) ],
     st).

(** [BusinessFinder.clear_google_cache]. *)
Definition clear_google_cache : M unit :=
  fun st => (Ok tt, set_google_cache (fun _ => ∅) st).

(** ** yelp_api_client.py *)


(** One iteration of the [while] loop of
    [YelpAPIClient.search_businesses_by_coordinates]: the [try] block under
    its handler, which ends the loop on every exception. *)
Definition search_by_coordinates_page (latitude longitude business_type : pyval)
    (radius max_results current_limit : Z) (businesses : list pyval) (offset : Z)
    : M (bool * list pyval * Z) :=
  try_except
    (let url := yelp_base_url ++ "/businesses/search" in
     let params :=
       [ ("latitude", latitude);
         ("longitude", longitude);
         ("radius", PInt radius);
         ("limit", PInt current_limit);
         ("offset", PInt offset);
         ("sort_by", PStr "best_match") ] in
     let params :=
       if truthy business_type then dict_set "categories" business_type params
       else params in
     data <- requests_get svc url params ;;
     page <- lift (py_get data "businesses" (PList [])) ;;
     items <- lift (py_iter page) ;;
     r <- process_page items max_results businesses ;;
     match r with
     | (businesses, Some e) => ret (false, businesses, offset)
     | (businesses, None) =>
         more <- try_except
           (page <- lift (py_get data "businesses" (PList [])) ;;
            n <- lift (py_len page) ;;
            ret (negb (n <? current_limit)))
           (fun e => ret false) ;;
         if more : bool then ret (true, businesses, offset + current_limit)
         else ret (false, businesses, offset)
     end)
    (fun e => ret (false, businesses, offset)).

(** The [while] loop of [search_businesses_by_coordinates]; [None] when
    [fuel] iterations did not reach the exit. *)
Fixpoint search_by_coordinates_loop (fuel : nat)
    (latitude longitude business_type : pyval) (radius max_results limit : Z)
    (businesses : list pyval) (offset : Z) : M (option (list pyval)) :=
  if Z.of_nat (length businesses) <? max_results then
    match fuel with
    | O => ret None
    | S fuel =>
        let remaining := max_results - Z.of_nat (length businesses) in
        let current_limit := Z.min limit remaining in
        step <- search_by_coordinates_page latitude longitude business_type radius
                  max_results current_limit businesses offset ;;
        let '(continue, businesses, offset) := step in
        if continue : bool
        then search_by_coordinates_loop fuel latitude longitude business_type
               radius max_results limit businesses offset
        else ret (Some businesses)
    end
  else ret (Some businesses).

(** [YelpAPIClient.search_businesses_by_coordinates]. *)
Definition search_businesses_by_coordinates (latitude longitude business_type : pyval)
    (radius max_results : Z) : M (option (list pyval)) :=
  match getenv svc "YELP_API_KEY" with
  | None | Some "" => raise (MkExn ValueError "Yelp API key is required")
  | Some _ =>
      let limit := Z.min DEFAULT_LIMIT max_results in
      r <- search_by_coordinates_loop (Z.to_nat max_results) latitude longitude
             business_type radius max_results limit [] 0 ;;
      match r with
      | None => ret None
      | Some businesses => ret (Some (slice_to max_results businesses))
      end
  end.

End Entries.

(** ** leadgen/views/dashboard.py: the page of a search *)

(** [businesses[start_idx:end_idx]] of the [search_businesses] view. *)
Definition page_window {A} (page size : Z) (businesses : list A) : list A :=
  let start_idx := (page - 1) * size in
  let end_idx := start_idx + size in
  py_slice start_idx end_idx businesses.

(** [has_more] of the [search_businesses] view. *)
Definition has_more {A} (page size : Z) (businesses : list A) : bool :=
  let start_idx := (page - 1) * size in
  let end_idx := start_idx + size in
  end_idx <? Z.of_nat (length businesses).

(** ** Shapes of a verification result *)

(** A confirmed address: verified, status "verified", no error, and a
    confidence between 0.5 and 1. *)
Definition confirmed_result (d : pydict) : Prop :=
  vr_verified d = Some (PBool true) /\
  vr_status d = Some (PStr "verified") /\
  vr_error d = Some PNone /\
  exists c, vr_confidence d = Some (PFloat c) /\
            PrimFloat.leb 0.5 c = true /\ PrimFloat.leb c 1 = true.

(** An address that was not confirmed: not verified, status "invalid" or
    "error", confidence 0.0 and no verified address field. *)
Definition rejected_result (d : pydict) : Prop :=
  vr_verified d = Some (PBool false) /\
  (vr_status d = Some (PStr "invalid") \/ vr_status d = Some (PStr "error")) /\
  vr_confidence d = Some (PFloat 0.0%float) /\
  Forall (fun k => dict_lookup k d = Some PNone)
    [ "verified_address"; "verified_city"; "verified_state"; "verified_zip_code" ].

(** The request [verify_address] sends in state [st], with its reply. *)
Definition smarty_call (svc : Services) (self : SmartyStreetsVerifier)
    (street city state zip_code : pyval) (st : State) : Call :=
  HttpGet base_url (verify_params self street city state zip_code)
    (smarty_reply svc self street city state zip_code st).

(** ** Batches of addresses *)

Definition is_record (v : pyval) : bool :=
  match v with PDict _ => true | _ => false end.

(** The items of a list before its first item that is not a record. *)
Fixpoint leading_records (l : list pyval) : list pyval :=
  match l with
  | [] => []
  | v :: rest => if is_record v then v :: leading_records rest else []
  end.

(** [address.get(k, '')] of an address record. *)
Definition address_field (address : pyval) (k : string) : pyval :=
  match address with
  | PDict d => dict_get d k (PStr "")
  | _ => PStr ""
  end.

(** The endpoint and the query parameters of a logged HTTP request. *)
Definition call_request (c : Call) : option (string * pydict) :=
  match c with
  | HttpGet url params _ => Some (url, params)
  | _ => None
  end.

(** The verification request for an address record. *)
Definition address_request (self : SmartyStreetsVerifier) (address : pyval)
    : option (string * pydict) :=
  Some (base_url,
        verify_params self (address_field address "street")
          (address_field address "city") (address_field address "state")
          (address_field address "zip_code")).

(** ** Paging *)

(** The page requests [cs] follow one another: the first asks for the
    listings from [offset] on, each next one from where the page before it
    ended, and each asks for [limit] listings. *)
Fixpoint offsets_chain (limit offset : Z) (cs : list Call) : Prop :=
  match cs with
  | [] => True
  | c :: rest =>
      request_param "offset" c = Some (PInt offset) /\
      request_param "limit" c = Some (PInt limit) /\
      offsets_chain limit (offset + page_size c) rest
  end.

(** ** Usage counters *)

(** The upstream request of a log entry returned (it did not raise). *)
Definition call_returned (c : Call) : bool :=
  match c with
  | HttpGet _ _ (Ok _) | GooglePlaces _ (Ok _) | GooglePlace _ _ (Ok _) => true
  | _ => false
  end.

(** A field of the usage statistics. *)
Definition stat (stats : pydict) (k : string) : Z :=
  match dict_lookup k stats with
  | Some (PInt n) => n
  | _ => 0
  end.

(** ** Listings of a batch *)

Definition is_string (v : pyval) : bool :=
  match v with PStr _ => true | _ => false end.

(** The two strings [_process_single_business] looks a listing up by: its
    [name] and the [address1] of its [location], each the empty string when
    the key is absent.  [None] when [location] is not a JSON object or one
    of the two is not a string. *)
Definition lookup_pair (d : pydict) : option (string * string) :=
  match listing_location d with
  | Some l =>
      match dict_get d "name" (PStr ""), dict_get l "address1" (PStr "") with
      | PStr n, PStr a => Some (n, a)
      | _, _ => None
      end
  | None => None
  end.

(** ** More stubs *)

(** A stand-in for [str] on values that are not strings. *)
Definition plain_repr (v : pyval) : string :=
  match v with
  | PNone => "None"
  | _ => "?"
  end.

(** A place search that cannot be reached. *)
Definition places_down : Services :=
  stub_services (Raise (MkExn RequestException "unreachable"))
                (Raise (MkExn RequestException "timed out"))
                (Raise (MkExn RequestException "timed out"))
                no_env.

(** A listing whose address line is [null]. *)
Definition null_address_listing : pydict :=
  [ ("id", PStr "def456");
    ("name", PStr "Prince's");
    ("location", PDict [ ("address1", PNone); ("city", PStr "Nashville") ]) ].

(** ** Requests and records of the directory client *)

(** A page request of a search around ([latitude], [longitude]). *)
Definition around_request (latitude longitude : pyval) (radius : Z) (c : Call) : Prop :=
  call_kind c = Http /\
  request_param "latitude" c = Some latitude /\
  request_param "longitude" c = Some longitude /\
  request_param "radius" c = Some (PInt radius).

(** The keys of a processed listing, in order. *)
Definition processed_keys : list string :=
  [ "yelp_id"; "name"; "address"; "city"; "state"; "zip_code"; "phone";
    "website"; "business_type"; "rating"; "review_count"; "price_level";
    "yelp_url"; "latitude"; "longitude"; "image_url"; "is_closed" ].

(** A record as [_process_business] builds it: the seventeen keys, an
    address that is a string, and the directory page as the website. *)
Definition processed_record (v : pyval) : Prop :=
  exists d,
    v = PDict d /\
    map fst d = processed_keys /\
    is_string (dict_get d "address" PNone) = true /\
    dict_lookup "website" d = dict_lookup "yelp_url" d.

(** A search around a point that finds the three sample listings. *)
Definition nashville : pyval * pyval :=
  (PFloat 36.1627%float, PFloat (-86.7816)%float).

(** The windows of the pages 1 to [k], one after the other. *)
Fixpoint pages_upto {A} (k : nat) (size : Z) (businesses : list A) : list A :=
  match k with
  | O => []
  | S k' => (pages_upto k' size businesses
             ++ page_window (Z.of_nat (S k')) size businesses)%list
  end.

(** * category_helper.py *)

(** [needle in hay] on two strings. *)
Fixpoint str_contains (needle hay : string) : bool :=
  (String.prefix needle hay ||
   match hay with
   | EmptyString => false
   | String _ rest => str_contains needle rest
   end)%bool.

(** Sequencing of operations that may raise. *)
Definition result_bind {A B} (r : result A) (k : A -> result B) : result B :=
  match r with
  | Ok a => k a
  | Raise e => Raise e
  end.

Section CategoryHelper.

(** [self.categories], as loaded from the categories file. *)
Variable categories : list pyval.
Variable str_lower : string -> string.

(** The [for] loop of [search_categories]. *)
Fixpoint search_categories_loop (query_lower : string) (limit : Z)
    (cats : list pyval) (matches : list pyval) : result (list pyval) :=
  match cats with
  | [] => Ok matches
  | cat :: rest =>
      result_bind (py_getitem cat "title") (fun title =>
      result_bind (py_lower str_lower title) (fun title_lower =>
      result_bind (py_getitem cat "alias") (fun alias =>
      result_bind (py_lower str_lower alias) (fun alias_lower =>
      (* Check if query matches title or alias *)
      if (str_contains query_lower title_lower ||
          str_contains query_lower alias_lower ||
          String.prefix query_lower title_lower ||
          String.prefix query_lower alias_lower)%bool
      then
        let matches := (matches ++ [cat])%list in
        if limit <=? Z.of_nat (length matches) then Ok matches
        else search_categories_loop query_lower limit rest matches
      else search_categories_loop query_lower limit rest matches))))
  end.

(** [CategoryHelper.search_categories]. *)
Definition search_categories (query : string) (limit : Z) : result (list pyval) :=
  search_categories_loop (str_lower query) limit categories [].

(** The loop of [get_category_by_alias]; [None] is Python's [None]. *)
Fixpoint category_by_alias_in (cats : list pyval) (alias : string)
    : result (option pyval) :=
  match cats with
  | [] => Ok None
  | cat :: rest =>
      result_bind (py_getitem cat "alias") (fun a =>
      if eq_str a alias then Ok (Some cat)
      else category_by_alias_in rest alias)
  end.

(** [CategoryHelper.get_category_by_alias]. *)
Definition get_category_by_alias (alias : string) : result (option pyval) :=
  category_by_alias_in categories alias.

(** The loop of [get_category_by_title]. *)
Fixpoint category_by_title_in (cats : list pyval) (title : string)
    : result (option pyval) :=
  match cats with
  | [] => Ok None
  | cat :: rest =>
      result_bind (py_getitem cat "title") (fun t =>
      result_bind (py_lower str_lower t) (fun t_lower =>
      if String.eqb t_lower (str_lower title) then Ok (Some cat)
      else category_by_title_in rest title))
  end.

(** [CategoryHelper.get_category_by_title]. *)
Definition get_category_by_title (title : string) : result (option pyval) :=
  category_by_title_in categories title.

Definition popular_aliases : list string :=
  [ "restaurants"; "food"; "shopping"; "health"; "auto";
    "beautysvc"; "homeservices"; "professional"; "active";
    "arts"; "education"; "financialservices"; "hotelstravel" ].

(** The loop of [get_popular_categories]. *)
Fixpoint popular_categories_loop (aliases : list string)
    (popular_categories : list pyval) : result (list pyval) :=
  match aliases with
  | [] => Ok popular_categories
  | alias :: rest =>
      result_bind (get_category_by_alias alias) (fun cat =>
      match cat with
      | Some c =>
          if truthy c
          then popular_categories_loop rest (popular_categories ++ [c])%list
          else popular_categories_loop rest popular_categories
      | None => popular_categories_loop rest popular_categories
      end)
  end.

(** [CategoryHelper.get_popular_categories]. *)
Definition get_popular_categories : result (list pyval) :=
  popular_categories_loop popular_aliases [].

(** [CategoryHelper.validate_category]: [or] evaluates the lookup by alias
    only when the lookup by title found nothing. *)
Definition validate_category (category : string) : result bool :=
  result_bind (get_category_by_title category) (fun by_title =>
  match by_title with
  | Some _ => Ok true
  | None =>
      result_bind (get_category_by_alias category) (fun by_alias =>
      match by_alias with
      | Some _ => Ok true
      | None => Ok false
      end)
  end).

(** [CategoryHelper.get_category_alias]; Python's [None] is [PNone]. *)
Definition get_category_alias (category : string) : result pyval :=
  (* First try to find by alias *)
  result_bind (get_category_by_alias category) (fun cat =>
  let found :=
    match cat with
    | Some c => if truthy c then Some c else None
    | None => None
    end in
  match found with
  | Some c => py_getitem c "alias"
  | None =>
      (* Then try to find by title *)
      result_bind (get_category_by_title category) (fun cat =>
      match cat with
      | Some c => if truthy c then py_getitem c "alias" else Ok PNone
      | None => Ok PNone
      end)
  end).

(** The loop of the [get_categories] view of dashboard.py. *)
Fixpoint categories_view_items (popular : list pyval) : result (list pydict) :=
  match popular with
  | [] => Ok []
  | cat :: rest =>
      result_bind (py_getitem cat "alias") (fun alias =>
      result_bind (py_getitem cat "title") (fun title =>
      result_bind (categories_view_items rest) (fun items =>
      Ok ([ ("alias", alias); ("title", title) ] :: items))))
  end.

(** A dictionary key must be hashable. *)
Definition py_hashable (v : pyval) : result unit :=
  match v with
  | PList _ => Raise (MkExn TypeError "unhashable type: 'list'")
  | PDict _ => Raise (MkExn TypeError "unhashable type: 'dict'")
  | _ => Ok tt
  end.

(** A loop whose body only may raise. *)
Fixpoint for_each {A} (body : A -> result unit) (l : list A) : result unit :=
  match l with
  | [] => Ok tt
  | x :: rest => result_bind (body x) (fun _ => for_each body rest)
  end.

(** [CategoryHelper._build_search_index], run by the constructor.  No
    other method reads the three indexes; what it leaves behind here is
    whether building them raised. *)
Definition _build_search_index : result unit :=
  (* title_to_alias *)
  result_bind
    (for_each (fun cat =>
       result_bind (py_getitem cat "title") (fun title =>
       result_bind (py_lower str_lower title) (fun _ =>
       result_bind (py_getitem cat "alias") (fun _ => Ok tt))))
       categories) (fun _ =>
  (* alias_to_title *)
  result_bind
    (for_each (fun cat =>
       result_bind (py_getitem cat "alias") (fun alias =>
       result_bind (py_getitem cat "title") (fun _ =>
       py_hashable alias)))
       categories) (fun _ =>
  (* parent_categories *)
  for_each (fun cat =>
    result_bind (py_get cat "parent_aliases" (PList [])) (fun parents =>
    result_bind (py_iter parents) (fun parents =>
    for_each (fun parent =>
      result_bind (py_hashable parent) (fun _ =>
      result_bind (py_getitem cat "alias") (fun _ => Ok tt)))
      parents)))
    categories)).

(** The [try] block of the [get_categories] view of dashboard.py: it
    constructs a helper, which builds the indexes, and lists the popular
    categories. *)
Definition get_categories : result (list pydict * Z) :=
  result_bind _build_search_index (fun _ =>
  result_bind get_popular_categories (fun popular =>
  result_bind (categories_view_items popular) (fun categories =>
  Ok (categories, Z.of_nat (length categories))))).

End CategoryHelper.

(** A category of the categories file: a JSON object with a title and an
    alias that are strings. *)
Definition category_ok (cat : pyval) : Prop :=
  exists d title alias,
    cat = PDict d /\
    dict_lookup "title" d = Some (PStr title) /\
    dict_lookup "alias" d = Some (PStr alias).

(** A category as the categories file has them: a title and an alias
    that are strings and, when present, parent aliases that are a list of
    strings. *)
Definition category_indexable (cat : pyval) : Prop :=
  category_ok cat /\
  exists d parents,
    cat = PDict d /\
    dict_get d "parent_aliases" (PList []) = PList parents /\
    Forall (fun p => is_string p = true) parents.

(** A category of a helper that was constructed: building the indexes
    read its title, a string, and its alias. *)
Definition category_built (cat : pyval) : Prop :=
  exists d title alias,
    cat = PDict d /\
    dict_lookup "title" d = Some (PStr title) /\
    dict_lookup "alias" d = Some alias.

(** The alias of a category. *)
Definition category_alias (cat : pyval) : option pyval :=
  match cat with
  | PDict d => dict_lookup "alias" d
  | _ => None
  end.

(** The category matches the lowered query: its lowered title or its
    lowered alias contains it. *)
Definition category_match (str_lower : string -> string) (query_lower : string)
    (cat : pyval) : bool :=
  match cat with
  | PDict d =>
      match dict_lookup "title" d, dict_lookup "alias" d with
      | Some (PStr title), Some (PStr alias) =>
          (str_contains query_lower (str_lower title) ||
           str_contains query_lower (str_lower alias))%bool
      | _, _ => false
      end
  | _ => false
  end.

(** The category has the alias [alias]. *)
Definition has_alias (alias : string) (cat : pyval) : bool :=
  match category_alias cat with
  | Some a => eq_str a alias
  | None => false
  end.

(** The category has the title [title], up to letter case. *)
Definition has_title (str_lower : string -> string) (title : string) (cat : pyval)
    : bool :=
  match cat with
  | PDict d =>
      match dict_lookup "title" d with
      | Some (PStr t) => String.eqb (str_lower t) (str_lower title)
      | _ => false
      end
  | _ => false
  end.

(** A small categories file. *)
Definition sample_categories : list pyval :=
  [ PDict [ ("alias", PStr "restaurants"); ("title", PStr "Restaurants");
            ("parent_aliases", PList []) ];
    PDict [ ("alias", PStr "pizza"); ("title", PStr "Pizza");
            ("parent_aliases", PList [PStr "restaurants"]) ];
    PDict [ ("alias", PStr "auto"); ("title", PStr "Automotive");
            ("parent_aliases", PList []) ];
    PDict [ ("alias", PStr "autorepair"); ("title", PStr "Auto Repair");
            ("parent_aliases", PList [PStr "auto"]) ] ].

(** The title of a category. *)
Definition category_title (cat : pyval) : option pyval :=
  match cat with
  | PDict d => dict_lookup "title" d
  | _ => None
  end.

(** An entry of the categories view: the alias and the title of a category
    of the file, the alias being one of the popular ones. *)
Definition popular_entry (categories : list pyval) (item : pydict) : Prop :=
  map fst item = ["alias"; "title"] /\
  exists a cat,
    In a popular_aliases /\ In cat categories /\
    category_alias cat = Some (PStr a) /\
    dict_lookup "alias" item = Some (PStr a) /\
    dict_lookup "title" item = category_title cat.

Section Hierarchy.

Variable categories : list pyval.

(** [needle in hay] for a string [needle] and any value [hay]: list
    membership, substring, key membership; other values are not
    iterable. *)
Definition py_in_str (needle : string) (hay : pyval) : result bool :=
  match hay with
  | PList items => Ok (existsb (fun v => eq_str v needle) items)
  | PStr s => Ok (str_contains needle s)
  | PDict d => Ok (dict_has needle d)
  | _ => Raise (MkExn TypeError
                  ("argument of type '" ++ type_name hay ++ "' is not iterable"))
  end.

(** The loop of [CategoryHelper.get_subcategories]. *)
Fixpoint subcategories_loop (parent_alias : string) (cats : list pyval)
    (subcategories : list pyval) : result (list pyval) :=
  match cats with
  | [] => Ok subcategories
  | cat :: rest =>
      result_bind (py_get cat "parent_aliases" (PList [])) (fun parents =>
      result_bind (py_in_str parent_alias parents) (fun is_child =>
      if is_child : bool
      then subcategories_loop parent_alias rest (subcategories ++ [cat])%list
      else subcategories_loop parent_alias rest subcategories))
  end.

(** [CategoryHelper.get_subcategories]. *)
Definition get_subcategories (parent_alias : string) : result (list pyval) :=
  subcategories_loop parent_alias categories [].

(** The comprehension of [CategoryHelper.get_parent_categories]. *)
Fixpoint parent_categories_of (cats : list pyval) : result (list pyval) :=
  match cats with
  | [] => Ok []
  | cat :: rest =>
      result_bind (py_get cat "parent_aliases" PNone) (fun parents =>
      result_bind (parent_categories_of rest) (fun tops =>
      if negb (truthy parents) then Ok (cat :: tops) else Ok tops))
  end.

(** [CategoryHelper.get_parent_categories]. *)
Definition get_parent_categories : result (list pyval) :=
  parent_categories_of categories.

End Hierarchy.



(** A page request that asks for between 1 and [cap] listings. *)
Definition asks_within (cap : Z) (c : Call) : Prop :=
  call_kind c = Http /\
  exists l, request_param "limit" c = Some (PInt l) /\ 1 <= l <= cap.

(** ** The row of a listing that is not stored yet *)

(** The steps of the view's loop body between the lookup and the commit,
    for a listing that is not stored: verify its address unless the
    listing already carries the result, then build its [Business]. *)
Definition build_new_business (svc : Services) (business_type : string)
    (business : loc) : M Business :=
  (* Verify address if Smarty Streets is available *)
  has <- obj_contains business "address_verified" ;;
  business <- (if negb has then verify_business_address svc business
               else ret business) ;;
  (* Create new business record *)
  new_business_row business_type business.

(** ** Responses of the verification service *)

(** An address verification service that confirms every address with match
    code "Y" and reports, in its own encoding, that the address is neither
    vacant nor a commercial mail-receiving agency: both flags are "N". *)
Definition not_vacant_verifier : Services :=
  stub_services
    (Ok (PList [ PDict [ ("delivery_line_1", PStr "112 19th Ave S");
                         ("components",
                           PDict [ ("city_name", PStr "Nashville");
                                   ("state_abbreviation", PStr "TN");
                                   ("zipcode", PStr "37203") ]);
                         ("analysis",
                           PDict [ ("dpv_match_code", PStr "Y");
                                   ("dpv_footnotes", PStr "AABB");
                                   ("dpv_cmra", PStr "N");
                                   ("dpv_vacant", PStr "N") ]) ] ]))
    (Ok (PDict [ ("results", PList []) ]))
    (Raise (MkExn ValueError "unused"))
    (fun k => if String.eqb k "SMARTY_STREETS_AUTH_ID" then Some "id"
              else if String.eqb k "SMARTY_STREETS_AUTH_TOKEN" then Some "token"
              else None).
(** * Properties *)

(** ** Running the monad *)

Lemma bind_ok {A B} (m : M A) (k : A -> M B) st a st' :
  m st = (Ok a, st') -> bind m k st = k a st'.
Proof. intros H. unfold bind. now rewrite H. Qed.

Lemma bind_raise {A B} (m : M A) (k : A -> M B) st e st' :
  m st = (Raise e, st') -> bind m k st = (Raise e, st').
Proof. intros H. unfold bind. now rewrite H. Qed.

Lemma bind_lift_ok {A B} (r : result A) (k : A -> M B) st a :
  r = Ok a -> bind (lift r) k st = k a st.
Proof. intros ->. reflexivity. Qed.

Lemma bind_lift_raise {A B} (r : result A) (k : A -> M B) st e :
  r = Raise e -> bind (lift r) k st = (Raise e, st).
Proof. intros ->. reflexivity. Qed.

Lemma bind_ret {A B} (a : A) (k : A -> M B) st : bind (ret a) k st = k a st.
Proof. reflexivity. Qed.

(** What holds of every value the continuation returns holds of every
    value the whole returns. *)
Lemma bind_returns_state {A B} (P : B -> Prop) (m : M A) (k : A -> M B) :
  (forall a st b st', k a st = (Ok b, st') -> P b) ->
  forall st b st', bind m k st = (Ok b, st') -> P b.
Proof.
  intros Hk st b st'. unfold bind.
  destruct (m st) as [[a|e] st1]; [apply Hk|discriminate].
Qed.

(** Projections of an updated state. *)
Ltac st_simpl :=
  unfold set_calls, set_google_cache, set_google_api_calls, set_objects,
    set_businesses_table in *;
  cbn [calls google_cache objects businesses_table google_api_calls] in *.

(** ** Address verification (smarty_verification.py) *)

Section Verification.

Variable svc : Services.
Variable self : SmartyStreetsVerifier.
Variables street city state zip_code : pyval.

Lemma not_verified_error_result prefix e :
  (0 < String.length prefix)%nat ->
  is_error_result (not_verified "error" (PStr (prefix ++ exn_str e))).
Proof.
  intros Hp. repeat split; try reflexivity.
  eexists. split; [reflexivity|].
  destruct prefix; simpl in *; lia.
Qed.

Lemma verify_address_handler st :
  match verify_address_try svc self street city state zip_code st with
  | (Ok d, st') =>
      verify_address svc self street city state zip_code st = (Ok d, st')
  | (Raise e, st') =>
      exists d, verify_address svc self street city state zip_code st = (Ok d, st')
                /\ is_error_result d
  end.
Proof.
  unfold verify_address, try_except.
  destruct (verify_address_try svc self street city state zip_code st) as [[d|e] st'].
  - reflexivity.
  - destruct (is_request_exception e); eexists; (split; [reflexivity|]);
      apply not_verified_error_result; simpl; lia.
Qed.

Lemma verify_address_try_transport st e :
  smarty_reply svc self street city state zip_code st = Raise e ->
  exists st', verify_address_try svc self street city state zip_code st = (Raise e, st').
Proof.
  intros H. unfold verify_address_try, bind, requests_get.
  unfold smarty_reply in H. rewrite H. eauto.
Qed.

(** C7: [verify_address] never raises; whenever its [try] block raises (the
    request failing with a transport error included) the result has status
    "error", confidence 0.0 and a non-empty error string. *)
Theorem verify_address_never_raises (st : State) :
  (exists d st', verify_address svc self street city state zip_code st = (Ok d, st')) /\
  (forall e st',
      verify_address_try svc self street city state zip_code st = (Raise e, st') ->
      exists d, verify_address svc self street city state zip_code st = (Ok d, st')
                /\ is_error_result d) /\
  (forall e,
      smarty_reply svc self street city state zip_code st = Raise e ->
      exists d, run (verify_address svc self street city state zip_code) st = Ok d
                /\ is_error_result d).
Proof.
  pose proof (verify_address_handler st) as H.
  split; [|split].
  - destruct (verify_address_try svc self street city state zip_code st) as [[d|e] st'].
    + eauto.
    + destruct H as (d & H & _). eauto.
  - intros e st' He. rewrite He in H. exact H.
  - intros e He. destruct (verify_address_try_transport st e He) as (st' & Ht).
    rewrite Ht in H. destruct H as (d & H & Hd).
    exists d. split; [|exact Hd]. unfold run. now rewrite H.
Qed.

Lemma dict_get_default_irrelevant d k default default' v :
  dict_get d k default = v -> v <> default -> dict_get d k default' = v.
Proof.
  unfold dict_get. destruct (dict_lookup k d); [easy|]. intros <- H. now destruct H.
Qed.

Lemma py_get_ok_dict o k default v :
  py_get o k default = Ok v -> exists d, o = PDict d /\ v = dict_get d k default.
Proof.
  destruct o; simpl; try discriminate. intros [= <-]. eauto.
Qed.

(** A response with match code "Y" whose two auxiliary flags are absent or
    falsy ([false], [None], empty), its component fields being a JSON
    object, gives verified = true, confidence = 1.0, status = "verified"; a
    response with no results, or whose match code is outside Y, S, D, gives
    verified = false, confidence = 0.0. *)
Lemma verify_address_by_match_code (st : State) (results : pyval) :
  smarty_reply svc self street city state zip_code st = Ok results ->
  (truthy results = true ->
   response_match_code results = Some (PStr "Y") ->
   response_flag results "dpv_vacant" = false ->
   response_flag results "dpv_cmra" = false ->
   is_Some (response_components results) ->
   exists d, run (verify_address svc self street city state zip_code) st = Ok d /\
             vr_verified d = Some (PBool true) /\
             vr_confidence d = Some (PFloat 1.0%float) /\
             vr_status d = Some (PStr "verified")) /\
  (truthy results = false \/
   (forall code, response_match_code results = Some code ->
                 in_strs code ["Y"; "S"; "D"] = false) ->
   exists d, run (verify_address svc self street city state zip_code) st = Ok d /\
             vr_verified d = Some (PBool false) /\
             vr_confidence d = Some (PFloat 0.0%float)).
Proof.
  intros Hreply. unfold smarty_reply in Hreply.
  split.
  - intros Ht Hcode Hvac Hcmra [c Hcomp].
    unfold response_match_code, response_flag, response_analysis,
      response_components in *.
    destruct (py_getitem0 results) as [result|] eqn:Hres; [|discriminate].
    destruct (py_get result "analysis" (PDict [])) as [analysis|] eqn:Han; [|discriminate].
    destruct (py_get_ok_dict _ _ _ _ Han) as (r & -> & _).
    destruct analysis as [| | | | | |a]; simpl in Hcode; try discriminate.
    injection Hcode as Hcode. simpl in Hvac, Hcmra.
    cbn [py_get] in Hcomp.
    destruct (dict_get r "components" (PDict [])) as [| | | | | |c'] eqn:Hc; try discriminate.
    assert (HN : dict_get a "dpv_match_code" (PStr "N") = PStr "Y")
      by (eapply dict_get_default_irrelevant; [exact Hcode|discriminate]).
    unfold run, verify_address, try_except, verify_address_try, bind, requests_get.
    rewrite Hreply. cbn [fst snd]. rewrite Ht. cbn [negb].
    unfold lift at 1. rewrite Hres.
    unfold lift at 1. rewrite Han.
    unfold lift at 1. cbn [py_get]. rewrite Hcode. cbn [in_strs existsb eq_str String.eqb Ascii.eqb Bool.eqb orb].
    unfold _calculate_confidence, bind, lift. rewrite Han. cbn [py_get].
    rewrite HN, Hvac, Hcmra. cbn. rewrite Hc. cbn.
    eexists. split; [reflexivity|]. repeat split.
  - intros Hcase.
    unfold run, verify_address, try_except, verify_address_try, bind, requests_get.
    rewrite Hreply. cbn [fst snd].
    destruct (truthy results) eqn:Ht; cbn [negb].
    + destruct Hcase as [|Hcase]; [discriminate|].
      unfold response_match_code, response_analysis in Hcase.
      unfold lift at 1.
      destruct (py_getitem0 results) as [result|e] eqn:Hres.
      2:{ destruct (is_request_exception e); eexists; split; reflexivity || (repeat split). }
      unfold lift at 1.
      destruct (py_get result "analysis" (PDict [])) as [analysis|e] eqn:Han.
      2:{ destruct (is_request_exception e); eexists; split; reflexivity || (repeat split). }
      unfold lift at 1.
      destruct (py_get analysis "dpv_match_code" PNone) as [code|e] eqn:Hc.
      2:{ destruct (is_request_exception e); eexists; split; reflexivity || (repeat split). }
      rewrite (Hcase code eq_refl).
      destruct (py_get_ok_dict _ _ _ _ Hc) as (a & -> & _).
      destruct (py_get_ok_dict _ _ _ _ Han) as (r & -> & Hr).
      cbn.
      eexists; split; reflexivity || (repeat split).
    + eexists; split; reflexivity || (repeat split).
Qed.

End Verification.

(** A service that marks the address with match code "Y" and sends no
    auxiliary flag at all. *)
Lemma verify_address_by_match_code_witness :
  exists d,
    run (verify_address confirming_verifier (MkVerifier "id" "token")
           (PStr "112 19th Ave S") (PStr "Nashville") (PStr "TN") (PStr "37203"))
        (initial_state ∅) = Ok d /\
    vr_verified d = Some (PBool true) /\
    vr_confidence d = Some (PFloat 1.0%float) /\
    vr_status d = Some (PStr "verified").
Proof.
  refine (proj1 (verify_address_by_match_code confirming_verifier
                   (MkVerifier "id" "token")
                   (PStr "112 19th Ave S") (PStr "Nashville") (PStr "TN") (PStr "37203")
                   (initial_state ∅) _ eq_refl) _ _ _ _ _).
  - reflexivity.
  - reflexivity.
  - reflexivity.
  - reflexivity.
  - eexists. reflexivity.
Defined.

(** C6, where it fails: the verification service reports "not vacant" and
    "not a commercial mail-receiving agency" as the string "N", in the
    same response that carries match code "Y".  [_calculate_confidence]
    tests the two flags for truth, the non-empty string "N" is true, and
    the confidence is weighted down twice, as for a vacant address at a
    mail-receiving agency: the address is verified with confidence
    1.0 * 0.7 * 0.9 = 0.63, not 1.0. *)
Theorem verify_address_not_vacant_reported_N :
  let self := MkVerifier "id" "token" in
  let street := PStr "112 19th Ave S" in
  let city := PStr "Nashville" in
  let state := PStr "TN" in
  let zip_code := PStr "37203" in
  let st := initial_state ∅ in
  exists results d,
    smarty_reply not_vacant_verifier self street city state zip_code st = Ok results /\
    response_match_code results = Some (PStr "Y") /\
    response_analysis results "dpv_vacant" (PBool false) = Some (PStr "N") /\
    response_analysis results "dpv_cmra" (PBool false) = Some (PStr "N") /\
    is_Some (response_components results) /\
    run (verify_address not_vacant_verifier self street city state zip_code) st = Ok d /\
    vr_verified d = Some (PBool true) /\
    vr_status d = Some (PStr "verified") /\
    vr_confidence d = Some (PFloat 0.63%float) /\
    PrimFloat.eqb 0.63%float (1.0 * 0.7 * 0.9)%float = true /\
    PrimFloat.ltb 0.63%float 1.0%float = true.
Proof.
  cbv zeta. do 2 eexists.
  split; [reflexivity|]. split; [reflexivity|]. split; [reflexivity|].
  split; [reflexivity|]. split; [eexists; reflexivity|].
  split; [vm_compute; reflexivity|].
  split; [reflexivity|]. split; [reflexivity|]. split; [reflexivity|].
  split; vm_compute; reflexivity.
Qed.

(** A transport failure, run: the result is an error result. *)
Example verify_address_transport_failure :
  run (verify_address no_match_services (MkVerifier "id" "token")
         (PStr "112 19th Ave S") (PStr "Nashville") (PStr "TN") (PStr "37203"))
      (initial_state ∅)
  = Ok (not_verified "error" (PStr "API Error: unreachable")).
Proof. reflexivity. Qed.

(** ** Reconciliation (business_finder.py, fast_verify_business) *)

Section Reconciliation.

Lemma obj_get_ok st l d k default :
  objects st !! l = Some d ->
  obj_get l k default st = (Ok (dict_get d k default), st).
Proof. intros H. unfold obj_get, obj_read, bind. now rewrite H. Qed.

Lemma dict_lookup_set_eq k v d : dict_lookup k (dict_set k v d) = Some v.
Proof.
  induction d as [|[k' v'] d IH]; simpl.
  - now rewrite String.eqb_refl.
  - destruct (String.eqb k k') eqn:E; simpl; rewrite E; [reflexivity|exact IH].
Qed.

Lemma dict_lookup_set_ne k k' v d :
  k <> k' -> dict_lookup k' (dict_set k v d) = dict_lookup k' d.
Proof.
  intros Hne. induction d as [|[k0 v0] d IH]; simpl.
  - destruct (String.eqb k' k) eqn:E; [|reflexivity].
    apply String.eqb_eq in E. congruence.
  - destruct (String.eqb k k0) eqn:E; simpl.
    + apply String.eqb_eq in E. subst k0.
      destruct (String.eqb k' k) eqn:E'; [|reflexivity].
      apply String.eqb_eq in E'. congruence.
    + now rewrite IH.
Qed.

(** What [fast_verify_business] returns on a well-formed listing: it reads
    the listing, leaves the state alone, and its three decisions are as
    follows. *)
Lemma fast_verify_business_returns st yelp_data d loc_fields google_data :
  objects st !! yelp_data = Some d ->
  listing_location d = Some loc_fields ->
  cross_reference_ok google_data ->
  exists v,
    fast_verify_business yelp_data google_data st = (Ok v, st) /\
    out_confidence_level v =
      Some (PStr (if indicates_closed google_data then "high" else "medium")) /\
    out_business_status v =
      Some (PStr (if indicates_closed google_data then "closed" else "unknown")) /\
    out_phone v =
      Some (if truthy (dict_get d "phone" PNone) then dict_get d "phone" PNone
            else match cross_reference_phone google_data with
                 | Some p => p
                 | None => dict_get d "phone" PNone
                 end).
Proof.
  intros Hobj Hloc Hg.
  unfold listing_location in Hloc.
  destruct (dict_get d "location" (PDict [])) as [| | | | | |l] eqn:Hl; try discriminate.
  unfold fast_verify_business.
  repeat (rewrite (bind_ok _ _ _ _ _ (obj_get_ok st yelp_data d _ _ Hobj));
          try rewrite Hl; cbn [lift py_get bind]).
  cbn [dict_get dict_lookup String.eqb Ascii.eqb Bool.eqb].
  destruct google_data as [| | | | | |g]; try contradiction.
  - (* no cross-reference *)
    cbn. eexists; split; [reflexivity|]. cbn.
    repeat split. now destruct (truthy (dict_get d "phone" PNone)).
  - destruct g as [|kv g'].
    + (* an empty record is falsy *)
      cbn. eexists; split; [reflexivity|]. cbn.
      repeat split. now destruct (truthy (dict_get d "phone" PNone)).
    + assert (Htr : truthy (PDict (kv :: g')) = true) by reflexivity.
      remember (kv :: g') as g eqn:Eg. clear Eg kv g'.
      rewrite Htr. cbn [lift py_get bind].
      assert (Hclosed : eq_str (dict_get g "business_status" PNone) "CLOSED_PERMANENTLY"
                        = indicates_closed (PDict g)).
      { unfold indicates_closed, dict_get.
        destruct (dict_lookup "business_status" g) as [[]|]; reflexivity. }
      rewrite Hclosed.
      assert (Hphone : truthy (dict_get g "formatted_phone_number" PNone) = true ->
                       cross_reference_phone (PDict g)
                       = Some (dict_get g "formatted_phone_number" PNone) /\
                       dict_lookup "formatted_phone_number" g
                       = Some (dict_get g "formatted_phone_number" PNone)).
      { unfold cross_reference_phone, dict_get.
        destruct (dict_lookup "formatted_phone_number" g) as [p|]; [|discriminate].
        now intros ->. }
      assert (Hnophone : truthy (dict_get g "formatted_phone_number" PNone) = false ->
                         cross_reference_phone (PDict g) = None).
      { unfold cross_reference_phone, dict_get.
        destruct (dict_lookup "formatted_phone_number" g) as [p|]; [|reflexivity].
        now intros ->. }
      destruct (indicates_closed (PDict g)); cbn -[cross_reference_phone];
        destruct (truthy (dict_get d "phone" PNone)) eqn:Hp;
        cbn -[cross_reference_phone];
        try (eexists; split; [reflexivity|]; cbn; repeat split; fail);
        (destruct (truthy (dict_get g "formatted_phone_number" PNone)) eqn:Hgp;
         [ destruct (Hphone eq_refl) as [Hcp Hlk]; rewrite Hlk, Hcp
         | rewrite (Hnophone eq_refl) ]);
        cbn; eexists; (split; [reflexivity|]); cbn; repeat split.
Qed.

(** C3: when the cross-reference record says the business is permanently
    closed the output has confidence_level "high" and business_status
    "closed"; in every other case, an absent cross-reference included, it
    has confidence_level "medium" and business_status "unknown". *)
Theorem fast_verify_closed_high_else_medium st yelp_data d loc_fields google_data :
  objects st !! yelp_data = Some d ->
  listing_location d = Some loc_fields ->
  cross_reference_ok google_data ->
  exists v,
    run (fast_verify_business yelp_data google_data) st = Ok v /\
    (indicates_closed google_data = true ->
       out_confidence_level v = Some (PStr "high") /\
       out_business_status v = Some (PStr "closed")) /\
    (indicates_closed google_data = false ->
       out_confidence_level v = Some (PStr "medium") /\
       out_business_status v = Some (PStr "unknown")).
Proof.
  intros Hobj Hloc Hg.
  destruct (fast_verify_business_returns st yelp_data d loc_fields google_data Hobj Hloc Hg)
    as (v & Hrun & Hcl & Hbs & _).
  exists v. unfold run. rewrite Hrun. split; [reflexivity|].
  rewrite Hcl, Hbs. split; intros ->; split; reflexivity.
Qed.

Lemma fast_verify_closed_high_else_medium_witness :
  exists v,
    run (fast_verify_business 1%positive sample_closed_record)
        (initial_state {[ 1%positive := sample_listing ]}) = Ok v /\
    (indicates_closed sample_closed_record = true ->
       out_confidence_level v = Some (PStr "high") /\
       out_business_status v = Some (PStr "closed")) /\
    (indicates_closed sample_closed_record = false ->
       out_confidence_level v = Some (PStr "medium") /\
       out_business_status v = Some (PStr "unknown")).
Proof.
  apply (fast_verify_closed_high_else_medium
           (initial_state {[ 1%positive := sample_listing ]}) 1%positive sample_listing
           [ ("address1", PStr "112 19th Ave S"); ("city", PStr "Nashville");
             ("state", PStr "TN"); ("zip_code", PStr "37203") ]
           sample_closed_record).
  - reflexivity.
  - reflexivity.
  - exact I.
Defined.

(** C4: for a listing with no phone, the output phone is the
    cross-reference's phone when a record is present and carries one, and
    is empty (the listing's own missing phone) otherwise. *)
Theorem fast_verify_phone_backfill st yelp_data d loc_fields google_data :
  objects st !! yelp_data = Some d ->
  listing_location d = Some loc_fields ->
  cross_reference_ok google_data ->
  phone_missing d ->
  exists v,
    run (fast_verify_business yelp_data google_data) st = Ok v /\
    match cross_reference_phone google_data with
    | Some p => out_phone v = Some p
    | None => exists p, out_phone v = Some p /\ truthy p = false /\
                        p = dict_get d "phone" PNone
    end.
Proof.
  intros Hobj Hloc Hg Hmiss.
  destruct (fast_verify_business_returns st yelp_data d loc_fields google_data Hobj Hloc Hg)
    as (v & Hrun & _ & _ & Hph).
  exists v. unfold run. rewrite Hrun. split; [reflexivity|].
  unfold phone_missing in Hmiss. rewrite Hmiss in Hph.
  destruct (cross_reference_phone google_data) as [p|]; [exact Hph|].
  eexists. split; [exact Hph|]. split; [exact Hmiss|reflexivity].
Qed.

(** The concrete scenario of C4: a listing with no phone, cross-referenced
    to a record with phone "615-555-0100". *)
Lemma fast_verify_phone_backfill_witness :
  exists v,
    run (fast_verify_business 1%positive sample_phone_record)
        (initial_state {[ 1%positive := sample_listing ]}) = Ok v /\
    out_phone v = Some (PStr "615-555-0100").
Proof.
  apply (fast_verify_phone_backfill
           (initial_state {[ 1%positive := sample_listing ]}) 1%positive sample_listing
           [ ("address1", PStr "112 19th Ave S"); ("city", PStr "Nashville");
             ("state", PStr "TN"); ("zip_code", PStr "37203") ]
           sample_phone_record).
  - reflexivity.
  - reflexivity.
  - exact I.
  - reflexivity.
Defined.

(** Whatever it is given, a record that [fast_verify_business] returns has
    confidence_level "medium" or "high". *)
Lemma fast_verify_business_level yelp_data google_data st v st' :
  fast_verify_business yelp_data google_data st = (Ok v, st') ->
  out_confidence_level v = Some (PStr "medium") \/
  out_confidence_level v = Some (PStr "high").
Proof.
  revert st v st'. unfold fast_verify_business.
  do 8 (apply bind_returns_state; intros ?).
  cbv zeta. intros st v st'.
  destruct (truthy google_data); [|intros [= <- <-]; left; reflexivity].
  revert st v st'. apply bind_returns_state. intros status.
  destruct (eq_str status "CLOSED_PERMANENTLY");
    apply bind_returns_state; intros verified_phone st v st';
    (destruct (negb (truthy verified_phone));
     [ revert st v st'; apply bind_returns_state; intros google_phone st v st';
       destruct (truthy google_phone);
       [ revert st v st'; apply bind_returns_state; intros p st v st' |] |]);
    intros [= <- <-]; (right; reflexivity) || (left; reflexivity).
Qed.

(** C10: the confidence_level that [fast_verify_business] produces is
    "medium" or "high", never "low": so for every record it returns, and
    it returns one for every well-formed listing and cross-reference. *)
Theorem fast_verify_confidence_medium_or_high st yelp_data google_data :
  (forall v st',
     fast_verify_business yelp_data google_data st = (Ok v, st') ->
     (out_confidence_level v = Some (PStr "medium") \/
      out_confidence_level v = Some (PStr "high")) /\
     out_confidence_level v <> Some (PStr "low")) /\
  (forall d loc_fields,
     objects st !! yelp_data = Some d ->
     listing_location d = Some loc_fields ->
     cross_reference_ok google_data ->
     exists v, run (fast_verify_business yelp_data google_data) st = Ok v).
Proof.
  split.
  - intros v st' Hrun.
    pose proof (fast_verify_business_level _ _ _ _ _ Hrun) as H.
    split; [exact H|]. destruct H as [-> | ->]; discriminate.
  - intros d loc_fields Hobj Hloc Hg.
    destruct (fast_verify_business_returns st yelp_data d loc_fields google_data Hobj Hloc Hg)
      as (v & Hrun & _).
    exists v. unfold run. now rewrite Hrun.
Qed.

(** A well-formed listing reconciled with no cross-reference: a record is
    returned. *)
Lemma fast_verify_confidence_medium_or_high_witness :
  exists v,
    run (fast_verify_business 1%positive PNone)
        (initial_state {[ 1%positive := sample_listing ]}) = Ok v.
Proof.
  apply (proj2 (fast_verify_confidence_medium_or_high
                  (initial_state {[ 1%positive := sample_listing ]}) 1%positive PNone)
           sample_listing
           [ ("address1", PStr "112 19th Ave S"); ("city", PStr "Nashville");
             ("state", PStr "TN"); ("zip_code", PStr "37203") ]).
  - reflexivity.
  - reflexivity.
  - exact I.
Defined.

(** The scenario of the specification: no match gives confidence "medium"
    and status "unknown". *)
Example fast_verify_no_match_medium_unknown :
  exists v,
    run (fast_verify_business 1%positive PNone)
        (initial_state {[ 1%positive := sample_listing ]}) = Ok v /\
    out_confidence_level v = Some (PStr "medium") /\
    out_business_status v = Some (PStr "unknown").
Proof. eexists. split; [vm_compute; reflexivity|]. split; reflexivity. Qed.

End Reconciliation.

(** ** Cross-reference lookups (business_finder.py, get_google_business_info) *)

Section CrossReference.

Variable svc : Services.
Variable str_lower : string -> string.

Abbreviation lookup_info := (get_google_business_info svc str_lower).

(** A hit returns the cached record, negative ones included, and touches
    nothing. *)
Lemma lookup_hit st n a v :
  google_cache st !! cache_key_of str_lower n a = Some v ->
  lookup_info (PStr n) (PStr a) st = (Ok v, st).
Proof.
  intros H. unfold get_google_business_info, cache_key_of in *.
  cbn [py_lower lift bind read_google_cache]. now rewrite H.
Qed.

(** A miss: one place search, then one place detail only when the search
    resolved a candidate; the outcome is cached under the key. *)
Lemma lookup_miss st n a :
  google_cache st !! cache_key_of str_lower n a = None ->
  exists r st' new,
    lookup_info (PStr n) (PStr a) st = (Ok r, st') /\
    google_cache st' = <[cache_key_of str_lower n a := r]> (google_cache st) /\
    calls st' = (calls st ++ new)%list /\
    map call_kind new =
      match search_candidate (places_api svc (calls st) (n ++ " " ++ a)) with
      | Some _ => [PlaceSearch; PlaceDetail]
      | None => [PlaceSearch]
      end.
Proof.
  intros H. unfold get_google_business_info, cache_key_of in *.
  cbn [py_lower lift bind read_google_cache]. rewrite H.
  unfold try_except, bind, google_places, google_place, search_candidate,
    store_google_cache, count_google_api_call.
  cbn [fst snd].
  destruct (places_api svc (calls st) (n ++ " " ++ a)) as [pr|e]; cbn [ret].
  2:{ do 3 eexists. repeat split; st_simpl; reflexivity. }
  unfold lift.
  destruct (py_get pr "results" PNone) as [res|e]; cbn [ret].
  2:{ do 3 eexists. repeat split; st_simpl; reflexivity. }
  destruct (truthy res); cbn [ret].
  2:{ do 3 eexists. repeat split; st_simpl; reflexivity. }
  destruct (py_getitem pr "results") as [res'|e]; cbn [ret].
  2:{ do 3 eexists. repeat split; st_simpl; reflexivity. }
  destruct (py_getitem0 res') as [place|e]; cbn [ret].
  2:{ do 3 eexists. repeat split; st_simpl; reflexivity. }
  destruct (py_get place "place_id" PNone) as [pid|e]; cbn [ret].
  2:{ do 3 eexists. repeat split; st_simpl; reflexivity. }
  st_simpl.
  destruct (place_api svc _ pid detail_fields) as [dr|e]; cbn [ret].
  2:{ do 3 eexists. repeat split; st_simpl; [rewrite <- app_assoc|]; reflexivity. }
  destruct (py_get dr "result" (PDict [])) as [r|e]; cbn [ret].
  2:{ do 3 eexists. repeat split; st_simpl; [rewrite <- app_assoc|]; reflexivity. }
  do 3 eexists. repeat split; st_simpl; [rewrite <- app_assoc|]; reflexivity.
Qed.

(** Lookups only add to the cache. *)
Lemma lookup_keeps_cached st business_name address k v :
  google_cache st !! k = Some v ->
  google_cache (exec (lookup_info business_name address) st) !! k = Some v.
Proof.
  intros Hk. unfold exec.
  destruct business_name as [| | | |n| |]; try exact Hk.
  destruct address as [| | | |a| |]; try exact Hk.
  destruct (google_cache st !! cache_key_of str_lower n a) as [c|] eqn:Hc.
  - now rewrite (lookup_hit st n a c Hc).
  - destruct (lookup_miss st n a Hc) as (r & st' & new & -> & Hcache & _).
    cbn [snd]. rewrite Hcache.
    rewrite lookup_insert_ne; [exact Hk|]. intros E. congruence.
Qed.

Lemma lookups_keep_cached queries st k v :
  google_cache st !! k = Some v ->
  google_cache (exec (lookups svc str_lower queries) st) !! k = Some v.
Proof.
  revert st. induction queries as [|[bn ad] queries IH]; intros st Hk; [exact Hk|].
  unfold exec in *. cbn [lookups]. unfold bind at 1, try_except, bind.
  pose proof (lookup_keeps_cached st bn ad k v Hk) as H1. unfold exec in H1.
  destruct (lookup_info bn ad st) as [[r|e] st1]; cbn [snd ret] in *; now apply IH.
Qed.

End CrossReference.

(** C2, as the code has it: a lookup that misses the cache issues the place
    search and, only when the search resolved a candidate, the place detail
    (two upstream calls on a match, one on no match or on a failed search);
    the outcome is cached, and after any further lookups a lookup of the same
    normalized key returns it with no upstream call. *)
Theorem lookup_miss_then_hits svc str_lower st n a :
  google_cache st !! cache_key_of str_lower n a = None ->
  exists r st1 new,
    get_google_business_info svc str_lower (PStr n) (PStr a) st = (Ok r, st1) /\
    calls st1 = (calls st ++ new)%list /\
    map call_kind new =
      match search_candidate (places_api svc (calls st) (n ++ " " ++ a)) with
      | Some _ => [PlaceSearch; PlaceDetail]
      | None => [PlaceSearch]
      end /\
    forall queries n' a',
      cache_key_of str_lower n' a' = cache_key_of str_lower n a ->
      let st2 := exec (lookups svc str_lower queries) st1 in
      get_google_business_info svc str_lower (PStr n') (PStr a') st2 = (Ok r, st2) /\
      calls_between st2
        (exec (get_google_business_info svc str_lower (PStr n') (PStr a')) st2) = 0.
Proof.
  intros Hmiss.
  destruct (lookup_miss svc str_lower st n a Hmiss)
    as (r & st1 & new & Hrun & Hcache & Hcalls & Hkinds).
  exists r, st1, new. split; [exact Hrun|]. split; [exact Hcalls|]. split; [exact Hkinds|].
  intros queries n' a' Hkey st2.
  assert (Hhit : google_cache st2 !! cache_key_of str_lower n' a' = Some r).
  { apply lookups_keep_cached. rewrite Hkey, Hcache. apply lookup_insert_eq. }
  pose proof (lookup_hit svc str_lower st2 n' a' r Hhit) as H.
  split; [exact H|]. unfold exec, calls_between. rewrite H. cbn [snd]. lia.
Qed.

(** A search that finds a place: two calls, then hits. *)
Lemma lookup_miss_then_hits_witness :
  exists r st1 new,
    get_google_business_info match_services ascii_lower
      (PStr "Hattie B's") (PStr "112 19th Ave S") (initial_state ∅) = (Ok r, st1) /\
    calls st1 = (calls (initial_state ∅) ++ new)%list /\
    map call_kind new = [PlaceSearch; PlaceDetail] /\
    forall queries n' a',
      cache_key_of ascii_lower n' a'
      = cache_key_of ascii_lower "Hattie B's" "112 19th Ave S" ->
      let st2 := exec (lookups match_services ascii_lower queries) st1 in
      get_google_business_info match_services ascii_lower (PStr n') (PStr a') st2
      = (Ok r, st2) /\
      calls_between st2
        (exec (get_google_business_info match_services ascii_lower (PStr n') (PStr a')) st2)
      = 0.
Proof.
  apply (lookup_miss_then_hits match_services ascii_lower (initial_state ∅)
           "Hattie B's" "112 19th Ave S").
  reflexivity.
Defined.

(** "Exactly two upstream calls" on every miss does not hold: a search
    that finds no place is a miss that costs one call, the place search. *)
Lemma lookup_no_match_one_call :
  google_cache (initial_state ∅)
    !! cache_key_of ascii_lower "Hattie B's" "112 19th Ave S" = None /\
  run (get_google_business_info no_match_services ascii_lower
         (PStr "Hattie B's") (PStr "112 19th Ave S")) (initial_state ∅) = Ok PNone /\
  map call_kind
    (calls (exec (get_google_business_info no_match_services ascii_lower
                    (PStr "Hattie B's") (PStr "112 19th Ave S")) (initial_state ∅)))
  = [PlaceSearch] /\
  calls_between (initial_state ∅)
    (exec (get_google_business_info no_match_services ascii_lower
             (PStr "Hattie B's") (PStr "112 19th Ave S")) (initial_state ∅)) = 1.
Proof. vm_compute. repeat split. Qed.

(** The negative result is cached: the same lookup again, in other letter
    case, issues nothing. *)
Example lookup_no_match_then_hit :
  let st1 := exec (get_google_business_info no_match_services ascii_lower
                     (PStr "Hattie B's") (PStr "112 19th Ave S")) (initial_state ∅) in
  get_google_business_info no_match_services ascii_lower
    (PStr "HATTIE B'S") (PStr "112 19th ave s") st1 = (Ok PNone, st1).
Proof. vm_compute. reflexivity. Qed.

(** ** Directory search (business_finder.py, search_yelp_businesses) *)

Lemma chars_length s : length (chars s) = String.length s.
Proof. induction s as [|c s IH]; simpl; [reflexivity|now rewrite IH]. Qed.

Lemma py_iter_len b items :
  py_iter b = Ok items -> py_len b = Ok (Z.of_nat (length items)).
Proof.
  destruct b; simpl; try discriminate; intros [= <-].
  - now rewrite chars_length.
  - reflexivity.
  - now rewrite length_map.
Qed.

Lemma falsy_no_items b :
  truthy b = false ->
  match py_iter b with Ok items => items = [] | Raise _ => True end.
Proof.
  destruct b as [| | | |s|l|d]; simpl; try easy.
  - destruct s; [reflexivity|discriminate].
  - destruct l; [reflexivity|discriminate].
  - destruct d; [reflexivity|discriminate].
Qed.

Lemma Forall_removelast_cons {A} (P : A -> Prop) x l :
  P x -> Forall P (removelast l) -> Forall P (removelast (x :: l)).
Proof.
  intros Hx Hl. destruct l as [|y l]; [constructor|].
  change (removelast (x :: y :: l)) with (x :: removelast (y :: l)).
  now constructor.
Qed.

Section DirectorySearch.

Variable svc : Services.
Variable params : BusinessSearchParams.
Variables radius_meters limit : Z.

Let url : string := yelp_base_url ++ "/businesses/search".

(** The log entry of the page request issued at [offset] in state [st]. *)
Let page_call (offset : Z) (st : State) : Call :=
  let pd := search_params_dict params radius_meters limit offset in
  HttpGet url pd (http_get svc (calls st) url pd).

(** One iteration issues one request; it goes on only after a full page,
    and what it appends is that page's listings. *)
Lemma search_yelp_page_spec all_businesses offset st :
  exists r,
    search_yelp_page svc params radius_meters limit all_businesses offset st
    = (r, set_calls (fun cs => (cs ++ [page_call offset st])%list) st) /\
    match r with
    | Ok (continue, all', _) =>
        all' = (all_businesses ++ page_items (page_call offset st))%list /\
        (continue = true -> limit <= page_size (page_call offset st))
    | Raise _ => True
    end /\
    (well_formed_page (http_get svc (calls st) url
                         (search_params_dict params radius_meters limit offset)) ->
     exists x, r = Ok x).
Proof.
  unfold search_yelp_page, try_except, bind, requests_get, page_call, page_size, page_items.
  fold url. cbn [fst snd].
  destruct (http_get svc (calls st) url _) as [data|e] eqn:Hreply; cbn [well_formed_page].
  - unfold lift at 1.
    destruct (py_get data "businesses" (PList [])) as [businesses|e] eqn:Hb.
    + destruct (truthy businesses) eqn:Ht; cbn [negb].
      * unfold lift at 1.
        destruct (py_iter businesses) as [items|e] eqn:Hi.
        -- unfold lift. rewrite (py_iter_len _ _ Hi).
           destruct (Z.of_nat (length items) <? limit) eqn:Hlt;
             eexists; (split; [reflexivity|]); (split; [|eauto]);
             (split; [reflexivity|]); intros; try discriminate.
           apply Z.ltb_ge in Hlt. exact Hlt.
        -- assert (He : is_request_exception e = false).
           { destruct businesses; simpl in Hi; try discriminate; now injection Hi as <-. }
           rewrite He. eexists. split; [reflexivity|]. split; [exact I|].
           destruct data as [| | | | | |dd]; try easy. simpl in Hb. injection Hb as <-.
           destruct (dict_get dd "businesses" (PList [])); try easy.
      * pose proof (falsy_no_items _ Ht) as Hno.
        eexists. split; [reflexivity|]. split; [|eauto].
        split; [|discriminate].
        destruct (py_iter businesses); [subst; now rewrite app_nil_r|now rewrite app_nil_r].
    + assert (He : is_request_exception e = false).
      { destruct data; simpl in Hb; try discriminate; now injection Hb as <-. }
      rewrite He. eexists. split; [reflexivity|]. split; [exact I|].
      destruct data; try easy.
  - destruct (is_request_exception e) eqn:He.
    + eexists. split; [reflexivity|]. split; [|eauto].
      split; [now rewrite app_nil_r|discriminate].
    + eexists. split; [reflexivity|]. split; [exact I|]. discriminate.
Qed.

(** The loop, for any services: it ends within [max_results] iterations;
    every request carries the same radius; every page but the last is full;
    the accumulated list is the pages' listings in order. *)
Lemma search_yelp_loop_spec fuel : forall all_businesses offset st,
  1 <= limit ->
  max_results params - Z.of_nat (length all_businesses) <= Z.of_nat fuel ->
  exists r st' new,
    search_yelp_loop svc fuel params radius_meters limit all_businesses offset st
    = (r, st') /\
    calls st' = (calls st ++ new)%list /\
    Forall (fun c => request_param "radius" c = Some (PInt radius_meters)) new /\
    Forall (fun c => limit <= page_size c) (removelast new) /\
    (Z.of_nat (length all_businesses) < max_results params -> new <> []) /\
    match r with
    | Ok (Some (all', _)) =>
        all' = (all_businesses ++ concat (map page_items new))%list
    | Ok None => False
    | Raise _ => True
    end /\
    (directory_well_formed svc -> exists x, r = Ok (Some x)).
Proof.
  induction fuel as [|fuel IH]; intros all_businesses offset st Hlim Hfuel.
  - cbn [search_yelp_loop].
    destruct (Z.of_nat (length all_businesses) <? max_results params) eqn:Hlt.
    + apply Z.ltb_lt in Hlt. cbn in Hfuel. lia.
    + apply Z.ltb_ge in Hlt.
      exists (Ok (Some (all_businesses, offset))), st, [].
      cbn. rewrite !app_nil_r. repeat split; try constructor; eauto. lia.
  - cbn [search_yelp_loop].
    destruct (Z.of_nat (length all_businesses) <? max_results params) eqn:Hlt.
    2:{ apply Z.ltb_ge in Hlt.
        exists (Ok (Some (all_businesses, offset))), st, [].
        cbn. rewrite !app_nil_r. repeat split; try constructor; eauto. lia. }
    apply Z.ltb_lt in Hlt.
    destruct (search_yelp_page_spec all_businesses offset st) as (r1 & Hpage & Hr1 & Hwf1).
    set (c := page_call offset st) in *.
    set (st1 := set_calls (fun cs => (cs ++ [c])%list) st) in *.
    assert (Hrad : request_param "radius" c = Some (PInt radius_meters)) by reflexivity.
    destruct r1 as [[[continue all'] offset']|e].
    + rewrite (bind_ok _ _ _ _ _ Hpage).
      destruct Hr1 as [Hall Hfull].
      destruct continue.
      * specialize (Hfull eq_refl).
        destruct (IH all' offset' st1 Hlim) as (r & st' & new & Hloop & Hcalls & Hr & Hf & _ & Hres & Hwf).
        { subst all'. rewrite length_app. unfold page_size in Hfull. lia. }
        exists r, st', (c :: new). split; [exact Hloop|].
        split. { rewrite Hcalls. subst st1. st_simpl. now rewrite <- app_assoc. }
        split. { now constructor. }
        split. { now apply Forall_removelast_cons. }
        split. { discriminate. }
        split; [|exact Hwf].
        destruct r as [[[all'' off'']|]|e]; try exact Hres.
        subst all' all''. cbn [map concat]. now rewrite <- app_assoc.
      * exists (Ok (Some (all', offset'))), st1, [c].
        split; [reflexivity|].
        split. { reflexivity. }
        split. { now repeat constructor. }
        split. { constructor. }
        split. { discriminate. }
        split; [|eauto].
        subst all'. cbn [map concat]. now rewrite app_nil_r.
    + rewrite (bind_raise _ _ _ _ _ Hpage).
      exists (Raise e), st1, [c].
      split; [reflexivity|].
      split. { reflexivity. }
      split. { now repeat constructor. }
      split. { constructor. }
      split. { discriminate. }
      split; [exact I|].
      intros Hwf. destruct (Hwf1 (Hwf _ _ _)) as [x Hx]. discriminate.
Qed.

End DirectorySearch.

(** [search_yelp_businesses] for any services: what it logs and returns. *)
Lemma search_yelp_businesses_spec svc params st :
  exists r st' new,
    search_yelp_businesses svc params st = (r, st') /\
    calls st' = (calls st ++ new)%list /\
    match float_trunc (distance_miles params * 1609.34)%float with
    | Ok radius =>
        Forall (fun c => request_param "radius" c = Some (PInt radius)) new /\
        (0 < max_results params -> new <> [])
    | Raise _ => new = []
    end /\
    Forall (fun c => page_cap (max_results params) <= page_size c) (removelast new) /\
    match r with
    | Ok (Some l) =>
        l = slice_to (max_results params) (concat (map page_items new))
    | Ok None => False
    | Raise _ => True
    end /\
    (0 < max_results params ->
     (exists radius, float_trunc (distance_miles params * 1609.34)%float = Ok radius) ->
     directory_well_formed svc ->
     exists l, r = Ok (Some l)).
Proof.
  unfold search_yelp_businesses.
  destruct (float_trunc (distance_miles params * 1609.34)%float) as [radius|e] eqn:Hr.
  2:{ exists (Raise e), st, []. cbn. rewrite app_nil_r.
      repeat split; try constructor. intros _ [x Hx]. discriminate. }
  rewrite bind_lift_ok with (a := radius) by reflexivity.
  destruct (Z.ltb_spec 0 (max_results params)) as [Hpos|Hnonpos].
  - destruct (search_yelp_loop_spec svc params radius (Z.min 50 (max_results params))
                (Z.to_nat (max_results params)) [] 0 st)
      as (r & st' & new & Hloop & Hcalls & Hrad & Hfull & Hne & Hres & Hwf);
      [lia | cbn [length]; lia |].
    destruct r as [[[all_businesses offset]|]|e]; [| destruct Hres |].
    + rewrite (bind_ok _ _ _ _ _ Hloop).
      assert (Hl : (Z.min 50 (max_results params) =? 0) = false) by (apply Z.eqb_neq; lia).
      rewrite Hl.
      exists (Ok (Some (slice_to (max_results params) all_businesses))), st', new.
      split; [reflexivity|]. split; [exact Hcalls|].
      split; [split; [exact Hrad|intros; apply Hne; cbn; lia]|].
      split; [exact Hfull|]. split; [now subst all_businesses|eauto].
    + rewrite (bind_raise _ _ _ _ _ Hloop).
      exists (Raise e), st', new.
      split; [reflexivity|]. split; [exact Hcalls|].
      split; [split; [exact Hrad|intros; apply Hne; cbn; lia]|].
      split; [exact Hfull|]. split; [exact I|].
      intros _ _ Hsvc. destruct (Hwf Hsvc) as [x Hx]. discriminate.
  - assert (Hz : Z.to_nat (max_results params) = O) by lia. rewrite Hz.
    cbn [search_yelp_loop length Z.of_nat].
    assert (Hlt : (0 <? max_results params) = false) by (apply Z.ltb_ge; lia).
    change (Z.of_nat 0) with 0. rewrite Hlt. rewrite bind_ret.
    destruct (Z.min 50 (max_results params) =? 0).
    + exists (Raise (MkExn ZeroDivisionError "integer division or modulo by zero")), st, [].
      cbn. rewrite app_nil_r. repeat split; try constructor; lia.
    + exists (Ok (Some (slice_to (max_results params) []))), st, [].
      cbn. rewrite app_nil_r. repeat split; try constructor; lia.
Qed.

(** C8, as the code has it: every page request carries as radius the
    product [distance_miles * 1609.34] truncated toward zero ([int]), not
    rounded to the nearest integer; no request is sent when the product is
    not finite. *)
Theorem search_radius_is_truncated svc params st :
  exists new,
    calls (exec (search_yelp_businesses svc params) st) = (calls st ++ new)%list /\
    match float_trunc (distance_miles params * 1609.34)%float with
    | Ok radius =>
        Forall (fun c => request_param "radius" c = Some (PInt radius)) new /\
        (0 < max_results params -> new <> [])
    | Raise _ => new = []
    end.
Proof.
  destruct (search_yelp_businesses_spec svc params st)
    as (r & st' & new & Hrun & Hcalls & Hrad & _).
  exists new. unfold exec. rewrite Hrun. cbn [snd]. split; [exact Hcalls|exact Hrad].
Qed.

(** Five miles: the request carries 8046, the nearest integer is 8047. *)
Lemma search_radius_five_miles :
  map (request_param "radius")
      (calls (exec (search_yelp_businesses empty_directory
                      (nashville_restaurants 5.0%float 3))
                   (initial_state ∅)))
  = [Some (PInt 8046)] /\
  float_round (5.0 * 1609.34)%float = Ok 8047.
Proof. vm_compute. split; reflexivity. Qed.

(** ** Directory search (yelp_api_client.py, search_businesses) *)

Section Frame.

Context (R : State -> State -> Prop) `{!Reflexive R} `{!Transitive R}.

Lemma pres_ret {A} (a : A) : preserves R (ret a).
Proof. intros st. cbn. reflexivity. Qed.

Lemma pres_raise {A} e : preserves R (@raise A e).
Proof. intros st. cbn. reflexivity. Qed.

Lemma pres_lift {A} (r : result A) : preserves R (lift r).
Proof. intros st. cbn. reflexivity. Qed.

Lemma pres_bind {A B} (m : M A) (k : A -> M B) :
  preserves R m -> (forall a, preserves R (k a)) -> preserves R (bind m k).
Proof.
  intros Hm Hk st. unfold bind. specialize (Hm st).
  destruct (m st) as [[a|e] st']; cbn in *; [|exact Hm].
  etransitivity; [exact Hm|apply Hk].
Qed.

Lemma pres_try {A} (m : M A) (h : pyexn -> M A) :
  preserves R m -> (forall e, preserves R (h e)) -> preserves R (try_except m h).
Proof.
  intros Hm Hh st. unfold try_except. specialize (Hm st).
  destruct (m st) as [[a|e] st']; cbn in *; [exact Hm|].
  etransitivity; [exact Hm|apply Hh].
Qed.

Lemma pres_obj_read l : preserves R (obj_read l).
Proof. intros st. unfold obj_read. destruct (objects st !! l); cbn; reflexivity. Qed.

End Frame.

Ltac pres_solve :=
  repeat
    match goal with
    | |- preserves _ (ret _) => apply pres_ret; typeclasses eauto
    | |- preserves _ (raise _) => apply pres_raise; typeclasses eauto
    | |- preserves _ (lift _) => apply pres_lift; typeclasses eauto
    | |- preserves _ (obj_read _) => apply pres_obj_read; typeclasses eauto
    | |- preserves _ (bind _ _) => apply pres_bind; [typeclasses eauto| |intros ?]
    | |- preserves _ (try_except _ _) => apply pres_try; [typeclasses eauto| |intros ?]
    | |- preserves _ (if ?b then _ else _) => destruct b
    | |- preserves _ (match ?x with inl _ => _ | inr _ => _ end) => destruct x
    | |- preserves _ (match ?x with Some _ => _ | None => _ end) => destruct x
    end.

Lemma process_business_pure business : preserves eq (_process_business business).
Proof.
  unfold _process_business, _format_address, _get_primary_category.
  cbv zeta. pres_solve.
Qed.

(** The [for] loop over a page touches no state; when it ends without an
    exception it has appended listings up to [max_results]. *)
Lemma process_page_spec items : forall max_results businesses st,
  exists businesses' oe,
    process_page items max_results businesses st = (Ok (businesses', oe), st) /\
    (length businesses <= length businesses')%nat /\
    (oe = None ->
     Z.of_nat (length businesses) <= max_results ->
     Z.of_nat (length businesses')
     = Z.min (Z.of_nat (length businesses) + Z.of_nat (length items)) max_results).
Proof.
  induction items as [|business rest IH]; intros max_results businesses st.
  - exists businesses, None. cbn. split; [reflexivity|]. split; [lia|]. intros; lia.
  - cbn [process_page].
    destruct (Z.leb_spec max_results (Z.of_nat (length businesses))) as [Hfull|Hroom].
    + exists businesses, None. split; [reflexivity|]. split; [lia|].
      intros _ Hle. cbn [length]. lia.
    + unfold bind at 1, try_except, bind.
      pose proof (process_business_pure business st) as Hpure.
      destruct (_process_business business st) as [[p|e] st1]; cbn in Hpure; subst st1; cbn [ret].
      * destruct (IH max_results (businesses ++ [p])%list st)
          as (businesses' & oe & Hrun & Hmono & Hlen).
        exists businesses', oe. split; [exact Hrun|].
        rewrite length_app in *. cbn [length] in *. split; [lia|].
        intros Hoe Hle. rewrite (Hlen Hoe) by lia. lia.
      * exists businesses, (Some e). split; [reflexivity|]. split; [lia|]. discriminate.
Qed.

Section ClientSearch.

Variable svc : Services.
Variable location : string.
Variable business_type : pyval.
Variables radius max_results limit : Z.

(** One iteration issues one request and never raises; it goes on only
    after a page at least as long as the limit it asked for, having
    appended that page up to [max_results]. *)
Lemma search_businesses_page_spec current_limit businesses offset st :
  exists continue businesses' offset' c,
    search_businesses_page svc location business_type radius max_results
      current_limit businesses offset st
    = (Ok (continue, businesses', offset'),
       set_calls (fun cs => (cs ++ [c])%list) st) /\
    (length businesses <= length businesses')%nat /\
    (continue = true ->
     Z.of_nat (length businesses) <= max_results ->
     current_limit <= page_size c /\
     Z.of_nat (length businesses')
     = Z.min (Z.of_nat (length businesses) + page_size c) max_results).
Proof.
  unfold search_businesses_page, _make_search_request.
  set (url := yelp_base_url ++ "/businesses/search").
  match goal with
  | |- context [requests_get svc url ?p] => set (pd := p)
  end.
  unfold try_except at 1. unfold bind at 1. unfold try_except at 1. unfold requests_get.
  set (c := HttpGet url pd (http_get svc (calls st) url pd)).
  set (st1 := set_calls (fun cs => (cs ++ [c])%list) st).
  assert (Hstop : forall (bs : list pyval) (off : Z),
            (length businesses <= length bs)%nat ->
            exists continue businesses' offset' c0,
              (Ok (false, bs, off), st1)
              = (Ok (continue, businesses', offset'),
                 set_calls (fun cs => (cs ++ [c0])%list) st) /\
              (length businesses <= length businesses')%nat /\
              (continue = true ->
               Z.of_nat (length businesses) <= max_results ->
               current_limit <= page_size c0 /\
               Z.of_nat (length businesses')
               = Z.min (Z.of_nat (length businesses) + page_size c0) max_results)).
  { intros bs off Hle. exists false, bs, off, c. split; [reflexivity|].
    split; [exact Hle|]. discriminate. }
  destruct (http_get svc (calls st) url pd) as [data|e] eqn:Hreply.
  - cbn [fst snd]. fold c. fold st1.
    destruct (truthy data) eqn:Ht; cbn [negb ret]; [|now apply Hstop].
    unfold bind at 1. unfold lift at 1.
    destruct (py_get data "businesses" (PList [])) as [page|e] eqn:Hpage;
      cbn [ret]; [|now apply Hstop].
    unfold bind at 1. unfold lift at 1.
    destruct (py_iter page) as [items|e] eqn:Hitems; cbn [ret]; [|now apply Hstop].
    destruct (process_page_spec items max_results businesses st1)
      as (bs' & oe & Hpp & Hmono & Hlen).
    unfold bind at 1. rewrite Hpp.
    destruct oe as [e|]; cbn [ret]; [now apply Hstop|].
    unfold try_except, bind, lift. rewrite (py_iter_len _ _ Hitems). cbn [ret].
    destruct (Z.ltb_spec (Z.of_nat (length items)) current_limit) as [Hshort|Hfull];
      cbn [negb]; [now apply Hstop|].
    exists true, bs', (offset + current_limit), c. split; [reflexivity|].
    split; [exact Hmono|]. intros _ Hle.
    assert (Hsize : page_size c = Z.of_nat (length items)).
    { unfold page_size, c, page_items. now rewrite Hpage, Hitems. }
    rewrite Hsize. split; [exact Hfull|]. now apply Hlen.
  - cbn [fst snd]. fold c. fold st1.
    destruct (is_request_exception e); cbn [ret raise truthy negb]; now apply Hstop.
Qed.

(** The loop: it ends within [max_results] iterations and never raises;
    every page but the last has at least [limit] listings. *)
Lemma search_businesses_loop_spec fuel : forall businesses offset st,
  1 <= limit ->
  max_results - Z.of_nat (length businesses) <= Z.of_nat fuel ->
  Z.of_nat (length businesses) <= max_results ->
  exists l st' new,
    search_businesses_loop svc fuel location business_type radius max_results
      limit businesses offset st = (Ok (Some l), st') /\
    calls st' = (calls st ++ new)%list /\
    Forall (fun c => limit <= page_size c) (removelast new) /\
    (new <> [] <-> Z.of_nat (length businesses) < max_results).
Proof.
  induction fuel as [|fuel IH]; intros businesses offset st Hlim Hfuel Hinv.
  - cbn [search_businesses_loop].
    destruct (Z.ltb_spec (Z.of_nat (length businesses)) max_results) as [Hlt|Hge].
    + cbn in Hfuel. lia.
    + exists businesses, st, []. rewrite app_nil_r. repeat split; try constructor.
      all: try easy; lia.
  - cbn [search_businesses_loop].
    destruct (Z.ltb_spec (Z.of_nat (length businesses)) max_results) as [Hlt|Hge].
    2:{ exists businesses, st, []. rewrite app_nil_r. repeat split; try constructor.
        all: try easy; lia. }
    set (current_limit := Z.min limit (max_results - Z.of_nat (length businesses))).
    destruct (search_businesses_page_spec current_limit businesses offset st)
      as (continue & bs' & offset' & c & Hpage & Hmono & Hcont).
    rewrite (bind_ok _ _ _ _ _ Hpage).
    destruct continue.
    + destruct (Hcont eq_refl Hinv) as [Hfull Hlen].
      destruct (IH bs' offset' (set_calls (fun cs => (cs ++ [c])%list) st) Hlim)
        as (l & st' & new & Hloop & Hcalls & Hf & Hne); [lia | lia |].
      exists l, st', (c :: new). split; [exact Hloop|].
      split. { rewrite Hcalls. st_simpl. now rewrite <- app_assoc. }
      split.
      { destruct new as [|c' new']; [constructor|].
        apply Forall_removelast_cons; [|exact Hf].
        assert (Hnext : Z.of_nat (length bs') < max_results) by (apply Hne; discriminate).
        unfold current_limit in Hfull. lia. }
      split; [intros _; exact Hlt|discriminate].
    + exists bs', (set_calls (fun cs => (cs ++ [c])%list) st), [c].
      split; [reflexivity|]. split; [reflexivity|]. split; [constructor|].
      split; [intros _; exact Hlt|discriminate].
Qed.

End ClientSearch.

(** [YelpAPIClient.search_businesses] with an API key: it never raises. *)
Lemma search_businesses_spec svc location business_type radius max_results st key :
  0 < max_results ->
  getenv svc "YELP_API_KEY" = Some key -> key <> "" ->
  exists l st' new,
    search_businesses svc location business_type radius max_results st
    = (Ok (Some l), st') /\
    calls st' = (calls st ++ new)%list /\
    Forall (fun c => page_cap max_results <= page_size c) (removelast new) /\
    Z.of_nat (length l) <= max_results.
Proof.
  intros Hpos Hkey Hne. unfold search_businesses. rewrite Hkey.
  destruct key as [|k0 key]; [congruence|].
  destruct (search_businesses_loop_spec svc location business_type radius max_results
              (Z.min DEFAULT_LIMIT max_results) (Z.to_nat max_results) [] 0 st)
    as (businesses & st' & new & Hloop & Hcalls & Hfull & _);
    [unfold DEFAULT_LIMIT; lia | cbn [length]; lia | cbn [length]; lia |].
  rewrite (bind_ok _ _ _ _ _ Hloop).
  exists (slice_to max_results businesses), st', new.
  split; [reflexivity|]. split; [exact Hcalls|]. split; [exact Hfull|].
  unfold slice_to. destruct (max_results <? 0) eqn:E; [apply Z.ltb_lt in E; lia|].
  rewrite length_firstn. lia.
Qed.

(** C1: with [max_results = N > 0] both directory searches return at most
    N listings; every page but the last fetched has at least the page-size
    cap of listings (so a shorter or empty page ends pagination); the
    result is the accumulated list cut to its first N. *)
Theorem search_returns_at_most_N svc params st :
  0 < max_results params ->
  (exists r st' new,
     search_yelp_businesses svc params st = (r, st') /\
     calls st' = (calls st ++ new)%list /\
     Forall (fun c => page_cap (max_results params) <= page_size c) (removelast new) /\
     match r with
     | Ok (Some l) =>
         Z.of_nat (length l) <= max_results params /\
         l = firstn (Z.to_nat (max_results params)) (concat (map page_items new))
     | Ok None => False
     | Raise _ => True
     end /\
     ((exists radius, float_trunc (distance_miles params * 1609.34)%float = Ok radius) ->
      directory_well_formed svc ->
      exists l, r = Ok (Some l))) /\
  (forall location business_type radius key,
     getenv svc "YELP_API_KEY" = Some key -> key <> "" ->
     exists l st' new,
       search_businesses svc location business_type radius (max_results params) st
       = (Ok (Some l), st') /\
       calls st' = (calls st ++ new)%list /\
       Forall (fun c => page_cap (max_results params) <= page_size c) (removelast new) /\
       Z.of_nat (length l) <= max_results params).
Proof.
  intros Hpos. split.
  - destruct (search_yelp_businesses_spec svc params st)
      as (r & st' & new & Hrun & Hcalls & _ & Hfull & Hres & Hwf).
    exists r, st', new. split; [exact Hrun|]. split; [exact Hcalls|].
    split; [exact Hfull|]. split; [|auto].
    destruct r as [[l|]|e]; try exact Hres.
    unfold slice_to in Hres.
    destruct (max_results params <? 0) eqn:E; [apply Z.ltb_lt in E; lia|].
    split; [|exact Hres]. subst l. rewrite length_firstn. lia.
  - intros location business_type radius key Hkey Hne.
    exact (search_businesses_spec svc location business_type radius
             (max_results params) st key Hpos Hkey Hne).
Qed.

(** The scenario of the specification: three results asked for, a first
    page of exactly three listings. *)
Lemma search_returns_at_most_N_witness :
  (exists r st' new,
     search_yelp_businesses three_listings (nashville_restaurants 5.0%float 3)
       (initial_state ∅) = (r, st') /\
     calls st' = (calls (initial_state ∅) ++ new)%list /\
     Forall (fun c => page_cap 3 <= page_size c) (removelast new) /\
     match r with
     | Ok (Some l) =>
         Z.of_nat (length l) <= 3 /\
         l = firstn (Z.to_nat 3) (concat (map page_items new))
     | Ok None => False
     | Raise _ => True
     end /\
     ((exists radius, float_trunc (5.0 * 1609.34)%float = Ok radius) ->
      directory_well_formed three_listings ->
      exists l, r = Ok (Some l))) /\
  (forall location business_type radius key,
     getenv three_listings "YELP_API_KEY" = Some key -> key <> "" ->
     exists l st' new,
       search_businesses three_listings location business_type radius 3
         (initial_state ∅) = (Ok (Some l), st') /\
       calls st' = (calls (initial_state ∅) ++ new)%list /\
       Forall (fun c => page_cap 3 <= page_size c) (removelast new) /\
       Z.of_nat (length l) <= 3).
Proof.
  apply (search_returns_at_most_N three_listings (nashville_restaurants 5.0%float 3)
           (initial_state ∅)).
  reflexivity.
Defined.

(** The same scenario, run: three listings returned, one page fetched. *)
Example search_three_listings_one_page :
  let '(r, st') := search_yelp_businesses three_listings
                     (nashville_restaurants 5.0%float 3) (initial_state ∅) in
  (exists l, r = Ok (Some l) /\ length l = 3%nat) /\ length (calls st') = 1%nat.
Proof. vm_compute. split; [eexists; split; reflexivity|reflexivity]. Qed.

(** ** What the pipeline does to a listing object *)

#[local] Instance only_requests_refl : Reflexive only_requests.
Proof. intros st. repeat split. Qed.

#[local] Instance only_requests_trans : Transitive only_requests.
Proof.
  intros a b c (H1 & H2 & H3 & H4) (K1 & K2 & K3 & K4).
  repeat split; congruence.
Qed.

#[local] Instance reads_only_refl : Reflexive reads_only.
Proof. intros st. split; reflexivity. Qed.

#[local] Instance reads_only_trans : Transitive reads_only.
Proof. intros a b c [H1 H2] [K1 K2]. split; congruence. Qed.

#[local] Instance writes_only_refl keys l : Reflexive (writes_only keys l).
Proof.
  intros st. repeat split. destruct (objects st !! l); [|exact I].
  intros k _. reflexivity.
Qed.

#[local] Instance writes_only_trans keys l : Transitive (writes_only keys l).
Proof.
  intros a b c (H1 & H2 & H3 & H4 & H5) (K1 & K2 & K3 & K4 & K5).
  repeat split; try congruence.
  - intros l' Hl'. rewrite K4, H4; auto.
  - destruct (objects a !! l), (objects b !! l), (objects c !! l); try easy.
    intros k Hk. rewrite K5, H5; auto.
Qed.

Lemma preserves_weaken {A} (R R' : State -> State -> Prop) (m : M A) :
  (forall st st', R st st' -> R' st st') -> preserves R m -> preserves R' m.
Proof. intros HRR Hm st. apply HRR, Hm. Qed.

Lemma only_requests_reads_only st st' : only_requests st st' -> reads_only st st'.
Proof. intros (H1 & _ & _ & H4). split; assumption. Qed.

Lemma only_requests_writes_only keys l st st' :
  only_requests st st' -> writes_only keys l st st'.
Proof.
  intros (H1 & H2 & H3 & H4). repeat split; try assumption.
  - intros l' _. now rewrite H1.
  - rewrite H1. destruct (objects st !! l); [|exact I]. intros k _. reflexivity.
Qed.

Lemma eq_only_requests st st' : st = st' -> only_requests st st'.
Proof. intros <-. reflexivity. Qed.

Section ListingFrame.

Variable svc : Services.
Variable str_lower : string -> string.

Lemma requests_get_only_requests url params :
  preserves only_requests (requests_get svc url params).
Proof. intros st. repeat split. Qed.

Lemma google_places_only_requests query :
  preserves only_requests (google_places svc query).
Proof. intros st. repeat split. Qed.

Lemma google_place_only_requests place_id fields :
  preserves only_requests (google_place svc place_id fields).
Proof. intros st. repeat split. Qed.

Lemma calculate_confidence_pure result : preserves eq (_calculate_confidence result).
Proof. unfold _calculate_confidence. pres_solve. Qed.

Lemma verify_address_only_requests self street city state zip_code :
  preserves only_requests (verify_address svc self street city state zip_code).
Proof.
  unfold verify_address, verify_address_try.
  pres_solve;
    try apply requests_get_only_requests;
    try (eapply preserves_weaken; [apply eq_only_requests|apply calculate_confidence_pure]).
Qed.

(** [fast_verify_business] leaves the whole state alone. *)
Lemma fast_verify_business_pure yelp_data google_data :
  preserves eq (fast_verify_business yelp_data google_data).
Proof. unfold fast_verify_business, obj_get. pres_solve. Qed.

(** A cross-reference lookup touches no listing and no row. *)
Lemma lookup_reads_only business_name address :
  preserves reads_only (get_google_business_info svc str_lower business_name address).
Proof.
  unfold get_google_business_info.
  pres_solve;
    try (eapply preserves_weaken; [apply only_requests_reads_only|];
         first [apply google_places_only_requests|apply google_place_only_requests]);
    intros st; split; reflexivity.
Qed.

Lemma obj_setitem_writes_only keys l k v :
  In k keys -> preserves (writes_only keys l) (obj_setitem l k v).
Proof.
  intros Hin st. unfold obj_setitem, obj_read, bind.
  destruct (objects st !! l) as [d|] eqn:Hd; cbn [snd]; [|reflexivity].
  repeat split; st_simpl.
  - intros l' Hl'. now rewrite lookup_insert_ne.
  - rewrite Hd, lookup_insert_eq. intros k' Hk'.
    apply dict_lookup_set_ne. intros ->. contradiction.
Qed.

(** [verify_business_address] writes nothing but verification keys of
    the listing it is given. *)
Lemma verify_business_address_writes_only business :
  preserves (writes_only verification_keys business)
            (verify_business_address svc business).
Proof.
  unfold verify_business_address, add_verification_data, obj_get.
  destruct (get_smarty_verifier svc) as [verifier|]; [|pres_solve].
  cbv zeta. pres_solve;
    try (eapply preserves_weaken; [apply only_requests_writes_only|];
         apply verify_address_only_requests);
    try (apply obj_setitem_writes_only; cbn; tauto).
Qed.


(** It returns the reference it was given. *)
Lemma verify_business_address_returns_argument business st l :
  run (verify_business_address svc business) st = Ok l -> l = business.
Proof.
  unfold run.
  destruct (verify_business_address svc business st) as [r st'] eqn:Hrun.
  cbn [fst]. intros ->. revert st l st' Hrun.
  unfold verify_business_address.
  destruct (get_smarty_verifier svc) as [verifier|]; [|now intros st l st' [= <- _]].
  do 5 (apply bind_returns_state; intros ?).
  intros st l st'.
  destruct (negb _); [now intros [= <- _]|]. revert st l st'.
  do 2 (apply bind_returns_state; intros ?).
  now intros st l st' [= <- _].
Qed.

(** With no verifier configured, or an incomplete address, it does
    nothing at all. *)
Lemma verify_business_address_skips business st d :
  objects st !! business = Some d ->
  get_smarty_verifier svc = None \/ address_incomplete d ->
  verify_business_address svc business st = (Ok business, st).
Proof.
  intros Hobj Hskip. unfold verify_business_address.
  destruct (get_smarty_verifier svc) as [verifier|]; [|reflexivity].
  destruct Hskip as [|(l & Hloc & Hinc)]; [discriminate|].
  unfold listing_location in Hloc.
  destruct (dict_get d "location" (PDict [])) as [| | | | | |l'] eqn:Hl; try discriminate.
  injection Hloc as ->.
  rewrite (bind_ok _ _ _ _ _ (obj_get_ok st business d _ _ Hobj)). rewrite Hl.
  cbn [bind lift py_get]. rewrite Hinc. reflexivity.
Qed.

End ListingFrame.



(** ** Persisting a page (leadgen/views/dashboard.py) *)

Lemma total_ret {A} (Pre : State -> Prop) (a : A) (Post : A -> State -> Prop) :
  (forall st, Pre st -> Post a st) -> total Pre (ret a) Post.
Proof. intros H st Hst. exists a, st. split; [reflexivity|auto]. Qed.

Lemma total_lift {A} (Pre : State -> Prop) (r : result A) a (Post : A -> State -> Prop) :
  r = Ok a -> (forall st, Pre st -> Post a st) -> total Pre (lift r) Post.
Proof. intros -> H st Hst. exists a, st. split; [reflexivity|auto]. Qed.

Lemma total_bind {A B} (Pre : State -> Prop) (m : M A) (Mid : A -> State -> Prop)
    (k : A -> M B) (Post : B -> State -> Prop) :
  total Pre m Mid -> (forall a, total (Mid a) (k a) Post) -> total Pre (bind m k) Post.
Proof.
  intros Hm Hk st Hst. destruct (Hm st Hst) as (a & st1 & Hrun & Hmid).
  destruct (Hk a st1 Hmid) as (b & st2 & Hrun2 & Hpost).
  exists b, st2. split; [|exact Hpost]. unfold bind. now rewrite Hrun.
Qed.

Lemma obj_setitem_total l k v :
  total (fun st => is_Some (objects st !! l)) (obj_setitem l k v)
        (fun _ st => is_Some (objects st !! l)).
Proof.
  intros st [d Hd]. unfold obj_setitem, obj_read, bind. rewrite Hd.
  do 2 eexists. split; [reflexivity|]. st_simpl. rewrite lookup_insert_eq. eauto.
Qed.

Lemma dict_has_getitem k d :
  dict_has k d = true -> exists v, py_getitem (PDict d) k = Ok v.
Proof.
  unfold dict_has. cbn [py_getitem]. destruct (dict_lookup k d); [eauto|discriminate].
Qed.

(** With every result key present, adding the verification data to an
    allocated listing does not raise. *)
Lemma add_verification_data_total business vr :
  has_result_keys vr = true ->
  total (fun st => is_Some (objects st !! business))
        (add_verification_data business vr)
        (fun _ st => is_Some (objects st !! business)).
Proof.
  intros Hkeys. unfold has_result_keys, result_keys in Hkeys. cbn [forallb] in Hkeys.
  repeat (apply andb_prop in Hkeys; destruct Hkeys as [?Hk Hkeys]).
  unfold add_verification_data. cbv zeta.
  repeat
    match goal with
    | |- total _ (bind (lift (py_getitem (PDict vr) ?k)) _) _ =>
        let v := fresh "v" in let Hv := fresh "Hv" in
        assert (exists v, py_getitem (PDict vr) k = Ok v) as [v Hv]
          by (apply dict_has_getitem; assumption);
        eapply total_bind; [eapply total_lift; [exact Hv|intros ? H; exact H]|];
        intros ?
    | |- total _ (bind (obj_setitem _ _ _) _) _ =>
        eapply total_bind; [apply obj_setitem_total|]; intros ?
    | |- total _ (if ?b then _ else _) _ => destruct b
    | |- total _ (obj_setitem _ _ _) _ => apply obj_setitem_total
    | |- total _ (ret _) _ => apply total_ret; intros ? H; exact H
    end.
Qed.


(** Every result of [verify_address] carries the eight result keys. *)
Lemma verify_address_result_keys svc self street city state zip_code st d st' :
  verify_address svc self street city state zip_code st = (Ok d, st') ->
  has_result_keys d = true.
Proof.
  unfold verify_address, try_except.
  destruct (verify_address_try svc self street city state zip_code st)
    as [[d0|e] st0] eqn:Htry.
  - intros [= <- <-]. revert st d0 st0 Htry. unfold verify_address_try. cbv zeta.
    apply bind_returns_state. intros results st d st'.
    destruct (negb (truthy results)); [now intros [= <- <-]|].
    revert st d st'. do 3 (apply bind_returns_state; intros ?).
    intros st d st'. destruct (in_strs _ _).
    + revert st d st'. do 8 (apply bind_returns_state; intros ?).
      now intros st d st' [= <- <-].
    + revert st d st'. do 2 (apply bind_returns_state; intros ?).
      now intros st d st' [= <- <-].
  - destruct (is_request_exception e); now intros [= <- <-].
Qed.

#[local] Instance agree_outside_refl keys : Reflexive (agree_outside keys).
Proof. intros d k _. reflexivity. Qed.

#[local] Instance agree_outside_trans keys : Transitive (agree_outside keys).
Proof. intros a b c H K k Hk. rewrite K, H; auto. Qed.

#[local] Instance agree_outside_sym keys : Symmetric (agree_outside keys).
Proof. intros a b H k Hk. symmetry. auto. Qed.

#[local] Instance objects_agree_refl : Reflexive objects_agree.
Proof. intros st l. destruct (objects st !! l); [reflexivity|exact I]. Qed.

#[local] Instance objects_agree_trans : Transitive objects_agree.
Proof.
  intros a b c H K l. specialize (H l). specialize (K l).
  destruct (objects a !! l), (objects b !! l), (objects c !! l); try easy.
  etransitivity; eassumption.
Qed.

#[local] Instance objects_agree_sym : Symmetric objects_agree.
Proof.
  intros a b H l. specialize (H l).
  destruct (objects a !! l), (objects b !! l); try easy; now symmetry.
Qed.

#[local] Instance ingest_rel_refl : Reflexive ingest_rel.
Proof. intros st. split; [reflexivity|]. exists []. now rewrite app_nil_r. Qed.

#[local] Instance ingest_rel_trans : Transitive ingest_rel.
Proof.
  intros a b c [H1 [n1 H2]] [K1 [n2 K2]]. split; [etransitivity; eassumption|].
  exists (n1 ++ n2)%list. now rewrite K2, H2, app_assoc.
Qed.

Lemma writes_only_ingest_rel l st st' :
  writes_only verification_keys l st st' -> ingest_rel st st'.
Proof.
  intros (_ & _ & Ht & Hother & Hl). split.
  - intros l'. destruct (decide (l' = l)) as [->|Hne].
    + exact Hl.
    + rewrite (Hother l' Hne). destruct (objects st !! l'); [reflexivity|exact I].
  - exists []. now rewrite app_nil_r.
Qed.

Lemma eq_ingest_rel st st' : st = st' -> ingest_rel st st'.
Proof. intros <-. reflexivity. Qed.

(** Under agreement outside the verification keys the identifier, the name
    and the address components are the same. *)
Lemma agree_outside_core d d' :
  agree_outside verification_keys d d' ->
  dict_get d' "id" PNone = dict_get d "id" PNone /\
  dict_get d' "name" PNone = dict_get d "name" PNone /\
  listing_location d' = listing_location d.
Proof.
  intros H. unfold listing_location, dict_get.
  rewrite !H; [auto| | |]; cbn; intuition discriminate.
Qed.

Lemma stored_app s t new : stored s t = true -> stored s (t ++ new) = true.
Proof. unfold stored. rewrite existsb_app. now intros ->. Qed.

Lemma stored_row_stored s t :
  stored s t = match stored_row s t with Some _ => true | None => false end.
Proof.
  unfold stored, stored_row. induction t as [|b t IH]; [reflexivity|].
  cbn. destruct (eq_str (b_yelp_id b) s); [reflexivity|exact IH].
Qed.

Section Ingest.

Variable svc : Services.
Variable business_type : string.

Lemma query_pure v : preserves eq (query_first_by_yelp_id v).
Proof. intros st. destruct v; reflexivity. Qed.

Lemma new_business_row_pure business :
  preserves eq (new_business_row business_type business).
Proof. unfold new_business_row, obj_get. pres_solve. Qed.

Lemma session_add_commit_rel row : preserves ingest_rel (session_add_commit row).
Proof.
  intros st. unfold session_add_commit.
  destruct (b_yelp_id row); cbn [raise snd]; try reflexivity.
  destruct (b_name row); cbn [raise snd]; try reflexivity;
    (destruct (existsb _ (businesses_table st)); cbn [snd]; [reflexivity|];
     split; [|exists [row]; reflexivity];
     intros l; st_simpl; destruct (objects st !! l); [reflexivity|exact I]).
Qed.

(** Ingesting one listing only appends rows and only touches verification
    keys. *)
Lemma ingest_business_rel business :
  preserves ingest_rel (ingest_business svc business_type business).
Proof.
  unfold ingest_business, store_new_business, obj_get, obj_contains.
  pres_solve;
    try (eapply preserves_weaken; [apply eq_ingest_rel|];
         first [apply query_pure|apply new_business_row_pure]);
    try (eapply preserves_weaken;
         [|apply verify_business_address_writes_only];
         apply writes_only_ingest_rel);
    try apply session_add_commit_rel.
Qed.

Lemma ingest_page_rel page : preserves ingest_rel (ingest_page svc business_type page).
Proof.
  induction page as [|business rest IH]; cbn [ingest_page]; pres_solve;
    [apply ingest_business_rel|exact IH].
Qed.

(** On a listing with address components the verification step returns. *)
Lemma verify_business_address_ok business st d :
  objects st !! business = Some d ->
  is_Some (listing_location d) ->
  exists st', verify_business_address svc business st = (Ok business, st').
Proof.
  intros Hobj [l Hloc]. unfold verify_business_address.
  destruct (get_smarty_verifier svc) as [verifier|]; [|eexists; reflexivity].
  unfold listing_location in Hloc.
  destruct (dict_get d "location" (PDict [])) as [| | | | | |l'] eqn:Hl; try discriminate.
  rewrite (bind_ok _ _ _ _ _ (obj_get_ok st business d _ _ Hobj)). rewrite Hl.
  cbn [bind lift py_get].
  destruct (negb _); [eexists; reflexivity|].
  set (street := dict_get l' "address1" (PStr "")).
  set (city := dict_get l' "city" (PStr "")).
  set (state := dict_get l' "state" (PStr "")).
  set (zip_code := dict_get l' "zip_code" (PStr "")).
  pose proof (verify_address_handler svc verifier street city state zip_code st) as Hh.
  pose proof (verify_address_only_requests svc verifier street city state zip_code st) as Hreq.
  assert (Hv : exists vr st1,
             verify_address svc verifier street city state zip_code st = (Ok vr, st1)).
  { destruct (verify_address_try svc verifier street city state zip_code st) as [[vr|e] st1];
      [eauto|destruct Hh as (vr & Hh & _); eauto]. }
  destruct Hv as (vr & st1 & Hv). rewrite Hv in Hreq. cbn [snd] in Hreq.
  destruct Hreq as (Hobjs & _).
  destruct (add_verification_data_total business vr
              (verify_address_result_keys _ _ _ _ _ _ _ _ _ Hv) st1)
    as ([] & st2 & Hadd & _); [rewrite Hobjs, Hobj; eauto|].
  unfold bind. rewrite Hv, Hadd. eexists; reflexivity.
Qed.

(** The verification step of [ingest_business]: run or skipped, it writes
    verification keys only, returns the listing when it returns, and
    returns whenever the listing has address components. *)
Lemma verify_step_spec business st d (has : bool) :
  objects st !! business = Some d ->
  exists r st1,
    (if negb has then verify_business_address svc business else ret business) st
    = (r, st1) /\
    writes_only verification_keys business st st1 /\
    (forall b, r = Ok b -> b = business) /\
    (is_Some (listing_location d) -> r = Ok business).
Proof.
  intros Hobj. destruct has; cbn [negb].
  - exists (Ok business), st. split; [reflexivity|]. split; [reflexivity|].
    split; [now intros b [= <-]|reflexivity].
  - pose proof (verify_business_address_writes_only svc business st) as Hw.
    pose proof (verify_business_address_returns_argument svc business st) as Hret.
    unfold run in Hret.
    destruct (verify_business_address svc business st) as [r st1] eqn:Hrun.
    exists r, st1. cbn [fst snd] in *. split; [reflexivity|]. split; [exact Hw|].
    split; [intros b ->; now apply Hret|].
    intros Hloc. destruct (verify_business_address_ok business st d Hobj Hloc) as (st' & Hok).
    congruence.
Qed.

(** Building the new row succeeds exactly on a listing with address
    components, and copies its identifier and name. *)
Lemma new_business_row_spec business st d :
  objects st !! business = Some d ->
  match listing_location d with
  | Some _ =>
      exists row,
        new_business_row business_type business st = (Ok row, st) /\
        b_yelp_id row = dict_get d "id" PNone /\
        b_name row = dict_get d "name" PNone
  | None => exists e, new_business_row business_type business st = (Raise e, st)
  end.
Proof.
  intros Hobj. unfold new_business_row, listing_location.
  repeat (rewrite (bind_ok _ _ _ _ _ (obj_get_ok st business d _ _ Hobj))).
  destruct (dict_get d "location" (PDict [])) as [| | | | | |l] eqn:Hl;
    cbn [bind lift py_get]; try (eexists; reflexivity).
  repeat (rewrite (bind_ok _ _ _ _ _ (obj_get_ok st business d _ _ Hobj));
          try rewrite Hl; cbn [bind lift py_get]).
  eexists. split; [reflexivity|]. split; reflexivity.
Qed.

Lemma session_add_commit_ok row s st :
  b_yelp_id row = PStr s -> b_name row <> PNone ->
  stored s (businesses_table st) = false ->
  session_add_commit row st
  = (Ok tt, set_businesses_table (fun t => (t ++ [row])%list) st).
Proof.
  intros Hid Hname Hs. unfold session_add_commit. rewrite Hid.
  unfold stored in Hs. destruct (b_name row); try congruence; now rewrite Hs.
Qed.

Lemma session_add_commit_refused row st :
  b_yelp_id row = PNone \/ (exists s, b_yelp_id row = PStr s) /\ b_name row = PNone ->
  exists e, session_add_commit row st = (Raise e, st).
Proof.
  intros [Hid|[[s Hid] Hname]]; unfold session_add_commit; rewrite Hid.
  - eexists; reflexivity.
  - rewrite Hname. eexists; reflexivity.
Qed.

Lemma session_add_commit_cases row st :
  (exists s, b_yelp_id row = PStr s /\ b_name row <> PNone /\
             stored s (businesses_table st) = false /\
             session_add_commit row st
             = (Ok tt, set_businesses_table (fun t => (t ++ [row])%list) st)) \/
  ((exists e, session_add_commit row st = (Raise e, st)) /\
   ~ (exists s, b_yelp_id row = PStr s /\ b_name row <> PNone /\
                stored s (businesses_table st) = false)).
Proof.
  unfold session_add_commit, stored.
  destruct (b_yelp_id row) as [| | | |s| |] eqn:Hid;
    try (right; split; [eexists; reflexivity|intros (s' & H & _); discriminate]).
  destruct (b_name row) eqn:Hn;
    try (right; split; [eexists; reflexivity|intros (s' & _ & H & _); congruence]);
    cbv beta;
    (destruct (existsb (fun b => eq_str (b_yelp_id b) s) (businesses_table st)) eqn:Hs;
     [ right; split; [eexists; reflexivity|intros (s' & [= <-] & _ & H); congruence]
     | left; exists s; repeat split; [discriminate|exact Hs] ]).
Qed.

(** Storing a listing that is not stored yet appends its row exactly when
    it has a string identifier, address components and a name; otherwise it
    raises and stores nothing. *)
Lemma store_new_business_outcome business st d :
  objects st !! business = Some d ->
  exists r st',
    store_new_business svc business_type business st = (r, st') /\
    let storable :=
      exists s, dict_get d "id" PNone = PStr s /\
                stored s (businesses_table st) = false /\
                is_Some (listing_location d) /\
                dict_get d "name" PNone <> PNone in
    match r with
    | Ok row =>
        storable /\ b_yelp_id row = dict_get d "id" PNone /\
        businesses_table st' = (businesses_table st ++ [row])%list
    | Raise _ => ~ storable /\ businesses_table st' = businesses_table st
    end.
Proof.
  intros Hobj. unfold store_new_business.
  assert (Hhas : obj_contains business "address_verified" st
                 = (Ok (dict_has "address_verified" d), st)).
  { unfold obj_contains, obj_read, bind. now rewrite Hobj. }
  rewrite (bind_ok _ _ _ _ _ Hhas).
  destruct (verify_step_spec business st d (dict_has "address_verified" d) Hobj)
    as (r1 & st1 & Hstep & Hw & Hret & Hok).
  destruct Hw as (_ & _ & Ht & _ & Hl). rewrite Hobj in Hl.
  destruct (objects st1 !! business) as [d1|] eqn:Hobj1; [|contradiction].
  destruct (agree_outside_core d d1 Hl) as (Hid & Hname & Hloc).
  destruct r1 as [b|e].
  2:{ rewrite (bind_raise _ _ _ _ _ Hstep). exists (Raise e), st1.
      split; [reflexivity|]. cbv zeta. split; [|exact Ht].
      intros (s & _ & _ & Hsome & _). specialize (Hok Hsome). discriminate. }
  pose proof (Hret b eq_refl) as Hb. subst b. clear Hret.
  rewrite (bind_ok _ _ _ _ _ Hstep).
  pose proof (new_business_row_spec business st1 d1 Hobj1) as Hrow.
  rewrite Hloc in Hrow.
  destruct (listing_location d) as [l|] eqn:Hlocd.
  2:{ destruct Hrow as (e & Hrow). rewrite (bind_raise _ _ _ _ _ Hrow).
      exists (Raise e), st1. split; [reflexivity|]. cbv zeta. split; [|exact Ht].
      intros (s & _ & _ & [x Hx] & _). discriminate. }
  destruct Hrow as (row & Hrow & Hrid & Hrname). rewrite Hid in Hrid. rewrite Hname in Hrname.
  rewrite (bind_ok _ _ _ _ _ Hrow).
  destruct (session_add_commit_cases row st1) as [(s & Hs1 & Hs2 & Hs3 & Hcommit)|[[e Hcommit] Hno]].
  - rewrite (bind_ok _ _ _ _ _ Hcommit). cbn [ret].
    eexists _, _. split; [reflexivity|]. cbv zeta. split; [|split].
    + exists s. rewrite <- Hrid, <- Hrname, <- Ht. eauto.
    + exact Hrid.
    + st_simpl. now rewrite Ht.
  - rewrite (bind_raise _ _ _ _ _ Hcommit).
    exists (Raise e), st1. split; [reflexivity|]. cbv zeta. split; [|exact Ht].
    intros (s & H1 & H2 & _ & H4). apply Hno. exists s.
    rewrite Hrid, Hrname, Ht. auto.
Qed.

(** One listing: the view takes it exactly when it is acceptable; a taken
    listing is stored afterwards, and one stored before changes nothing; a
    refused one stores nothing. *)
Lemma ingest_business_outcome business st :
  exists r st',
    ingest_business svc business_type business st = (r, st') /\
    match r with
    | Ok row =>
        acceptable st business /\
        exists d s,
          objects st !! business = Some d /\
          dict_get d "id" PNone = PStr s /\
          stored s (businesses_table st') = true /\
          (stored s (businesses_table st) = true ->
           st' = st /\ stored_row s (businesses_table st) = Some row)
    | Raise _ =>
        ~ acceptable st business /\ businesses_table st' = businesses_table st
    end.
Proof.
  unfold ingest_business.
  destruct (objects st !! business) as [d|] eqn:Hobj.
  2:{ unfold obj_get, obj_read, bind. rewrite Hobj. eexists _, _. split; [reflexivity|].
      split; [|reflexivity]. intros (d & s & H & _). congruence. }
  rewrite (bind_ok _ _ _ _ _ (obj_get_ok st business d _ _ Hobj)).
  assert (Hacc : acceptable st business ->
                 exists s, dict_get d "id" PNone = PStr s /\
                   (stored s (businesses_table st) = true \/
                    (is_Some (listing_location d) /\ dict_get d "name" PNone <> PNone))).
  { intros (d' & s & Hd' & Hid & H). rewrite Hobj in Hd'. injection Hd' as <-. eauto. }
  destruct (store_new_business_outcome business st d Hobj) as (r & st' & Hnew & Hout).
  cbv zeta in Hout.
  destruct (dict_get d "id" PNone) as [| | | |s| |] eqn:Hid;
    try (eexists _, _; split; [reflexivity|]; split; [|reflexivity];
         intros Ha; destruct (Hacc Ha) as (s & Hs & _); discriminate).
  - (* no identifier: looked up as NULL, then refused at commit *)
    cbn [query_first_by_yelp_id]. rewrite bind_ret. rewrite Hnew.
    exists r, st'. split; [reflexivity|].
    destruct r as [row|e].
    + destruct Hout as ((s & Hs & _) & _). discriminate.
    + split; [|apply Hout]. intros Ha. destruct (Hacc Ha) as (s & Hs & _). discriminate.
  - cbn [query_first_by_yelp_id]. unfold bind at 1.
    pose proof (stored_row_stored s (businesses_table st)) as Hsr. unfold stored_row in Hsr.
    destruct (List.find _ (businesses_table st)) as [existing|] eqn:Hfind.
    + exists (Ok existing), st. split; [reflexivity|].
      split.
      * exists d, s. auto.
      * exists d, s. repeat split; auto.
    + rewrite Hnew. exists r, st'. split; [reflexivity|].
      destruct r as [row|e].
      * destruct Hout as ((s' & Hs' & Hns & Hloc & Hname) & Hrid & Htable).
        injection Hs' as <-.
        split; [exists d, s; auto|].
        exists d, s. repeat split; auto; try congruence.
        rewrite Htable. unfold stored. rewrite existsb_app. cbn. rewrite Hrid. cbn.
        rewrite String.eqb_refl. apply orb_true_r.
      * destruct Hout as (Hno & Htable). split; [|exact Htable].
        intros Ha. destruct (Hacc Ha) as (s' & [= <-] & [Hst|[Hloc Hname]]); [congruence|].
        apply Hno. exists s. auto.
Qed.

End Ingest.

Section IngestTwice.

Variable svc : Services.
Variable business_type : string.

Lemma acceptable_transfer s t business :
  objects_agree s t ->
  businesses_table s = businesses_table t ->
  acceptable t business -> acceptable s business.
Proof.
  intros Hag Ht (d' & id & Hobj & Hid & Hcase).
  specialize (Hag business). rewrite Hobj in Hag.
  destruct (objects s !! business) as [d|] eqn:Hobjs; [|contradiction].
  destruct (agree_outside_core d d' Hag) as (Hid' & Hname & Hloc).
  exists d, id. split; [exact Hobjs|]. rewrite <- Hid', <- Hname, <- Hloc, Ht. auto.
Qed.

Lemma exec_ingest_page_cons business rest st :
  exec (ingest_page svc business_type (business :: rest)) st
  = match ingest_business svc business_type business st with
    | (Ok _, st') => exec (ingest_page svc business_type rest) st'
    | (Raise _, st') => st'
    end.
Proof.
  unfold exec. cbn [ingest_page]. unfold bind at 1.
  destruct (ingest_business svc business_type business st) as [[row|e] st']; [|reflexivity].
  unfold bind. destruct (ingest_page svc business_type rest st') as [[rows|e] st'']; reflexivity.
Qed.

(** Ingesting a page again, from a state that holds the table the first
    ingestion ended with, stores nothing. *)
Lemma ingest_page_again page : forall s t,
  objects_agree s t ->
  businesses_table t = businesses_table (exec (ingest_page svc business_type page) s) ->
  businesses_table (exec (ingest_page svc business_type page) t) = businesses_table t.
Proof.
  induction page as [|business rest IH]; intros s t Hag Htable; [reflexivity|].
  rewrite exec_ingest_page_cons in Htable |- *.
  destruct (ingest_business_outcome svc business_type business s) as (r1 & s' & Hrun1 & Hout1).
  destruct (ingest_business_outcome svc business_type business t) as (r2 & t' & Hrun2 & Hout2).
  pose proof (ingest_business_rel svc business_type business s) as Hrel1.
  rewrite Hrun1 in Hrel1, Htable. cbn [snd] in Hrel1. rewrite Hrun2.
  destruct r1 as [row1|e1].
  - (* taken the first time: stored now, so skipped the second time *)
    destruct Hout1 as (_ & d & id & Hobj & Hid & Hstored & _).
    pose proof (ingest_page_rel svc business_type rest s') as [_ [new Hnew]].
    assert (Hst : stored id (businesses_table t) = true).
    { rewrite Htable. unfold exec. rewrite Hnew. now apply stored_app. }
    pose proof (Hag business) as Hagb. rewrite Hobj in Hagb.
    destruct (objects t !! business) as [d'|] eqn:Hobj'; [|contradiction].
    destruct (agree_outside_core d d' Hagb) as (Hid' & _ & _).
    assert (Hacc : acceptable t business).
    { exists d', id. split; [exact Hobj'|]. split; [congruence|auto]. }
    destruct r2 as [row2|e2]; [|destruct Hout2 as [Hno _]; contradiction].
    destruct Hout2 as (_ & d2 & id2 & Hobj2 & Hid2 & _ & Hskip).
    assert (id2 = id) by congruence. subst id2.
    destruct (Hskip Hst) as [-> _].
    apply (IH s' t); [|exact Htable].
    destruct Hrel1 as [Hag1 _]. etransitivity; [symmetry; exact Hag1|exact Hag].
  - (* refused the first time: refused again, nothing stored *)
    destruct Hout1 as (Hno & Ht1).
    destruct r2 as [row2|e2]; [|apply Hout2].
    destruct Hout2 as (Hacc & _). exfalso. apply Hno.
    apply (acceptable_transfer s t); [exact Hag|congruence|exact Hacc].
Qed.

End IngestTwice.

(** C5: ingesting a page twice leaves the table as one ingestion left it,
    so the stored count is the same, whether the listing objects are the
    ones ingested before or copies that agree with them outside the
    verification keys; a listing whose identifier is already stored is
    skipped, state untouched, and the stored row is what the view answers;
    ingestion only appends rows, so no stored row is updated. *)
Theorem ingest_twice_same_count svc business_type page st :
  let st1 := exec (ingest_page svc business_type page) st in
  let st2 := exec (ingest_page svc business_type page) st1 in
  length (businesses_table st2) = length (businesses_table st1) /\
  businesses_table st2 = businesses_table st1 /\
  (forall t,
     objects_agree st t ->
     businesses_table t = businesses_table st1 ->
     businesses_table (exec (ingest_page svc business_type page) t)
     = businesses_table st1) /\
  (exists new, businesses_table st1 = (businesses_table st ++ new)%list) /\
  (forall business d s row,
     objects st !! business = Some d ->
     dict_get d "id" PNone = PStr s ->
     stored_row s (businesses_table st) = Some row ->
     ingest_business svc business_type business st = (Ok row, st)).
Proof.
  cbv zeta.
  assert (H2 : businesses_table
                 (exec (ingest_page svc business_type page)
                    (exec (ingest_page svc business_type page) st))
               = businesses_table (exec (ingest_page svc business_type page) st)).
  { apply (ingest_page_again svc business_type page st); [|reflexivity].
    apply (ingest_page_rel svc business_type page st). }
  split; [now rewrite H2|]. split; [exact H2|].
  split.
  { intros t Hag Ht. rewrite <- Ht.
    now apply (ingest_page_again svc business_type page st). }
  split; [apply (ingest_page_rel svc business_type page st)|].
  intros business d s row Hobj Hid Hrow.
  assert (Hst : stored s (businesses_table st) = true)
    by (rewrite stored_row_stored, Hrow; reflexivity).
  destruct (ingest_business_outcome svc business_type business st) as (r & st' & Hrun & Hout).
  destruct r as [row'|e].
  - destruct Hout as (_ & d' & s' & Hobj' & Hid' & _ & Hskip).
    assert (s' = s) by congruence. subst s'.
    destruct (Hskip Hst) as [-> Hrow']. congruence.
  - destruct Hout as [Hno _]. exfalso. apply Hno. exists d, s. auto.
Qed.

(** Two listings with one identifier, the second with new data: one row is
    stored, the first one's, and a second ingestion adds none. *)
Example ingest_duplicate_identifier :
  let objs : gmap loc pydict :=
    {[ 1%positive := sample_listing;
       2%positive := [ ("id", PStr "abc123"); ("name", PStr "Hattie B's Hot Chicken");
                       ("phone", PStr "615-555-0100") ] ]} in
  let st1 := exec (ingest_page empty_directory "restaurants" [1%positive; 2%positive])
                  (initial_state objs) in
  let st2 := exec (ingest_page empty_directory "restaurants" [1%positive; 2%positive]) st1 in
  map b_name (businesses_table st1) = [PStr "Hattie B's"] /\
  map b_name (businesses_table st2) = [PStr "Hattie B's"].
Proof. vm_compute. split; reflexivity. Qed.

(** * Further properties of the pipeline *)

(** ** Inversion of a run *)

Lemma bind_inv {A B} (m : M A) (k : A -> M B) st b st' :
  bind m k st = (Ok b, st') ->
  exists a st1, m st = (Ok a, st1) /\ k a st1 = (Ok b, st').
Proof.
  unfold bind. destruct (m st) as [[a|e] st1]; [eauto|discriminate].
Qed.

Lemma bind_lift_inv {A B} (r : result A) (k : A -> M B) st b st' :
  bind (lift r) k st = (Ok b, st') ->
  exists a, r = Ok a /\ k a st = (Ok b, st').
Proof.
  intros H. apply bind_inv in H as (a & st1 & Hr & Hk).
  unfold lift in Hr. injection Hr as -> <-. eauto.
Qed.

(** A [try] whose block, after its first step, and whose handler leave the
    state alone ends in the state its first step reaches. *)
Lemma try_bind_state {A B} (m : M A) (k : A -> M B) (h : pyexn -> M B) st :
  (forall a, preserves eq (k a)) -> (forall e, preserves eq (h e)) ->
  snd (try_except (bind m k) h st) = snd (m st).
Proof.
  intros Hk Hh. unfold try_except, bind.
  destruct (m st) as [[a|e] st1]; cbn [snd].
  - specialize (Hk a st1). destruct (k a st1) as [[b|e] st2]; cbn [snd] in *.
    + now symmetry.
    + specialize (Hh e st2). cbn in Hk. subst st2. now symmetry.
  - specialize (Hh e st1). now symmetry.
Qed.

(** ** Confidence of a verification (smarty_verification.py) *)

(** The values of [confidence_map], with the default of its [get]. *)
Lemma confidence_map_values (dpv_match : pyval) (c : float) :
  match dpv_match with
  | PStr "Y" => Ok 1.0%float
  | PStr "S" => Ok 0.9%float
  | PStr "D" => Ok 0.8%float
  | PStr "N" => Ok 0.0%float
  | PList _ => Raise (MkExn TypeError "unhashable type: 'list'")
  | PDict _ => Raise (MkExn TypeError "unhashable type: 'dict'")
  | _ => Ok 0.0%float
  end = Ok c ->
  In c [1.0; 0.9; 0.8; 0.0]%float.
Proof.
  destruct dpv_match as [| | | |s| |]; try (intros [= <-]; simpl; tauto); try discriminate.
  destruct s as [|a s]; [intros [= <-]; simpl; tauto|].
  destruct s as [|a' s].
  - destruct a as [[] [] [] [] [] [] [] []]; intros [= <-]; simpl; tauto.
  - destruct a as [[] [] [] [] [] [] [] []]; intros [= <-]; simpl; tauto.
Qed.

(** X1: whatever record it is given, [_calculate_confidence] either raises
    or returns a confidence between 0.0 and 1.0, and it leaves the state
    as it found it. *)
Theorem calculate_confidence_in_unit_interval (result : pyval) (st : State) :
  match _calculate_confidence result st with
  | (Ok c, st') =>
      PrimFloat.leb 0 c = true /\ PrimFloat.leb c 1 = true /\ st' = st
  | (Raise _, st') => st' = st
  end.
Proof.
  unfold _calculate_confidence, bind, lift.
  destruct (py_get result "analysis" (PDict [])) as [analysis|]; [|reflexivity].
  destruct (py_get analysis "dpv_match_code" (PStr "N")) as [dpv_match|]; [|reflexivity].
  pose proof (confidence_map_values dpv_match) as Hmap.
  match goal with
  | |- (let (_, _) := match ?m with Ok _ => _ | Raise _ => _ end in _) =>
      destruct m as [base|]; [|reflexivity]
  end.
  specialize (Hmap base eq_refl).
  destruct (py_get analysis "dpv_vacant" (PBool false)) as [vacant|]; [|reflexivity].
  destruct (py_get analysis "dpv_cmra" (PBool false)) as [cmra|]; [|reflexivity].
  cbn [ret].
  simpl in Hmap.
  destruct (truthy vacant), (truthy cmra);
    destruct Hmap as [<-|[<-|[<-|[<-|[]]]]]; vm_compute; auto.
Qed.

Section VerificationShape.

Variable svc : Services.
Variable self : SmartyStreetsVerifier.
Variables street city state zip_code : pyval.

(** The state [verify_address] ends in. *)
Lemma verify_address_exec (st : State) :
  snd (verify_address svc self street city state zip_code st) =
  set_calls (fun cs => (cs ++ [smarty_call svc self street city state zip_code st])%list) st.
Proof.
  unfold verify_address, verify_address_try. cbv zeta.
  rewrite try_bind_state; [reflexivity| |].
  - intros results. pres_solve. apply calculate_confidence_pure.
  - intros e. pres_solve.
Qed.

(** The confidence of a record whose match code is Y, S or D. *)
Lemma calculate_confidence_deliverable result analysis code st c st' :
  py_get result "analysis" (PDict []) = Ok analysis ->
  py_get analysis "dpv_match_code" PNone = Ok code ->
  in_strs code ["Y"; "S"; "D"] = true ->
  _calculate_confidence result st = (Ok c, st') ->
  PrimFloat.leb 0.5 c = true /\ PrimFloat.leb c 1 = true.
Proof.
  intros Han Hcode Hin.
  destruct (py_get_ok_dict _ _ _ _ Hcode) as (a & -> & Hc).
  assert (HN : dict_get a "dpv_match_code" (PStr "N") = code).
  { eapply dict_get_default_irrelevant; [symmetry; exact Hc|].
    intros ->. discriminate. }
  unfold _calculate_confidence, bind, lift. rewrite Han. cbn [py_get]. rewrite HN.
  destruct code as [| | | |s| |]; try discriminate.
  cbn [in_strs existsb eq_str orb] in Hin.
  assert (Hs : s = "Y" \/ s = "S" \/ s = "D").
  { destruct (String.eqb_spec s "Y"); [auto|].
    destruct (String.eqb_spec s "S"); [auto|].
    destruct (String.eqb_spec s "D"); [auto|discriminate]. }
  destruct Hs as [-> | [-> | ->]]; cbn [ret];
    destruct (truthy (dict_get a "dpv_vacant" (PBool false))),
             (truthy (dict_get a "dpv_cmra" (PBool false)));
    intros [= <- _]; vm_compute; auto.
Qed.

(** What [verify_address] answers. *)
Lemma verify_address_answer (st : State) :
  exists d st',
    verify_address svc self street city state zip_code st = (Ok d, st') /\
    (confirmed_result d \/ rejected_result d).
Proof.
  pose proof (verify_address_handler svc self street city state zip_code st) as H.
  destruct (verify_address_try svc self street city state zip_code st)
    as [[d|e] st'] eqn:Htry.
  2:{ destruct H as (d & H & Hv & Hs & Hc & _).
      exists d, st'. split; [exact H|]. right.
      revert H Hv Hs Hc. unfold verify_address, try_except. rewrite Htry.
      destruct (is_request_exception e); intros [= <-]; intros;
        (split; [easy|]); (split; [now right|]); (split; [easy|repeat constructor]). }
  exists d, st'. split; [exact H|]. clear H.
  unfold verify_address_try in Htry. cbv zeta in Htry.
  apply bind_inv in Htry as (results & st1 & _ & Htry).
  destruct (negb (truthy results)).
  { injection Htry as <- <-. right. split; [easy|]. split; [now left|].
    split; [easy|]. repeat constructor. }
  apply bind_lift_inv in Htry as (result & _ & Htry).
  apply bind_lift_inv in Htry as (analysis & Han & Htry).
  apply bind_lift_inv in Htry as (code & Hcode & Htry).
  destruct (in_strs code ["Y"; "S"; "D"]) eqn:Hin.
  - apply bind_inv in Htry as (c & st2 & Hconf & Htry).
    do 7 (apply bind_lift_inv in Htry as (? & _ & Htry)).
    injection Htry as <- <-. left.
    split; [easy|]. split; [easy|]. split; [easy|].
    exists c. split; [easy|].
    exact (calculate_confidence_deliverable _ _ _ _ _ _ Han Hcode Hin Hconf).
  - do 2 (apply bind_lift_inv in Htry as (? & _ & Htry)).
    injection Htry as <- <-. right. split; [easy|]. split; [now left|].
    split; [easy|]. repeat constructor.
Qed.

(** The whole outcome of [verify_address]. *)
Lemma verify_address_outcome (st : State) :
  exists d,
    verify_address svc self street city state zip_code st =
      (Ok d, set_calls (fun cs => (cs ++ [smarty_call svc self street city state zip_code st])%list) st) /\
    (confirmed_result d \/ rejected_result d).
Proof.
  destruct (verify_address_answer st) as (d & st' & H & Hd).
  exists d. split; [|exact Hd].
  rewrite <- verify_address_exec, H. reflexivity.
Qed.

(** X2: every call of [verify_address] sends exactly one request, to the
    verification endpoint with the credentials and the four address fields,
    and changes nothing else: no listing, no cache entry, no counter, no
    stored row. *)
Theorem verify_address_one_request (st : State) :
  exec (verify_address svc self street city state zip_code) st =
  set_calls (fun cs => (cs ++ [smarty_call svc self street city state zip_code st])%list) st.
Proof. apply verify_address_exec. Qed.

(** X3: the result of [verify_address] has one of two shapes.  Either the
    address is confirmed (verified, status "verified", no error, confidence
    between 0.5 and 1.0), or it is not (not verified, status "invalid" or
    "error", confidence 0.0, every verified address field [None]). *)
Theorem verify_address_result_shape (st : State) :
  exists d,
    run (verify_address svc self street city state zip_code) st = Ok d /\
    (confirmed_result d \/ rejected_result d).
Proof.
  destruct (verify_address_outcome st) as (d & H & Hd).
  exists d. split; [|exact Hd]. unfold run. now rewrite H.
Qed.

End VerificationShape.

(** X4: [batch_verify_addresses] sends one verification request for each
    address record up to the first item that is not a record, in order, and
    changes nothing else.  When every item is a record it returns one result
    per address, each of the two shapes of [verify_address]; otherwise it
    raises [AttributeError] at the first item that is not a record, after
    the requests for the addresses before it went out. *)
Theorem batch_verify_addresses_per_address svc self addresses : forall st,
  let st' := exec (batch_verify_addresses svc self addresses) st in
  only_requests st st' /\
  (exists new, calls st' = (calls st ++ new)%list /\
               map call_request new =
               map (address_request self) (leading_records addresses)) /\
  match run (batch_verify_addresses svc self addresses) st with
  | Ok results =>
      leading_records addresses = addresses /\
      length results = length addresses /\
      Forall (fun d => confirmed_result d \/ rejected_result d) results
  | Raise e =>
      leading_records addresses <> addresses /\ exn_cls e = AttributeError
  end.
Proof.
  unfold run, exec.
  induction addresses as [|address rest IH]; intros st; cbv zeta.
  { cbn. split; [reflexivity|]. split; [exists []; now rewrite app_nil_r|].
    repeat split. constructor. }
  cbn [batch_verify_addresses].
  destruct address as [| | | | | |d];
    try (cbn; split; [reflexivity|]; split;
         [exists []; now rewrite app_nil_r|split; [discriminate|reflexivity]]).
  cbn [py_get bind lift leading_records is_record].
  set (street := dict_get d "street" (PStr "")).
  set (city := dict_get d "city" (PStr "")).
  set (state := dict_get d "state" (PStr "")).
  set (zip_code := dict_get d "zip_code" (PStr "")).
  unfold bind.
  destruct (verify_address_outcome svc self street city state zip_code st)
    as (r & -> & Hr).
  set (st1 := set_calls _ st).
  specialize (IH st1). cbv zeta in IH.
  assert (Hframe : forall st2, only_requests st1 st2 -> only_requests st st2)
    by (intros st2 H; exact H).
  destruct (batch_verify_addresses svc self rest st1) as [[results|e] st2];
    cbn [fst snd ret] in *;
    destruct IH as (Hreq%Hframe & (new & Hcalls & Hnew) & Hres).
  - split; [exact Hreq|]. split.
    + exists (smarty_call svc self street city state zip_code st :: new).
      split; [rewrite Hcalls; subst st1; st_simpl; now rewrite <- app_assoc|].
      cbn [map]. now rewrite Hnew.
    + destruct Hres as (Hlead & Hlen & Hall).
      split; [now rewrite Hlead|]. split; [cbn; now rewrite Hlen|].
      now constructor.
  - split; [exact Hreq|]. split.
    + exists (smarty_call svc self street city state zip_code st :: new).
      split; [rewrite Hcalls; subst st1; st_simpl; now rewrite <- app_assoc|].
      cbn [map]. now rewrite Hnew.
    + destruct Hres as (Hlead & Hcls). split; [|exact Hcls].
      intros [= E]. now apply Hlead.
Qed.

(** ** Paging of the directory search (business_finder.py) *)

Section DirectoryPaging.

Variable svc : Services.
Variable params : BusinessSearchParams.
Variables radius_meters limit : Z.

(** An iteration that goes on moved the offset by the size of its page. *)
Lemma search_yelp_page_offset all_businesses offset st all' offset' st' :
  search_yelp_page svc params radius_meters limit all_businesses offset st
  = (Ok (true, all', offset'), st') ->
  exists c,
    calls st' = (calls st ++ [c])%list /\
    request_param "offset" c = Some (PInt offset) /\
    request_param "limit" c = Some (PInt limit) /\
    offset' = offset + page_size c.
Proof.
  unfold search_yelp_page, try_except, bind, requests_get, page_size, page_items.
  cbn [fst snd].
  destruct (http_get svc (calls st) _ _) as [data|e] eqn:Hreply.
  2:{ destruct (is_request_exception e); discriminate. }
  unfold lift at 1.
  destruct (py_get data "businesses" (PList [])) as [businesses|e] eqn:Hb.
  2:{ destruct (is_request_exception e); discriminate. }
  destruct (truthy businesses); cbn [negb]; [|discriminate].
  unfold lift at 1.
  destruct (py_iter businesses) as [items|e] eqn:Hi.
  2:{ destruct (is_request_exception e); discriminate. }
  unfold lift. rewrite (py_iter_len _ _ Hi).
  destruct (Z.of_nat (length items) <? limit); [discriminate|].
  intros [= <- <- <-]. eexists. split; [reflexivity|].
  cbn [request_param search_params_dict]. rewrite Hb, Hi.
  repeat split.
Qed.

(** The requests of the loop follow one another, whatever the fuel. *)
Lemma search_yelp_loop_offsets fuel : forall all_businesses offset st,
  exists new,
    calls (snd (search_yelp_loop svc fuel params radius_meters limit
                  all_businesses offset st)) = (calls st ++ new)%list /\
    offsets_chain limit offset new.
Proof.
  induction fuel as [|fuel IH]; intros all_businesses offset st;
    cbn [search_yelp_loop];
    destruct (Z.of_nat (length all_businesses) <? max_results params);
    try (exists []; cbn; now rewrite app_nil_r).
  destruct (search_yelp_page_spec svc params radius_meters limit all_businesses offset st)
    as (r1 & Hpage & _).
  destruct r1 as [[[continue all'] offset']|e].
  - rewrite (bind_ok _ _ _ _ _ Hpage).
    destruct continue.
    + destruct (search_yelp_page_offset _ _ _ _ _ _ Hpage) as (c & Hc & Hoff & Hlim & ->).
      match type of Hc with
      | calls ?s = _ =>
          destruct (IH all' (offset + page_size c) s) as (new & Hcalls & Hchain)
      end.
      exists (c :: new). split.
      * rewrite Hcalls. rewrite Hc. now rewrite <- app_assoc.
      * cbn [offsets_chain]. auto.
    + eexists [_]. cbn [ret snd]. split; [st_simpl; reflexivity|].
      cbn. auto.
  - rewrite (bind_raise _ _ _ _ _ Hpage).
    eexists [_]. cbn [snd]. split; [st_simpl; reflexivity|].
    cbn. auto.
Qed.

End DirectoryPaging.

(** X5: the page requests of [search_yelp_businesses] follow one another
    without gap or overlap: the first has offset 0, each next one the
    offset of the one before it plus the number of listings that page held,
    and every one asks for min(50, max_results) listings. *)
Theorem search_yelp_offsets_contiguous svc params st :
  exists new,
    calls (exec (search_yelp_businesses svc params) st) = (calls st ++ new)%list /\
    offsets_chain (page_cap (max_results params)) 0 new.
Proof.
  unfold exec, search_yelp_businesses, page_cap.
  destruct (float_trunc (distance_miles params * 1609.34)%float) as [radius|e].
  2:{ exists []. cbn. now rewrite app_nil_r. }
  rewrite bind_lift_ok with (a := radius) by reflexivity.
  destruct (search_yelp_loop_offsets svc params radius (Z.min 50 (max_results params))
              (Z.to_nat (max_results params)) [] 0 st) as (new & Hcalls & Hchain).
  exists new. split; [|exact Hchain].
  unfold bind.
  destruct (search_yelp_loop _ _ _ _ _ _ _ _) as [[[[all_businesses offset]|]|e] st'];
    cbn [snd] in *; try exact Hcalls.
  destruct (Z.min 50 (max_results params) =? 0); exact Hcalls.
Qed.

(** X6: asked for no listing, [search_yelp_businesses] sends no request.
    With [max_results] negative it returns the empty list; with
    [max_results = 0] the page size is 0 and the closing log line, which
    divides the offset by it, raises [ZeroDivisionError]. *)
Theorem search_yelp_nothing_requested svc params st radius :
  float_trunc (distance_miles params * 1609.34)%float = Ok radius ->
  max_results params <= 0 ->
  exec (search_yelp_businesses svc params) st = st /\
  (max_results params = 0 ->
   exists e, run (search_yelp_businesses svc params) st = Raise e /\
             exn_cls e = ZeroDivisionError) /\
  (max_results params < 0 ->
   run (search_yelp_businesses svc params) st = Ok (Some [])).
Proof.
  intros Hr Hn. unfold exec, run, search_yelp_businesses.
  rewrite bind_lift_ok with (a := radius) by exact Hr.
  assert (Hz : Z.to_nat (max_results params) = O) by lia. rewrite Hz.
  cbn [search_yelp_loop length Z.of_nat].
  assert (Hlt : (0 <? max_results params) = false) by (apply Z.ltb_ge; lia).
  change (Z.of_nat 0) with 0. rewrite Hlt, bind_ret.
  destruct (Z.eqb_spec (Z.min 50 (max_results params)) 0) as [E|E].
  - cbn [raise fst snd]. split; [reflexivity|]. split; [|lia].
    intros _. eexists. split; reflexivity.
  - cbn [ret fst snd]. split; [reflexivity|]. split; [lia|].
    intros _. unfold slice_to. destruct (max_results params <? 0); now rewrite firstn_nil.
Qed.

Lemma search_yelp_nothing_requested_witness :
  (exists e,
     run (search_yelp_businesses three_listings (nashville_restaurants 5.0%float 0))
         (initial_state ∅) = Raise e /\
     exn_cls e = ZeroDivisionError) /\
  run (search_yelp_businesses three_listings (nashville_restaurants 5.0%float (-1)))
      (initial_state ∅)
  = Ok (Some []).
Proof.
  split.
  - apply (search_yelp_nothing_requested three_listings
             (nashville_restaurants 5.0%float 0) (initial_state ∅) 8046);
      [vm_compute; reflexivity | simpl; lia | reflexivity].
  - apply (search_yelp_nothing_requested three_listings
             (nashville_restaurants 5.0%float (-1)) (initial_state ∅) 8046);
      [vm_compute; reflexivity | simpl; lia | simpl; lia].
Defined.

(** ** Usage counters (business_finder.py) *)

Section Usage.

Variable svc : Services.
Variable str_lower : string -> string.

Ltac count_finish :=
  split; [reflexivity|]; split; [cbn; lia|];
  split; [repeat (apply List.Forall_cons; [discriminate|]); apply List.Forall_nil|cbn; lia].

(** X7: [google_api_calls] grows, over a lookup, by the number of place
    requests that returned: a request that raised is logged but not
    counted.  A lookup sends at most two requests and none to the
    directory or the address verification service. *)
Theorem lookup_counts_returned_calls business_name address st :
  let st' := exec (get_google_business_info svc str_lower business_name address) st in
  exists new,
    calls st' = (calls st ++ new)%list /\
    (length new <= 2)%nat /\
    Forall (fun c => call_kind c <> Http) new /\
    google_api_calls st' =
      google_api_calls st + Z.of_nat (length (List.filter call_returned new)).
Proof.
  unfold exec.
  cbv zeta.
  assert (Hsame : exists new, calls st = (calls st ++ new)%list /\
            (length new <= 2)%nat /\ Forall (fun c => call_kind c <> Http) new /\
            google_api_calls st =
              google_api_calls st + Z.of_nat (length (List.filter call_returned new))).
  { exists []. rewrite app_nil_r. cbn.
    count_finish. }
  destruct business_name as [| | | |n| |]; try exact Hsame.
  destruct address as [| | | |a| |]; try exact Hsame.
  unfold get_google_business_info.
  cbn [py_lower lift bind read_google_cache].
  destruct (google_cache st !! _) as [cached|]; [exact Hsame|]. clear Hsame.
  unfold try_except, bind, google_places, google_place,
    store_google_cache, count_google_api_call.
  cbn [fst snd].
  destruct (places_api svc (calls st) (n ++ " " ++ a)) as [pr|e]; cbn [ret].
  2:{ st_simpl. eexists [_]. cbn.
      count_finish. }
  assert (Hone : exists new,
            (calls st ++ [GooglePlaces (n ++ " " ++ a) (Ok pr)])%list
              = (calls st ++ new)%list /\
            (length new <= 2)%nat /\ Forall (fun c => call_kind c <> Http) new /\
            google_api_calls st + 1 =
              google_api_calls st + Z.of_nat (length (List.filter call_returned new))).
  { eexists [_]. cbn.
    count_finish. }
  unfold lift.
  destruct (py_get pr "results" PNone) as [res|e]; cbn [ret];
    [|st_simpl; exact Hone].
  destruct (truthy res); cbn [ret]; [|st_simpl; exact Hone].
  destruct (py_getitem pr "results") as [res'|e]; cbn [ret];
    [|st_simpl; exact Hone].
  destruct (py_getitem0 res') as [place|e]; cbn [ret];
    [|st_simpl; exact Hone].
  destruct (py_get place "place_id" PNone) as [pid|e]; cbn [ret];
    [|st_simpl; exact Hone].
  clear Hone. st_simpl.
  destruct (place_api svc _ pid detail_fields) as [dr|e]; cbn [ret].
  - destruct (py_get dr "result" (PDict [])) as [r|e]; cbn [ret]; st_simpl;
      (eexists [_; _]; rewrite <- app_assoc; cbn;
       count_finish).
  - st_simpl. eexists [_; _]. rewrite <- app_assoc. cbn.
    count_finish.
Qed.

Lemma filter_partition_length {A} (p : A -> bool) (l : list A) :
  (length (List.filter (fun x => negb (p x)) l) + length (List.filter p l))%nat = length l.
Proof.
  induction l as [|x l IH]; [reflexivity|].
  cbn [List.filter]. destruct (p x); cbn [negb length]; lia.
Qed.

(** X8: the usage statistics split the cache: [google_cache_hits] (the
    entries holding a record) and [google_cache_misses] (the entries holding
    [None]) add up to [google_cache_size], the number of cached keys;
    [google_api_calls] is the counter; reading the statistics changes
    nothing. *)
Theorem usage_stats_partition st :
  exists stats,
    get_api_usage_stats st = (Ok stats, st) /\
    stat stats "google_api_calls" = google_api_calls st /\
    stat stats "google_cache_size" = Z.of_nat (size (google_cache st)) /\
    stat stats "google_cache_hits" + stat stats "google_cache_misses"
      = stat stats "google_cache_size" /\
    0 <= stat stats "google_cache_hits" /\ 0 <= stat stats "google_cache_misses".
Proof.
  eexists. split; [reflexivity|].
  unfold stat. cbn [dict_lookup String.eqb Ascii.eqb Bool.eqb].
  split; [reflexivity|]. split; [reflexivity|].
  split; [|lia].
  rewrite <- Nat2Z.inj_add, filter_partition_length, length_fmap, length_map_to_list.
  reflexivity.
Qed.

(** X9: [clear_google_cache] forgets every cached answer and nothing else:
    the counter and the log are kept, and the next lookup of any pair of
    strings goes upstream again, with a place search first. *)
Theorem clear_google_cache_forgets n a st :
  let st1 := exec clear_google_cache st in
  google_cache st1 = ∅ /\
  google_api_calls st1 = google_api_calls st /\
  calls st1 = calls st /\
  exists new,
    calls (exec (get_google_business_info svc str_lower (PStr n) (PStr a)) st1)
      = (calls st ++ GooglePlaces (n ++ " " ++ a)
                       (places_api svc (calls st) (n ++ " " ++ a)) :: new)%list.
Proof.
  cbv zeta. unfold exec at 1 2 3. cbn [clear_google_cache snd]. st_simpl.
  split; [reflexivity|]. split; [reflexivity|]. split; [reflexivity|].
  unfold exec, get_google_business_info, clear_google_cache.
  cbn [py_lower lift bind read_google_cache snd]. st_simpl.
  rewrite lookup_empty.
  unfold try_except, bind, google_places, google_place,
    store_google_cache, count_google_api_call.
  cbn [fst snd]. st_simpl.
  destruct (places_api svc (calls st) (n ++ " " ++ a)) as [pr|e]; cbn [ret snd].
  2:{ exists []. reflexivity. }
  unfold lift.
  destruct (py_get pr "results" PNone) as [res|e]; cbn [ret snd];
    [|exists []; reflexivity].
  destruct (truthy res); cbn [ret snd]; [|exists []; reflexivity].
  destruct (py_getitem pr "results") as [res'|e]; cbn [ret snd];
    [|exists []; reflexivity].
  destruct (py_getitem0 res') as [place|e]; cbn [ret snd];
    [|exists []; reflexivity].
  destruct (py_get place "place_id" PNone) as [pid|e]; cbn [ret snd];
    [|exists []; reflexivity].
  st_simpl.
  destruct (place_api svc _ pid detail_fields) as [dr|e]; cbn [ret snd].
  - destruct (py_get dr "result" (PDict [])) as [r|e]; cbn [ret snd]; st_simpl;
      eexists [_]; now rewrite <- app_assoc.
  - st_simpl. eexists [_]. now rewrite <- app_assoc.
Qed.

End Usage.

(** ** One listing of a batch (business_finder.py) *)

(** The fields [fast_verify_business] copies from the listing. *)
Lemma fast_verify_business_copies st yelp_data d loc_fields google_data v st' :
  objects st !! yelp_data = Some d ->
  listing_location d = Some loc_fields ->
  cross_reference_ok google_data ->
  fast_verify_business yelp_data google_data st = (Ok v, st') ->
  dict_lookup "verified_name" v = Some (dict_get d "name" PNone) /\
  dict_lookup "verified_address" v = Some (dict_get loc_fields "address1" PNone) /\
  dict_lookup "verified_city" v = Some (dict_get loc_fields "city" PNone) /\
  dict_lookup "discrepancies_found" v = Some (PBool false) /\
  dict_lookup "discrepancy_details" v = Some (PStr "Fast verification used").
Proof.
  intros Hobj Hloc Hg.
  unfold listing_location in Hloc.
  destruct (dict_get d "location" (PDict [])) as [| | | | | |l] eqn:Hl; try discriminate.
  injection Hloc as ->.
  unfold fast_verify_business.
  repeat (rewrite (bind_ok _ _ _ _ _ (obj_get_ok st yelp_data d _ _ Hobj));
          try rewrite Hl; cbn [lift py_get bind]).
  cbn [dict_get dict_lookup String.eqb Ascii.eqb Bool.eqb].
  destruct google_data as [| | | | | |g]; try contradiction.
  - cbn. intros [= <- _]. cbn. repeat split.
  - destruct g as [|kv g'].
    + cbn. intros [= <- _]. cbn. repeat split.
    + assert (Htr : truthy (PDict (kv :: g')) = true) by reflexivity.
      remember (kv :: g') as g eqn:Eg. clear Eg kv g'.
      rewrite Htr. cbn [lift py_get bind].
      destruct (eq_str (dict_get g "business_status" PNone) "CLOSED_PERMANENTLY");
        cbn -[dict_get];
        destruct (truthy (dict_get d "phone" PNone)); cbn -[dict_get];
        try (intros [= <- _]; cbn; repeat split; fail);
        (destruct (truthy (dict_get g "formatted_phone_number" PNone));
         [|intros [= <- _]; cbn; repeat split]);
        unfold py_getitem;
        (destruct (dict_lookup "formatted_phone_number" g); [|discriminate]);
        intros [= <- _]; cbn; repeat split.
Qed.

Lemma dict_get_lookup d k default v :
  dict_lookup k d = Some v -> dict_get d k default = v.
Proof. unfold dict_get. now intros ->. Qed.

Section SingleBusiness.

Variable svc : Services.
Variable str_lower : string -> string.
Variable py_repr : pyval -> string.

Abbreviation process_single := (_process_single_business svc str_lower py_repr).

Lemma process_single_reads_only yelp_business :
  preserves reads_only (process_single yelp_business).
Proof.
  unfold _process_single_business, obj_get.
  pres_solve;
    try apply lookup_reads_only;
    try (eapply preserves_weaken; [|apply fast_verify_business_pure];
         intros ? ? ->; reflexivity).
Qed.

(** A listing with a name and an address line that are strings, and a
    cross-reference that is a record or absent. *)
Lemma process_single_outcome st yelp_business d loc_fields n a g st1 :
  objects st !! yelp_business = Some d ->
  listing_location d = Some loc_fields ->
  lookup_pair d = Some (n, a) ->
  get_google_business_info svc str_lower (PStr n) (PStr a) st = (Ok g, st1) ->
  cross_reference_ok g ->
  exists b,
    process_single yelp_business st = (Ok (Some b), st1) /\
    vb_name b = dict_get d "name" PNone /\
    vb_address b = dict_get loc_fields "address1" PNone /\
    vb_city b = dict_get loc_fields "city" PNone /\
    vb_phone_number b =
      (if truthy (dict_get d "phone" PNone) then dict_get d "phone" PNone
       else match cross_reference_phone g with
            | Some p => p
            | None => dict_get d "phone" PNone
            end) /\
    vb_source b =
      "Yelp+Google_Fast_Verified_" ++ (if indicates_closed g then "high" else "medium") /\
    dict_lookup "confidence_level" (vb_verification_metadata b) =
      Some (PStr (if indicates_closed g then "high" else "medium")) /\
    dict_lookup "business_status" (vb_verification_metadata b) =
      Some (PStr (if indicates_closed g then "closed" else "unknown")) /\
    dict_lookup "yelp_rating" (vb_verification_metadata b) =
      Some (dict_get d "rating" PNone) /\
    dict_lookup "yelp_review_count" (vb_verification_metadata b) =
      Some (dict_get d "review_count" PNone).
Proof.
  intros Hobj Hloc Hpair Hlookup Hg.
  assert (Hobj1 : objects st1 !! yelp_business = Some d).
  { pose proof (lookup_reads_only svc str_lower (PStr n) (PStr a) st) as [Ho _].
    rewrite Hlookup in Ho. cbn [snd] in Ho. now rewrite Ho. }
  unfold lookup_pair in Hpair. rewrite Hloc in Hpair.
  destruct (dict_get d "name" (PStr "")) as [| | | |n'| |] eqn:Hn; try discriminate.
  destruct (dict_get loc_fields "address1" (PStr "")) as [| | | |a'| |] eqn:Ha;
    try discriminate.
  injection Hpair as -> ->.
  destruct (fast_verify_business_returns st1 yelp_business d loc_fields g Hobj1 Hloc Hg)
    as (v & Hfv & Hcl & Hbs & Hph).
  destruct (fast_verify_business_copies _ _ _ _ _ _ _ Hobj1 Hloc Hg Hfv)
    as (Hvn & Hva & Hvc & _).
  unfold listing_location in Hloc.
  destruct (dict_get d "location" (PDict [])) as [| | | | | |l] eqn:Hl; try discriminate.
  injection Hloc as ->.
  unfold _process_single_business, try_except.
  rewrite (bind_ok _ _ _ _ _ (obj_get_ok st yelp_business d _ _ Hobj)).
  rewrite Hl. cbn [py_get]. rewrite bind_lift_ok with (a := PStr a) by now rewrite Ha.
  rewrite (bind_ok _ _ _ _ _ (obj_get_ok st yelp_business d _ _ Hobj)).
  rewrite Hn.
  rewrite (bind_ok _ _ _ _ _ Hlookup).
  rewrite (bind_ok _ _ _ _ _ Hfv).
  rewrite (bind_ok _ _ _ _ _ (obj_get_ok st1 yelp_business d _ _ Hobj1)).
  rewrite (bind_ok _ _ _ _ _ (obj_get_ok st1 yelp_business d _ _ Hobj1)).
  cbn [ret].
  unfold out_confidence_level, out_business_status, out_phone in *.
  eexists. split; [reflexivity|].
  cbn [vb_name vb_address vb_city vb_phone_number vb_source vb_verification_metadata].
  cbn [dict_lookup String.eqb Ascii.eqb Bool.eqb].
  rewrite (dict_get_lookup _ _ _ _ Hvn), (dict_get_lookup _ _ _ _ Hva),
    (dict_get_lookup _ _ _ _ Hvc), (dict_get_lookup _ _ _ _ Hph).
  rewrite !(dict_get_lookup _ _ _ _ Hcl), (dict_get_lookup _ _ _ _ Hbs).
  repeat split.
Qed.

(** A lookup whose place search fails answers [None] and caches it. *)
Lemma lookup_search_failure st n a e :
  google_cache st !! cache_key_of str_lower n a = None ->
  places_api svc (calls st) (n ++ " " ++ a) = Raise e ->
  get_google_business_info svc str_lower (PStr n) (PStr a) st =
    (Ok PNone,
     set_google_cache (fun c => <[cache_key_of str_lower n a := PNone]> c)
       (set_calls (fun cs => (cs ++ [GooglePlaces (n ++ " " ++ a) (Raise e)])%list) st)).
Proof.
  intros Hmiss Hfail. unfold get_google_business_info, cache_key_of in *.
  cbn [py_lower lift bind read_google_cache]. rewrite Hmiss.
  unfold try_except, bind, google_places, store_google_cache.
  rewrite Hfail. reflexivity.
Qed.

(** X10: a listing whose name and address line are strings, looked up with
    a cross-reference that is a record or absent, is kept: the business
    carries the listing's name, address line and city, the listing's phone
    or else the cross-reference's, and the source
    "Yelp+Google_Fast_Verified_high" when the cross-reference says the
    business is permanently closed, "Yelp+Google_Fast_Verified_medium"
    otherwise; the state is the one the lookup leaves. *)
Theorem process_single_business_kept st yelp_business d loc_fields n a g :
  objects st !! yelp_business = Some d ->
  listing_location d = Some loc_fields ->
  lookup_pair d = Some (n, a) ->
  run (get_google_business_info svc str_lower (PStr n) (PStr a)) st = Ok g ->
  cross_reference_ok g ->
  exists b,
    run (process_single yelp_business) st = Ok (Some b) /\
    exec (process_single yelp_business) st =
      exec (get_google_business_info svc str_lower (PStr n) (PStr a)) st /\
    vb_name b = dict_get d "name" PNone /\
    vb_address b = dict_get loc_fields "address1" PNone /\
    vb_city b = dict_get loc_fields "city" PNone /\
    vb_phone_number b =
      (if truthy (dict_get d "phone" PNone) then dict_get d "phone" PNone
       else match cross_reference_phone g with
            | Some p => p
            | None => dict_get d "phone" PNone
            end) /\
    vb_source b =
      "Yelp+Google_Fast_Verified_" ++ (if indicates_closed g then "high" else "medium").
Proof.
  intros Hobj Hloc Hpair Hrun Hg. unfold run, exec in *.
  destruct (get_google_business_info svc str_lower (PStr n) (PStr a) st)
    as [r st1] eqn:Hlookup.
  cbn [fst] in Hrun. subst r.
  destruct (process_single_outcome st yelp_business d loc_fields n a g st1
              Hobj Hloc Hpair Hlookup Hg)
    as (b & -> & Hn & Ha & Hc & Hp & Hs & _).
  exists b. cbn [fst snd]. auto 10.
Qed.

(** X11: [_process_single_business] never raises, whatever the listing and
    whatever the services answer, and it changes no listing and no stored
    row. *)
Theorem process_single_business_never_raises st yelp_business :
  exists r st',
    process_single yelp_business st = (Ok r, st') /\
    reads_only st st'.
Proof.
  pose proof (process_single_reads_only yelp_business st) as Hro.
  revert Hro. unfold _process_single_business, try_except.
  match goal with
  | |- context [let (_, _) := ?m st in _] => destruct (m st) as [[r|e] st']
  end; cbn [snd ret]; eauto.
Qed.

(** X12: a listing without a pair of strings to look it up by (its
    [location] is not a JSON object, or its name or address line is present
    but not a string, [null] included) is dropped: the answer is [None], and
    no request is sent. *)
Theorem process_single_business_dropped st yelp_business d :
  objects st !! yelp_business = Some d ->
  lookup_pair d = None ->
  process_single yelp_business st = (Ok None, st).
Proof.
  intros Hobj Hpair. unfold lookup_pair, listing_location in Hpair.
  unfold _process_single_business, try_except.
  rewrite (bind_ok _ _ _ _ _ (obj_get_ok st yelp_business d _ _ Hobj)).
  destruct (dict_get d "location" (PDict [])) as [| | | | | |l] eqn:Hl;
    try reflexivity.
  cbn [py_get]. rewrite bind_lift_ok with (a := dict_get l "address1" (PStr ""))
    by reflexivity.
  rewrite (bind_ok _ _ _ _ _ (obj_get_ok st yelp_business d _ _ Hobj)).
  destruct (dict_get d "name" (PStr "")) as [| | | |n| |]; try reflexivity.
  destruct (dict_get l "address1" (PStr "")) as [| | | |a| |];
    try reflexivity; discriminate.
Qed.

(** X13: a failure of the place search does not cost the listing: it is
    kept with the directory's data, source
    "Yelp+Google_Fast_Verified_medium" and status "unknown"; the failure is
    cached as a negative answer and not counted. *)
Theorem process_single_business_search_failure st yelp_business d loc_fields n a e :
  objects st !! yelp_business = Some d ->
  listing_location d = Some loc_fields ->
  lookup_pair d = Some (n, a) ->
  google_cache st !! cache_key_of str_lower n a = None ->
  places_api svc (calls st) (n ++ " " ++ a) = Raise e ->
  exists b st',
    process_single yelp_business st = (Ok (Some b), st') /\
    vb_name b = dict_get d "name" PNone /\
    vb_phone_number b = dict_get d "phone" PNone /\
    vb_source b = "Yelp+Google_Fast_Verified_medium" /\
    dict_lookup "business_status" (vb_verification_metadata b) = Some (PStr "unknown") /\
    google_cache st' !! cache_key_of str_lower n a = Some PNone /\
    google_api_calls st' = google_api_calls st.
Proof.
  intros Hobj Hloc Hpair Hmiss Hfail.
  pose proof (lookup_search_failure st n a e Hmiss Hfail) as Hlookup.
  destruct (process_single_outcome st yelp_business d loc_fields n a PNone _
              Hobj Hloc Hpair Hlookup I)
    as (b & Hrun & Hn & _ & _ & Hp & Hs & _ & Hbs & _).
  exists b. eexists. split; [exact Hrun|].
  split; [exact Hn|]. split; [rewrite Hp; now destruct (truthy _)|].
  split; [exact Hs|]. split; [exact Hbs|].
  st_simpl. split; [apply lookup_insert_eq|reflexivity].
Qed.

End SingleBusiness.

Lemma process_single_business_kept_witness :
  exists b,
    run (_process_single_business match_services ascii_lower plain_repr 1%positive)
        (initial_state {[ 1%positive := sample_listing ]}) = Ok (Some b) /\
    exec (_process_single_business match_services ascii_lower plain_repr 1%positive)
         (initial_state {[ 1%positive := sample_listing ]}) =
      exec (get_google_business_info match_services ascii_lower
              (PStr "Hattie B's") (PStr "112 19th Ave S"))
           (initial_state {[ 1%positive := sample_listing ]}) /\
    vb_name b = PStr "Hattie B's" /\
    vb_address b = PStr "112 19th Ave S" /\
    vb_city b = PStr "Nashville" /\
    vb_phone_number b = PStr "615-555-0100" /\
    vb_source b = "Yelp+Google_Fast_Verified_medium".
Proof.
  apply (process_single_business_kept match_services ascii_lower plain_repr
           (initial_state {[ 1%positive := sample_listing ]}) 1%positive sample_listing
           [ ("address1", PStr "112 19th Ave S"); ("city", PStr "Nashville");
             ("state", PStr "TN"); ("zip_code", PStr "37203") ]
           "Hattie B's" "112 19th Ave S" sample_phone_record).
  - reflexivity.
  - reflexivity.
  - reflexivity.
  - vm_compute. reflexivity.
  - exact I.
Defined.

Lemma process_single_business_dropped_witness :
  _process_single_business match_services ascii_lower plain_repr 1%positive
    (initial_state {[ 1%positive := null_address_listing ]})
  = (Ok None, initial_state {[ 1%positive := null_address_listing ]}).
Proof.
  apply (process_single_business_dropped match_services ascii_lower plain_repr
           (initial_state {[ 1%positive := null_address_listing ]}) 1%positive
           null_address_listing).
  - reflexivity.
  - reflexivity.
Defined.

Lemma process_single_business_search_failure_witness :
  exists b st',
    _process_single_business places_down ascii_lower plain_repr 1%positive
      (initial_state {[ 1%positive := sample_listing ]}) = (Ok (Some b), st') /\
    vb_name b = PStr "Hattie B's" /\
    vb_phone_number b = PNone /\
    vb_source b = "Yelp+Google_Fast_Verified_medium" /\
    dict_lookup "business_status" (vb_verification_metadata b) = Some (PStr "unknown") /\
    google_cache st' !! cache_key_of ascii_lower "Hattie B's" "112 19th Ave S"
      = Some PNone /\
    google_api_calls st' = 0.
Proof.
  apply (process_single_business_search_failure places_down ascii_lower plain_repr
           (initial_state {[ 1%positive := sample_listing ]}) 1%positive sample_listing
           [ ("address1", PStr "112 19th Ave S"); ("city", PStr "Nashville");
             ("state", PStr "TN"); ("zip_code", PStr "37203") ]
           "Hattie B's" "112 19th Ave S" (MkExn RequestException "timed out")).
  - reflexivity.
  - reflexivity.
  - reflexivity.
  - reflexivity.
  - reflexivity.
Defined.

(** The [for] loop over a page never takes the list beyond [max_results]. *)
Lemma process_page_bound items : forall max_results businesses st,
  exists businesses' oe,
    process_page items max_results businesses st = (Ok (businesses', oe), st) /\
    (Z.of_nat (length businesses) <= max_results ->
     Z.of_nat (length businesses') <= max_results).
Proof.
  induction items as [|business rest IH]; intros max_results businesses st.
  - exists businesses, None. split; [reflexivity|]. trivial.
  - cbn [process_page].
    destruct (Z.leb_spec max_results (Z.of_nat (length businesses))) as [Hfull|Hroom].
    + exists businesses, None. split; [reflexivity|]. trivial.
    + unfold bind at 1, try_except, bind.
      pose proof (process_business_pure business st) as Hpure.
      destruct (_process_business business st) as [[p|e] st1]; cbn in Hpure; subst st1; cbn [ret].
      * destruct (IH max_results (businesses ++ [p])%list st)
          as (businesses' & oe & Hrun & Hlen).
        exists businesses', oe. split; [exact Hrun|].
        intros _. apply Hlen. rewrite length_app. cbn [length]. lia.
      * exists businesses, (Some e). split; [reflexivity|]. trivial.
Qed.

(** ** Search by coordinates (yelp_api_client.py) *)

Section CoordinateSearch.

Variable svc : Services.
Variables latitude longitude business_type : pyval.
Variables radius max_results limit : Z.

(** A page request of the search around ([latitude], [longitude]). *)
Let around (c : Call) : Prop :=
  call_kind c = Http /\
  request_param "latitude" c = Some latitude /\
  request_param "longitude" c = Some longitude /\
  request_param "radius" c = Some (PInt radius).

(** One iteration issues one request and never raises; it goes on only
    after a page at least as long as the limit it asked for, having
    appended that page up to [max_results]. *)
Lemma search_by_coordinates_page_spec current_limit businesses offset st :
  exists continue businesses' offset' c,
    search_by_coordinates_page svc latitude longitude business_type radius
      max_results current_limit businesses offset st
    = (Ok (continue, businesses', offset'),
       set_calls (fun cs => (cs ++ [c])%list) st) /\
    around c /\
    (Z.of_nat (length businesses) <= max_results ->
     Z.of_nat (length businesses') <= max_results) /\
    (continue = true ->
     Z.of_nat (length businesses) <= max_results ->
     current_limit <= page_size c /\
     Z.of_nat (length businesses')
     = Z.min (Z.of_nat (length businesses) + page_size c) max_results).
Proof.
  unfold search_by_coordinates_page. cbv zeta.
  set (url := yelp_base_url ++ "/businesses/search").
  match goal with
  | |- context [requests_get svc url ?p] => set (pd := p)
  end.
  unfold try_except at 1. unfold bind at 1. unfold requests_get.
  set (c := HttpGet url pd (http_get svc (calls st) url pd)).
  set (st1 := set_calls (fun cs => (cs ++ [c])%list) st).
  assert (Hc : around c).
  { unfold around, c, pd. cbn [call_kind request_param].
    destruct (truthy business_type); repeat split. }
  assert (Hstop : forall (bs : list pyval) (off : Z),
            (Z.of_nat (length businesses) <= max_results ->
             Z.of_nat (length bs) <= max_results) ->
            exists continue businesses' offset' c0,
              (Ok (false, bs, off), st1)
              = (Ok (continue, businesses', offset'),
                 set_calls (fun cs => (cs ++ [c0])%list) st) /\
              around c0 /\
              (Z.of_nat (length businesses) <= max_results ->
               Z.of_nat (length businesses') <= max_results) /\
              (continue = true ->
               Z.of_nat (length businesses) <= max_results ->
               current_limit <= page_size c0 /\
               Z.of_nat (length businesses')
               = Z.min (Z.of_nat (length businesses) + page_size c0) max_results)).
  { intros bs off Hle. exists false, bs, off, c. split; [reflexivity|].
    split; [exact Hc|]. split; [exact Hle|]. discriminate. }
  destruct (http_get svc (calls st) url pd) as [data|e] eqn:Hreply.
  - cbn [fst snd]. fold c. fold st1.
    unfold bind at 1. unfold lift at 1.
    destruct (py_get data "businesses" (PList [])) as [page|e] eqn:Hpage;
      cbn [ret]; [|now apply Hstop].
    unfold bind at 1. unfold lift at 1.
    destruct (py_iter page) as [items|e] eqn:Hitems; cbn [ret]; [|now apply Hstop].
    destruct (process_page_spec items max_results businesses st1)
      as (bs' & oe & Hpp & Hmono & Hlen).
    destruct (process_page_bound items max_results businesses st1)
      as (bs'' & oe' & Hpp' & Hbound).
    rewrite Hpp in Hpp'. injection Hpp' as <- <-.
    unfold bind at 1. rewrite Hpp.
    destruct oe as [e|]; cbn [ret]; [now apply Hstop|].
    unfold try_except, bind, lift. rewrite (py_iter_len _ _ Hitems). cbn [ret].
    destruct (Z.ltb_spec (Z.of_nat (length items)) current_limit) as [Hshort|Hfull];
      cbn [negb]; [now apply Hstop|].
    exists true, bs', (offset + current_limit), c. split; [reflexivity|].
    split; [exact Hc|].
    split; [exact Hbound|]. intros _ Hle.
    assert (Hsize : page_size c = Z.of_nat (length items)).
    { unfold page_size, c, page_items. now rewrite Hpage, Hitems. }
    rewrite Hsize. split; [exact Hfull|]. now apply Hlen.
  - cbn [fst snd]. fold c. fold st1. cbn [ret]. now apply Hstop.
Qed.

(** The loop: it ends within [max_results] iterations and never raises;
    every page but the last has at least [limit] listings. *)
Lemma search_by_coordinates_loop_spec fuel : forall businesses offset st,
  1 <= limit ->
  max_results - Z.of_nat (length businesses) <= Z.of_nat fuel ->
  Z.of_nat (length businesses) <= max_results ->
  exists l st' new,
    search_by_coordinates_loop svc fuel latitude longitude business_type radius
      max_results limit businesses offset st = (Ok (Some l), st') /\
    calls st' = (calls st ++ new)%list /\
    Forall around new /\
    Forall (fun c => limit <= page_size c) (removelast new) /\
    (new <> [] <-> Z.of_nat (length businesses) < max_results) /\
    Z.of_nat (length l) <= max_results.
Proof.
  induction fuel as [|fuel IH]; intros businesses offset st Hlim Hfuel Hinv.
  - cbn [search_by_coordinates_loop].
    destruct (Z.ltb_spec (Z.of_nat (length businesses)) max_results) as [Hlt|Hge].
    + cbn in Hfuel. lia.
    + exists businesses, st, []. rewrite app_nil_r.
      split; [reflexivity|]. split; [reflexivity|].
      split; [constructor|]. split; [constructor|]. split; [|lia].
      split; [easy|lia].
  - cbn [search_by_coordinates_loop].
    destruct (Z.ltb_spec (Z.of_nat (length businesses)) max_results) as [Hlt|Hge].
    2:{ exists businesses, st, []. rewrite app_nil_r.
        split; [reflexivity|]. split; [reflexivity|].
        split; [constructor|]. split; [constructor|]. split; [|lia].
        split; [easy|lia]. }
    set (current_limit := Z.min limit (max_results - Z.of_nat (length businesses))).
    destruct (search_by_coordinates_page_spec current_limit businesses offset st)
      as (continue & bs' & offset' & c & Hpage & Hc & Hbound & Hcont).
    rewrite (bind_ok _ _ _ _ _ Hpage).
    destruct continue.
    + destruct (Hcont eq_refl Hinv) as [Hfull Hlen].
      destruct (IH bs' offset' (set_calls (fun cs => (cs ++ [c])%list) st) Hlim)
        as (l & st' & new & Hloop & Hcalls & Har & Hf & Hne & Hl); [lia | lia |].
      exists l, st', (c :: new). split; [exact Hloop|].
      split. { rewrite Hcalls. st_simpl. now rewrite <- app_assoc. }
      split. { now constructor. }
      split.
      { destruct new as [|c' new']; [constructor|].
        apply Forall_removelast_cons; [|exact Hf].
        assert (Hnext : Z.of_nat (length bs') < max_results) by (apply Hne; discriminate).
        unfold current_limit in Hfull. lia. }
      split; [|exact Hl].
      split; [intros _; exact Hlt|discriminate].
    + exists bs', (set_calls (fun cs => (cs ++ [c])%list) st), [c].
      split; [reflexivity|]. split; [reflexivity|].
      split; [constructor; [exact Hc|constructor]|]. split; [constructor|].
      split; [split; [intros _; exact Hlt|discriminate]|].
      now apply Hbound.
Qed.

End CoordinateSearch.

(** X14: with an API key and [max_results = N > 0],
    [search_businesses_by_coordinates] never raises, whatever the directory
    answers: it returns at most N listings after at least one request;
    every request carries the point and the radius it was given, and every
    page but the last fetched held at least min(50, N) listings. *)
Theorem search_by_coordinates_at_most_N svc latitude longitude business_type
    radius max_results st key :
  0 < max_results ->
  getenv svc "YELP_API_KEY" = Some key -> key <> "" ->
  exists l new,
    run (search_businesses_by_coordinates svc latitude longitude business_type
           radius max_results) st = Ok (Some l) /\
    Z.of_nat (length l) <= max_results /\
    calls (exec (search_businesses_by_coordinates svc latitude longitude business_type
                   radius max_results) st) = (calls st ++ new)%list /\
    new <> [] /\
    Forall (around_request latitude longitude radius) new /\
    Forall (fun c => page_cap max_results <= page_size c) (removelast new).
Proof.
  intros Hpos Hkey Hne. unfold run, exec, search_businesses_by_coordinates.
  rewrite Hkey. destruct key as [|k0 key]; [congruence|].
  destruct (search_by_coordinates_loop_spec svc latitude longitude business_type radius
              max_results (Z.min DEFAULT_LIMIT max_results) (Z.to_nat max_results) [] 0 st)
    as (businesses & st' & new & Hloop & Hcalls & Har & Hfull & Hnew & Hlen);
    [unfold DEFAULT_LIMIT; lia | cbn [length]; lia | cbn [length]; lia |].
  rewrite (bind_ok _ _ _ _ _ Hloop). cbn [ret fst snd].
  exists (slice_to max_results businesses), new.
  split; [reflexivity|]. split.
  { unfold slice_to. destruct (max_results <? 0) eqn:E; [apply Z.ltb_lt in E; lia|].
    rewrite length_firstn. lia. }
  split; [exact Hcalls|]. split; [apply Hnew; cbn [length]; lia|].
  split; [exact Har|exact Hfull].
Qed.

Lemma search_by_coordinates_at_most_N_witness :
  exists l new,
    run (search_businesses_by_coordinates three_listings (fst nashville) (snd nashville)
           (PStr "restaurants") 8000 2) (initial_state ∅) = Ok (Some l) /\
    Z.of_nat (length l) <= 2 /\
    calls (exec (search_businesses_by_coordinates three_listings (fst nashville)
                   (snd nashville) (PStr "restaurants") 8000 2) (initial_state ∅))
      = (calls (initial_state ∅) ++ new)%list /\
    new <> [] /\
    Forall (around_request (fst nashville) (snd nashville) 8000) new /\
    Forall (fun c => page_cap 2 <= page_size c) (removelast new).
Proof.
  apply (search_by_coordinates_at_most_N three_listings (fst nashville) (snd nashville)
           (PStr "restaurants") 8000 2 (initial_state ∅) "key").
  - lia.
  - reflexivity.
  - discriminate.
Defined.

(** ** Processed listings (yelp_api_client.py) *)

Lemma try_inv {A} (m : M A) (h : pyexn -> M A) st b st' :
  try_except m h st = (Ok b, st') ->
  m st = (Ok b, st') \/
  exists e st1, m st = (Raise e, st1) /\ h e st1 = (Ok b, st').
Proof.
  unfold try_except. destruct (m st) as [[a|e] st1]; [now left|].
  intros H. right. eauto.
Qed.

(** Whatever [_process_business] returns is a processed record. *)
Lemma process_business_record business st r st' :
  _process_business business st = (Ok r, st') -> processed_record r.
Proof.
  unfold _process_business. intros H.
  repeat (apply bind_inv in H as (? & ? & ? & H)).
  injection H as <- <-.
  eexists. split; [reflexivity|]. split; [reflexivity|]. split; [reflexivity|].
  cbn [dict_lookup String.eqb Ascii.eqb Bool.eqb].
  unfold lift in *. congruence.
Qed.

Lemma process_page_records items : forall max_results businesses st businesses' oe st',
  Forall processed_record businesses ->
  process_page items max_results businesses st = (Ok (businesses', oe), st') ->
  Forall processed_record businesses'.
Proof.
  induction items as [|business rest IH];
    intros max_results businesses st businesses' oe st' Hall; cbn [process_page].
  - now intros [= <- <- <-].
  - destruct (max_results <=? Z.of_nat (length businesses)); [now intros [= <- <- <-]|].
    intros H. apply bind_inv in H as (r & st1 & Htry & H).
    destruct r as [p|e]; [|now injection H as <- <- <-].
    apply try_inv in Htry as [Htry|(e & st2 & _ & Htry)]; [|discriminate].
    apply bind_inv in Htry as (p' & st2 & Hp & Htry). injection Htry as <- <-.
    eapply IH; [|exact H].
    apply Forall_app. split; [exact Hall|].
    constructor; [|constructor]. exact (process_business_record _ _ _ _ Hp).
Qed.

Section ProcessedResults.

Variable svc : Services.

Lemma search_businesses_page_records location business_type radius max_results
    current_limit businesses offset st continue businesses' offset' st' :
  Forall processed_record businesses ->
  search_businesses_page svc location business_type radius max_results
    current_limit businesses offset st = (Ok (continue, businesses', offset'), st') ->
  Forall processed_record businesses'.
Proof.
  intros Hall H. unfold search_businesses_page in H.
  apply try_inv in H as [H|(e & st1 & _ & H)]; [|now injection H as <- <- <- <-].
  apply bind_inv in H as (response & st1 & _ & H).
  destruct (negb (truthy response)); [now injection H as <- <- <- <-|].
  apply bind_inv in H as (page & st2 & _ & H).
  apply bind_inv in H as (items & st3 & _ & H).
  apply bind_inv in H as ([bs1 oe] & st4 & Hpp & H).
  pose proof (process_page_records _ _ _ _ _ _ _ Hall Hpp) as Hall1.
  destruct oe as [e|]; [now injection H as <- <- <- <-|].
  apply bind_inv in H as (more & st5 & _ & H).
  destruct more; now injection H as <- <- <- <-.
Qed.

Lemma search_businesses_loop_records location business_type radius max_results limit
    fuel : forall businesses offset st l st',
  Forall processed_record businesses ->
  search_businesses_loop svc fuel location business_type radius max_results limit
    businesses offset st = (Ok (Some l), st') ->
  Forall processed_record l.
Proof.
  induction fuel as [|fuel IH]; intros businesses offset st l st' Hall;
    cbn [search_businesses_loop];
    destruct (Z.of_nat (length businesses) <? max_results);
    try (now intros [= <- <-]); try discriminate.
  intros H. apply bind_inv in H as ([[continue bs1] off1] & st1 & Hpage & H).
  pose proof (search_businesses_page_records _ _ _ _ _ _ _ _ _ _ _ _ Hall Hpage) as Hall1.
  destruct continue; [now apply (IH _ _ _ _ _ Hall1 H)|now injection H as <- <-].
Qed.

Lemma search_by_coordinates_page_records latitude longitude business_type radius
    max_results current_limit businesses offset st continue businesses' offset' st' :
  Forall processed_record businesses ->
  search_by_coordinates_page svc latitude longitude business_type radius max_results
    current_limit businesses offset st = (Ok (continue, businesses', offset'), st') ->
  Forall processed_record businesses'.
Proof.
  intros Hall H. unfold search_by_coordinates_page in H. cbv zeta in H.
  apply try_inv in H as [H|(e & st1 & _ & H)]; [|now injection H as <- <- <- <-].
  apply bind_inv in H as (data & st1 & _ & H).
  apply bind_inv in H as (page & st2 & _ & H).
  apply bind_inv in H as (items & st3 & _ & H).
  apply bind_inv in H as ([bs1 oe] & st4 & Hpp & H).
  pose proof (process_page_records _ _ _ _ _ _ _ Hall Hpp) as Hall1.
  destruct oe as [e|]; [now injection H as <- <- <- <-|].
  apply bind_inv in H as (more & st5 & _ & H).
  destruct more; now injection H as <- <- <- <-.
Qed.

Lemma search_by_coordinates_loop_records latitude longitude business_type radius
    max_results limit fuel : forall businesses offset st l st',
  Forall processed_record businesses ->
  search_by_coordinates_loop svc fuel latitude longitude business_type radius
    max_results limit businesses offset st = (Ok (Some l), st') ->
  Forall processed_record l.
Proof.
  induction fuel as [|fuel IH]; intros businesses offset st l st' Hall;
    cbn [search_by_coordinates_loop];
    destruct (Z.of_nat (length businesses) <? max_results);
    try (now intros [= <- <-]); try discriminate.
  intros H. apply bind_inv in H as ([[continue bs1] off1] & st1 & Hpage & H).
  pose proof (search_by_coordinates_page_records _ _ _ _ _ _ _ _ _ _ _ _ _ Hall Hpage)
    as Hall1.
  destruct continue; [now apply (IH _ _ _ _ _ Hall1 H)|now injection H as <- <-].
Qed.

Lemma slice_to_Forall {A} (P : A -> Prop) n l : Forall P l -> Forall P (slice_to n l).
Proof. intros H. unfold slice_to. destruct (n <? 0); now apply Forall_take. Qed.

(** X15: every listing the two searches of the directory client return is
    a record built by [_process_business], never a raw listing of the
    directory: it has the seventeen keys from [yelp_id] to [is_closed], its
    address is a string, and its website is its directory page. *)
Theorem client_searches_return_processed_records st :
  (forall location business_type radius max_results l,
     run (search_businesses svc location business_type radius max_results) st
       = Ok (Some l) ->
     Forall processed_record l) /\
  (forall latitude longitude business_type radius max_results l,
     run (search_businesses_by_coordinates svc latitude longitude business_type
            radius max_results) st = Ok (Some l) ->
     Forall processed_record l).
Proof.
  split.
  - intros location business_type radius max_results l. unfold run, search_businesses.
    destruct (getenv svc "YELP_API_KEY") as [[|k0 key]|]; try discriminate.
    destruct (bind _ _ st) as [[[l'|]|e] st'] eqn:H; cbn [fst]; try discriminate.
    intros [= <-].
    apply bind_inv in H as ([bs|] & st1 & Hloop & H); [|discriminate].
    injection H as <- <-. apply slice_to_Forall.
    exact (search_businesses_loop_records _ _ _ _ _ _ _ _ _ _ _ (Forall_nil_2 _) Hloop).
  - intros latitude longitude business_type radius max_results l.
    unfold run, search_businesses_by_coordinates.
    destruct (getenv svc "YELP_API_KEY") as [[|k0 key]|]; try discriminate.
    destruct (bind _ _ st) as [[[l'|]|e] st'] eqn:H; cbn [fst]; try discriminate.
    intros [= <-].
    apply bind_inv in H as ([bs|] & st1 & Hloop & H); [|discriminate].
    injection H as <- <-. apply slice_to_Forall.
    exact (search_by_coordinates_loop_records _ _ _ _ _ _ _ _ _ _ _ _ (Forall_nil_2 _) Hloop).
Qed.

End ProcessedResults.

(** ** Pages of a search (leadgen/views/dashboard.py) *)

Lemma py_slice_nonneg {A} a b (l : list A) :
  0 <= a -> 0 <= b ->
  py_slice a b l = firstn (Z.to_nat b - Z.to_nat a) (skipn (Z.to_nat a) l).
Proof.
  intros Ha Hb. unfold py_slice.
  assert (Ea : (a <? 0) = false) by (apply Z.ltb_ge; lia).
  assert (Eb : (b <? 0) = false) by (apply Z.ltb_ge; lia).
  rewrite Ea, Eb. rewrite skipn_firstn_comm.
  destruct (Z.le_gt_cases (Z.of_nat (length l)) a) as [Hbig|Hsmall].
  - rewrite !skipn_all2 by lia. now rewrite !firstn_nil.
  - replace (Z.to_nat (Z.min a (Z.of_nat (length l)))) with (Z.to_nat a) by lia.
    destruct (Z.le_gt_cases (Z.of_nat (length l)) b) as [Hb'|Hb'].
    + rewrite !firstn_all2; [reflexivity| |]; rewrite length_skipn; lia.
    + now replace (Z.to_nat (Z.min b (Z.of_nat (length l)))) with (Z.to_nat b) by lia.
Qed.

Lemma page_window_take_drop {A} page size (l : list A) :
  1 <= page -> 0 <= size ->
  page_window page size l
  = firstn (Z.to_nat size) (skipn (Z.to_nat (page - 1) * Z.to_nat size) l).
Proof.
  intros Hp Hs. unfold page_window. cbv zeta.
  rewrite py_slice_nonneg by nia.
  f_equal; [nia|f_equal; nia].
Qed.

(** X18: for a page number of at least 1 and a positive page size, the
    window of a page holds at most [size] listings, and [has_more] is true
    exactly when the window of the next page is not empty. *)
Theorem page_window_has_more {A} page size (businesses : list A) :
  1 <= page -> 1 <= size ->
  Z.of_nat (length (page_window page size businesses)) <= size /\
  (has_more page size businesses = true <->
   page_window (page + 1) size businesses <> []).
Proof.
  intros Hp Hs. split.
  - rewrite page_window_take_drop by lia. rewrite length_firstn. lia.
  - rewrite page_window_take_drop by lia. unfold has_more. cbv zeta.
    replace (Z.to_nat (page + 1 - 1)) with (Z.to_nat page) by lia.
    rewrite Z.ltb_lt. split.
    + intros Hlt Hnil. apply (f_equal (@length A)) in Hnil.
      rewrite length_firstn, length_skipn in Hnil. cbn [length] in Hnil. nia.
    + intros Hne.
      destruct (Z.lt_ge_cases ((page - 1) * size + size) (Z.of_nat (length businesses)))
        as [Hlt|Hge]; [exact Hlt|].
      exfalso. apply Hne. rewrite skipn_all2 by nia. apply firstn_nil.
Qed.

Lemma page_window_has_more_witness :
  Z.of_nat (length (page_window 2 2 [1; 2; 3; 4; 5])) <= 2 /\
  (has_more 2 2 [1; 2; 3; 4; 5] = true <-> page_window (2 + 1) 2 [1; 2; 3; 4; 5] <> []).
Proof. apply (page_window_has_more 2 2 [1; 2; 3; 4; 5]); lia. Defined.

(** X19: for a positive page size the windows of the pages 1 to [k], one
    after the other, are the first [k * size] listings: the pages neither
    overlap nor skip a listing, and they cover the whole list once
    [k * size] reaches its length. *)
Theorem page_windows_partition {A} (k : nat) size (businesses : list A) :
  1 <= size ->
  pages_upto k size businesses = firstn (k * Z.to_nat size) businesses /\
  (Z.of_nat (length businesses) <= Z.of_nat k * size ->
   pages_upto k size businesses = businesses).
Proof.
  intros Hs.
  assert (H : pages_upto k size businesses = firstn (k * Z.to_nat size) businesses).
  { induction k as [|k IH]; [reflexivity|].
    cbn [pages_upto]. rewrite IH, page_window_take_drop by lia.
    replace (Z.to_nat (Z.of_nat (S k) - 1)) with k by lia.
    rewrite take_take_drop. f_equal. lia. }
  split; [exact H|]. intros Hlen. rewrite H. apply firstn_all2. nia.
Qed.

Lemma page_windows_partition_witness :
  pages_upto 3 2 [1; 2; 3; 4; 5] = firstn (3 * Z.to_nat 2) [1; 2; 3; 4; 5] /\
  (Z.of_nat (length [1; 2; 3; 4; 5]) <= Z.of_nat 3 * 2 ->
   pages_upto 3 2 [1; 2; 3; 4; 5] = [1; 2; 3; 4; 5]).
Proof. apply (page_windows_partition 3 2 [1; 2; 3; 4; 5]). lia. Defined.

(** ** What address verification writes (business_finder.py) *)

Lemma has_result_keys_lookups vr :
  has_result_keys vr = true ->
  Forall (fun k => is_Some (dict_lookup k vr)) result_keys.
Proof.
  unfold has_result_keys. rewrite forallb_forall. intros H.
  apply List.Forall_forall. intros k Hk. specialize (H k Hk).
  unfold dict_has in H. destruct (dict_lookup k vr); [eauto|discriminate].
Qed.

(** The listing after the verification data was added to it. *)
Lemma add_verification_data_effect business vr st d :
  objects st !! business = Some d ->
  has_result_keys vr = true ->
  exists st' d',
    add_verification_data business vr st = (Ok tt, st') /\
    calls st' = calls st /\
    objects st' !! business = Some d' /\
    dict_lookup "address_verified" d' = dict_lookup "verified" vr /\
    dict_lookup "address_verification_status" d' = dict_lookup "status" vr /\
    dict_lookup "verified_address" d' = dict_lookup "verified_address" vr /\
    dict_lookup "verified_city" d' = dict_lookup "verified_city" vr /\
    dict_lookup "verified_state" d' = dict_lookup "verified_state" vr /\
    dict_lookup "verified_zip_code" d' = dict_lookup "verified_zip_code" vr /\
    dict_lookup "verification_confidence" d' = dict_lookup "confidence" vr /\
    dict_lookup "verification_error" d' =
      match dict_lookup "error" vr with
      | Some err => if truthy err then Some err else dict_lookup "verification_error" d
      | None => None
      end.
Proof.
  intros Hobj Hkeys. apply has_result_keys_lookups in Hkeys.
  unfold result_keys in Hkeys.
  repeat match goal with
         | H : Forall _ (_ :: _) |- _ =>
             apply Forall_cons in H as [[?v ?Hv] H]
         end.
  unfold add_verification_data, bind, lift, obj_setitem, obj_read, bind.
  cbn [py_getitem]. rewrite Hv, Hv0, Hv1, Hv2, Hv3, Hv4, Hv5, Hv6.
  rewrite Hobj. st_simpl.
  repeat (rewrite lookup_insert_eq; st_simpl).
  destruct (truthy v6); cbn [ret]; st_simpl; try rewrite lookup_insert_eq;
    (do 2 eexists; split; [reflexivity|]; split; [reflexivity|];
     split; [st_simpl; apply lookup_insert_eq|]);
    repeat split;
    repeat (first [rewrite dict_lookup_set_eq
                  |rewrite dict_lookup_set_ne by discriminate]);
    reflexivity.
Qed.

(** X20: with a verifier configured and a complete address,
    [verify_business_address] sends the one verification request for the
    listing's four address fields and writes what [verify_address] answered
    into the listing: the verified flag, the status, the confidence and the
    four verified address fields under their keys, and the error under
    [verification_error] only when there is one (an earlier value stays
    otherwise). *)
Theorem verify_business_address_records_answer svc business st d loc_fields verifier vr :
  let street := dict_get loc_fields "address1" (PStr "") in
  let city := dict_get loc_fields "city" (PStr "") in
  let state := dict_get loc_fields "state" (PStr "") in
  let zip_code := dict_get loc_fields "zip_code" (PStr "") in
  get_smarty_verifier svc = Some verifier ->
  objects st !! business = Some d ->
  listing_location d = Some loc_fields ->
  forallb truthy [street; city; state; zip_code] = true ->
  run (verify_address svc verifier street city state zip_code) st = Ok vr ->
  exists st' d',
    verify_business_address svc business st = (Ok business, st') /\
    calls st' = (calls st ++ [smarty_call svc verifier street city state zip_code st])%list /\
    objects st' !! business = Some d' /\
    dict_lookup "address_verified" d' = vr_verified vr /\
    dict_lookup "address_verification_status" d' = vr_status vr /\
    dict_lookup "verification_confidence" d' = vr_confidence vr /\
    dict_lookup "verified_address" d' = dict_lookup "verified_address" vr /\
    dict_lookup "verified_city" d' = dict_lookup "verified_city" vr /\
    dict_lookup "verified_state" d' = dict_lookup "verified_state" vr /\
    dict_lookup "verified_zip_code" d' = dict_lookup "verified_zip_code" vr /\
    dict_lookup "verification_error" d' =
      match vr_error vr with
      | Some err => if truthy err then Some err else dict_lookup "verification_error" d
      | None => None
      end.
Proof.
  intros street city state zip_code Hver Hobj Hloc Hfull Hrun.
  unfold listing_location in Hloc.
  destruct (dict_get d "location" (PDict [])) as [| | | | | |l] eqn:Hl; try discriminate.
  injection Hloc as ->.
  unfold verify_business_address. rewrite Hver.
  rewrite (bind_ok _ _ _ _ _ (obj_get_ok st business d _ _ Hobj)). rewrite Hl.
  cbn [bind lift py_get]. fold street city state zip_code. rewrite Hfull. cbn [negb].
  destruct (verify_address_outcome svc verifier street city state zip_code st)
    as (vr' & Hva & _).
  unfold run in Hrun. rewrite Hva in Hrun. injection Hrun as ->.
  pose proof (verify_address_result_keys _ _ _ _ _ _ _ _ _ Hva) as Hkeys.
  set (st1 := set_calls _ st) in *.
  destruct (add_verification_data_effect business vr st1 d Hobj Hkeys)
    as (st' & d' & Hadd & Hcalls & Hobj' & H1 & H2 & H3 & H4 & H5 & H6 & H7 & H8).
  unfold bind. rewrite Hva, Hadd. cbn [ret].
  exists st', d'. unfold vr_verified, vr_status, vr_confidence, vr_error.
  split; [reflexivity|]. split; [rewrite Hcalls; reflexivity|].
  split; [exact Hobj'|]. auto 12.
Qed.

Lemma verify_business_address_records_answer_witness :
  exists st' d',
    verify_business_address confirming_verifier 1%positive
      (initial_state {[ 1%positive := sample_listing ]}) = (Ok 1%positive, st') /\
    objects st' !! 1%positive = Some d' /\
    dict_lookup "address_verified" d' = Some (PBool true) /\
    dict_lookup "address_verification_status" d' = Some (PStr "verified") /\
    dict_lookup "verification_confidence" d' = Some (PFloat 1.0%float) /\
    dict_lookup "verified_city" d' = Some (PStr "Nashville") /\
    dict_lookup "verification_error" d' = None.
Proof.
  destruct (verify_business_address_records_answer confirming_verifier 1%positive
              (initial_state {[ 1%positive := sample_listing ]}) sample_listing
              [ ("address1", PStr "112 19th Ave S"); ("city", PStr "Nashville");
                ("state", PStr "TN"); ("zip_code", PStr "37203") ]
              (MkVerifier "id" "token")
              [ ("verified", PBool true); ("status", PStr "verified");
                ("confidence", PFloat 1.0%float);
                ("verified_address", PStr "112 19th Ave S");
                ("verified_city", PStr "Nashville"); ("verified_state", PStr "TN");
                ("verified_zip_code", PStr "37203"); ("error", PNone) ])
    as (st' & d' & Hrun & _ & Hobj & H1 & H2 & H3 & _ & H5 & _ & _ & H8);
    [reflexivity|reflexivity|reflexivity|reflexivity|vm_compute; reflexivity|].
  exists st', d'. auto 10.
Defined.

(** ** Rows built without a verifier (leadgen/views/dashboard.py) *)

Lemma dict_get_absent d k default :
  dict_lookup k d = None -> dict_get d k default = default.
Proof. unfold dict_get. now intros ->. Qed.

(** The fields of the row built for a listing. *)
Lemma new_business_row_fields business_type business st d l :
  objects st !! business = Some d ->
  dict_get d "location" (PDict []) = PDict l ->
  exists row,
    new_business_row business_type business st = (Ok row, st) /\
    b_yelp_id row = dict_get d "id" PNone /\
    b_name row = dict_get d "name" PNone /\
    b_address row = dict_get l "address1" (PStr "") /\
    b_business_type row = PStr business_type /\
    b_website row = b_yelp_url row /\
    b_address_verified row = dict_get d "address_verified" (PBool false) /\
    b_address_verification_status row
      = dict_get d "address_verification_status" (PStr "pending") /\
    b_verification_confidence row
      = dict_get d "verification_confidence" (PFloat 0.0%float) /\
    b_verified_address row = dict_get d "verified_address" PNone /\
    b_verified_city row = dict_get d "verified_city" PNone /\
    b_verified_state row = dict_get d "verified_state" PNone /\
    b_verified_zip_code row = dict_get d "verified_zip_code" PNone.
Proof.
  intros Hobj Hl. unfold new_business_row.
  repeat (rewrite (bind_ok _ _ _ _ _ (obj_get_ok st business d _ _ Hobj));
          try rewrite Hl; cbn [bind lift py_get]).
  eexists. split; [reflexivity|]. cbn. repeat split.
Qed.

(** The view stores what [build_new_business] built. *)
Lemma store_new_business_builds svc business_type business st :
  store_new_business svc business_type business st
  = bind (build_new_business svc business_type business)
      (fun new_business => session_add_commit new_business ;;; ret new_business) st.
Proof.
  unfold store_new_business, build_new_business, bind.
  destruct (obj_contains business "address_verified" st) as [[has|e] st1]; [|reflexivity].
  destruct ((if negb has then verify_business_address svc business else ret business) st1)
    as [[b|e] st2]; reflexivity.
Qed.

(** X21: with no verifier configured, the [Business] the search view
    builds for a listing that comes straight from the directory (a location
    object, no verification key) carries the listing's identifier, name and
    address line, the business type of the search, the directory page as
    website, and the verification defaults: not verified, status "pending",
    confidence 0.0, no verified address field.  Building it sends no
    request and changes nothing. *)
Theorem build_new_business_pending svc business_type business st d loc_fields :
  get_smarty_verifier svc = None ->
  objects st !! business = Some d ->
  listing_location d = Some loc_fields ->
  Forall (fun k => dict_lookup k d = None) verification_keys ->
  exists row,
    build_new_business svc business_type business st = (Ok row, st) /\
    b_yelp_id row = dict_get d "id" PNone /\
    b_name row = dict_get d "name" PNone /\
    b_address row = dict_get loc_fields "address1" (PStr "") /\
    b_business_type row = PStr business_type /\
    b_website row = b_yelp_url row /\
    b_address_verified row = PBool false /\
    b_address_verification_status row = PStr "pending" /\
    b_verification_confidence row = PFloat 0.0%float /\
    b_verified_address row = PNone /\ b_verified_city row = PNone /\
    b_verified_state row = PNone /\ b_verified_zip_code row = PNone.
Proof.
  intros Hver Hobj Hloc Hraw.
  unfold verification_keys in Hraw.
  repeat match goal with
         | H : Forall _ (_ :: _) |- _ => apply Forall_cons in H as [?Hk H]
         end.
  unfold build_new_business.
  assert (Hhas : obj_contains business "address_verified" st = (Ok false, st)).
  { unfold obj_contains, obj_read, bind, dict_has. now rewrite Hobj, Hk. }
  rewrite (bind_ok _ _ _ _ _ Hhas). cbn [negb].
  rewrite (bind_ok _ _ _ _ _
             (verify_business_address_skips svc business st d Hobj (or_introl Hver))).
  unfold listing_location in Hloc.
  destruct (dict_get d "location" (PDict [])) as [| | | | | |l] eqn:Hl; try discriminate.
  injection Hloc as ->.
  destruct (new_business_row_fields business_type business st d loc_fields Hobj Hl)
    as (row & Hrow & F1 & F2 & F3 & F4 & F5 & F6 & F7 & F8 & F9 & F10 & F11 & F12).
  exists row. split; [exact Hrow|].
  rewrite F6, F7, F8, F9, F10, F11, F12.
  repeat match goal with
         | H : dict_lookup ?k d = None |- _ =>
             rewrite ?(dict_get_absent d k _ H); clear H
         end.
  auto 15.
Qed.

Lemma build_new_business_pending_witness :
  exists row,
    build_new_business empty_directory "restaurants" 1%positive
      (initial_state {[ 1%positive := sample_listing ]})
      = (Ok row, initial_state {[ 1%positive := sample_listing ]}) /\
    b_yelp_id row = PStr "abc123" /\
    b_name row = PStr "Hattie B's" /\
    b_address_verified row = PBool false /\
    b_address_verification_status row = PStr "pending".
Proof.
  destruct (build_new_business_pending empty_directory "restaurants" 1%positive
              (initial_state {[ 1%positive := sample_listing ]}) sample_listing
              [ ("address1", PStr "112 19th Ave S"); ("city", PStr "Nashville");
                ("state", PStr "TN"); ("zip_code", PStr "37203") ])
    as (row & Hrun & Hid & Hname & _ & _ & _ & Hav & Hst & _);
    [reflexivity|reflexivity|reflexivity|repeat constructor|].
  exists row. auto.
Defined.

(** * Categories (category_helper.py) *)

Lemma prefix_contains needle hay :
  String.prefix needle hay = true -> str_contains needle hay = true.
Proof. intros H. destruct hay; cbn [str_contains]; now rewrite H. Qed.

Section Categories.

Variable str_lower : string -> string.

(** On categories with a title and an alias the loop of
    [search_categories] takes the matching ones, in order, until it has
    [limit] of them; it looks at the limit only after it took one. *)
Lemma search_categories_loop_spec query_lower limit cats : forall matches,
  Forall category_ok cats ->
  matches = [] \/ Z.of_nat (length matches) < limit ->
  search_categories_loop str_lower query_lower limit cats matches
  = Ok (matches ++
        firstn (Z.to_nat (Z.max limit 1) - length matches)
               (List.filter (category_match str_lower query_lower) cats))%list.
Proof.
  induction cats as [|cat rest IH]; intros matches Hok Hinv.
  - cbn. now rewrite firstn_nil, app_nil_r.
  - apply Forall_cons in Hok as [(d & title & alias & -> & Ht & Ha) Hok].
    cbn [search_categories_loop py_getitem result_bind List.filter category_match].
    rewrite Ht, Ha. cbn [result_bind py_lower].
    set (hit := (str_contains query_lower (str_lower title) ||
                 str_contains query_lower (str_lower alias))%bool).
    assert (Hhit : (hit || String.prefix query_lower (str_lower title) ||
                    String.prefix query_lower (str_lower alias))%bool = hit).
    { subst hit.
      destruct (String.prefix query_lower (str_lower title)) eqn:P1;
        [rewrite (prefix_contains _ _ P1); reflexivity|].
      destruct (String.prefix query_lower (str_lower alias)) eqn:P2;
        [rewrite (prefix_contains _ _ P2); now rewrite !orb_true_r|].
      now rewrite !orb_false_r. }
    rewrite Hhit. destruct hit.
    + rewrite length_app. cbn [length].
      destruct (Z.leb_spec limit (Z.of_nat (length matches + 1))) as [Hfull|Hroom].
      * replace (Z.to_nat (Z.max limit 1) - length matches)%nat with 1%nat
          by (destruct Hinv as [->|Hlt]; cbn [length] in *; lia).
        reflexivity.
      * rewrite IH; [|exact Hok|right; rewrite length_app; cbn [length]; lia].
        rewrite length_app. cbn [length]. rewrite <- app_assoc. cbn [app].
        replace (Z.to_nat (Z.max limit 1) - length matches)%nat
          with (S (Z.to_nat (Z.max limit 1) - (length matches + 1)))%nat by lia.
        reflexivity.
    + now apply IH.
Qed.

(** X22: on a categories file whose entries have a title and an alias,
    [search_categories] returns the first [limit] categories whose title or
    alias contains the query, letter case aside, in the order of the file;
    with [limit <= 0] it still returns the first match, because the limit
    is looked at only after a match was taken. *)
Theorem search_categories_first_matches categories query limit :
  Forall category_ok categories ->
  search_categories categories str_lower query limit
  = Ok (firstn (Z.to_nat (Z.max limit 1))
               (List.filter (category_match str_lower (str_lower query)) categories)).
Proof.
  intros Hok. unfold search_categories.
  rewrite search_categories_loop_spec by auto.
  cbn [length app]. now rewrite Nat.sub_0_r.
Qed.

End Categories.

Lemma sample_categories_ok : Forall category_ok sample_categories.
Proof. repeat constructor; do 3 eexists; repeat split. Qed.

Lemma search_categories_first_matches_witness :
  search_categories sample_categories ascii_lower "AUTO" 0
  = Ok [ PDict [ ("alias", PStr "auto"); ("title", PStr "Automotive");
                 ("parent_aliases", PList []) ] ] /\
  search_categories sample_categories ascii_lower "AUTO" 5
  = Ok [ PDict [ ("alias", PStr "auto"); ("title", PStr "Automotive");
                 ("parent_aliases", PList []) ];
         PDict [ ("alias", PStr "autorepair"); ("title", PStr "Auto Repair");
                 ("parent_aliases", PList [PStr "auto"]) ] ].
Proof.
  split.
  - rewrite (search_categories_first_matches ascii_lower sample_categories "AUTO" 0
               sample_categories_ok).
    reflexivity.
  - rewrite (search_categories_first_matches ascii_lower sample_categories "AUTO" 5
               sample_categories_ok).
    reflexivity.
Defined.

Section CategoryLookups.

Variable str_lower : string -> string.

Lemma category_by_alias_find cats alias :
  Forall category_ok cats ->
  category_by_alias_in cats alias = Ok (List.find (has_alias alias) cats).
Proof.
  induction 1 as [|cat rest (d & t & a & -> & Ht & Ha) _ IH]; [reflexivity|].
  assert (E : has_alias alias (PDict d) = eq_str (PStr a) alias)
    by (unfold has_alias; cbn [category_alias]; now rewrite Ha).
  cbn [category_by_alias_in py_getitem result_bind List.find].
  rewrite Ha, E. cbn [result_bind]. destruct (eq_str (PStr a) alias); [reflexivity|exact IH].
Qed.

(** A category found in a well-formed file is a non-empty object with a
    string alias. *)
Lemma found_category cats (p : pyval -> bool) cat :
  Forall category_ok cats -> List.find p cats = Some cat ->
  In cat cats /\ p cat = true /\ truthy cat = true /\
  exists alias, category_alias cat = Some (PStr alias) /\
                py_getitem cat "alias" = Ok (PStr alias).
Proof.
  intros Hok Hfind. apply find_some in Hfind as [Hin Hp].
  split; [exact Hin|]. split; [exact Hp|].
  rewrite List.Forall_forall in Hok.
  destruct (Hok cat Hin) as (d & t & a & -> & Ht & Ha).
  split; [destruct d; [discriminate|reflexivity]|].
  exists a. cbn. now rewrite Ha.
Qed.

Lemma has_alias_eq cat alias a :
  category_alias cat = Some (PStr a) -> has_alias alias cat = true -> a = alias.
Proof.
  unfold has_alias. intros ->. cbn. apply String.eqb_eq.
Qed.

End CategoryLookups.

(** ** Names and aliases of a constructed helper *)

Lemma for_each_inv {A} (body : A -> result unit) l :
  for_each body l = Ok tt -> Forall (fun x => body x = Ok tt) l.
Proof.
  induction l as [|x l IH]; cbn [for_each]; [constructor|].
  destruct (body x) as [[]|e] eqn:Hx; cbn [result_bind]; [|discriminate].
  intros H. constructor; [exact Hx|exact (IH H)].
Qed.

(** The constructor went through: every category has a title that is a
    string, and an alias. *)
Lemma built_categories categories str_lower :
  _build_search_index categories str_lower = Ok tt ->
  Forall category_built categories.
Proof.
  unfold _build_search_index.
  destruct (for_each _ categories) as [[]|e] eqn:Hfirst; [|discriminate].
  intros _. apply for_each_inv in Hfirst.
  eapply Forall_impl; [exact Hfirst|]. cbv beta. intros cat.
  destruct cat as [| | | | | |d]; try discriminate. cbn [py_getitem].
  destruct (dict_lookup "title" d) as [t|] eqn:Ht; [|discriminate].
  cbn [result_bind].
  destruct t as [| | | |t| |]; try discriminate. cbn [py_lower result_bind].
  destruct (dict_lookup "alias" d) as [a|] eqn:Ha; [|discriminate].
  intros _. exists d, t, a. auto.
Qed.

Section BuiltLookups.

Variable str_lower : string -> string.
Variable categories : list pyval.
Hypothesis built : Forall category_built categories.

Lemma built_by_alias_find alias :
  get_category_by_alias categories alias
  = Ok (List.find (has_alias alias) categories).
Proof.
  unfold get_category_by_alias. pose proof built as Hall.
  induction Hall as [|cat rest (d & t & a & -> & Ht & Ha) _ IH]; [reflexivity|].
  assert (E : has_alias alias (PDict d) = eq_str a alias)
    by (unfold has_alias; cbn [category_alias]; now rewrite Ha).
  cbn [category_by_alias_in py_getitem result_bind List.find].
  rewrite Ha, E. cbn [result_bind]. destruct (eq_str a alias); [reflexivity|].
  apply IH. exact (Forall_inv_tail built).
Qed.

Lemma built_by_title_find title :
  get_category_by_title categories str_lower title
  = Ok (List.find (has_title str_lower title) categories).
Proof.
  unfold get_category_by_title. pose proof built as Hall.
  induction Hall as [|cat rest (d & t & a & -> & Ht & Ha) _ IH]; [reflexivity|].
  assert (E : has_title str_lower title (PDict d)
              = String.eqb (str_lower t) (str_lower title))
    by (unfold has_title; now rewrite Ht).
  cbn [category_by_title_in py_getitem result_bind List.find].
  rewrite Ht, E. cbn [result_bind py_lower].
  destruct (String.eqb (str_lower t) (str_lower title)); [reflexivity|].
  apply IH. exact (Forall_inv_tail built).
Qed.

(** A category the helper finds is a non-empty object with an alias. *)
Lemma built_found (p : pyval -> bool) cat :
  List.find p categories = Some cat ->
  In cat categories /\ p cat = true /\ truthy cat = true /\
  exists alias, category_alias cat = Some alias /\
                py_getitem cat "alias" = Ok alias.
Proof.
  intros Hfind. apply find_some in Hfind as [Hin Hp].
  split; [exact Hin|]. split; [exact Hp|].
  pose proof built as Hall. rewrite List.Forall_forall in Hall.
  destruct (Hall cat Hin) as (d & t & a & -> & Ht & Ha).
  split; [destruct d; [discriminate|reflexivity]|].
  exists a. cbn. now rewrite Ha.
Qed.

(** What the two functions answer, by the two searches of the file. *)
Lemma validate_category_find category :
  validate_category categories str_lower category
  = Ok (match List.find (has_title str_lower category) categories,
              List.find (has_alias category) categories with
        | None, None => false
        | _, _ => true
        end).
Proof.
  unfold validate_category. rewrite built_by_title_find, built_by_alias_find.
  cbn [result_bind].
  destruct (List.find (has_title str_lower category) categories); [reflexivity|].
  cbn [result_bind].
  destruct (List.find (has_alias category) categories); reflexivity.
Qed.

Lemma get_category_alias_find category :
  exists alias,
    get_category_alias categories str_lower category = Ok alias /\
    match List.find (has_alias category) categories,
          List.find (has_title str_lower category) categories with
    | Some cat, _ => category_alias cat = Some alias /\ alias = PStr category
    | None, Some cat => category_alias cat = Some alias
    | None, None => alias = PNone
    end.
Proof.
  unfold get_category_alias. rewrite built_by_title_find, built_by_alias_find.
  cbn [result_bind].
  destruct (List.find (has_alias category) categories) as [cat|] eqn:Halias.
  - destruct (built_found _ _ Halias) as (_ & Hp & Htr & a & Ha & Hget).
    rewrite Htr, Hget. exists a. split; [reflexivity|]. split; [exact Ha|].
    unfold has_alias in Hp. rewrite Ha in Hp.
    destruct a; try discriminate. cbn in Hp. apply String.eqb_eq in Hp. now subst.
  - cbn [result_bind].
    destruct (List.find (has_title str_lower category) categories) as [cat|] eqn:Htitle.
    + destruct (built_found _ _ Htitle) as (_ & _ & Htr & a & Ha & Hget).
      rewrite Htr, Hget. exists a. split; [reflexivity|exact Ha].
    + exists PNone. split; reflexivity.
Qed.

(** A category with a string alias is found under it. *)
Lemma built_find_alias cat s :
  In cat categories -> category_alias cat = Some (PStr s) ->
  exists cat', List.find (has_alias s) categories = Some cat'.
Proof.
  intros Hin Ha.
  destruct (List.find (has_alias s) categories) as [cat'|] eqn:Hfind; [eauto|].
  exfalso. pose proof (find_none _ _ Hfind cat Hin) as Hno.
  unfold has_alias in Hno. rewrite Ha in Hno. cbn in Hno.
  now rewrite String.eqb_refl in Hno.
Qed.

End BuiltLookups.

(** X23: on a helper that was constructed (building its indexes did not
    raise), [validate_category] and [get_category_alias] never raise.  A
    name for which [get_category_alias] answers an alias is valid, and the
    alias answered for a valid name is that of a category of the file; so,
    when no category of the file has a null alias, a name is valid exactly
    when [get_category_alias] does not answer [None].  An alias that is a
    string is stable: it is valid, and looking it up answers itself. *)
Theorem category_alias_valid_and_stable categories str_lower category :
  _build_search_index categories str_lower = Ok tt ->
  exists (valid : bool) (alias : pyval),
    validate_category categories str_lower category = Ok valid /\
    get_category_alias categories str_lower category = Ok alias /\
    (alias <> PNone -> valid = true) /\
    (valid = true ->
     exists cat, In cat categories /\ category_alias cat = Some alias) /\
    (Forall (fun cat => category_alias cat <> Some PNone) categories ->
     (valid = true <-> alias <> PNone)) /\
    (forall s, alias = PStr s ->
       validate_category categories str_lower s = Ok true /\
       get_category_alias categories str_lower s = Ok (PStr s)).
Proof.
  intros Hbuilt. apply built_categories in Hbuilt.
  destruct (get_category_alias_find str_lower categories Hbuilt category)
    as (alias & Hrun & Hspec).
  rewrite (validate_category_find str_lower categories Hbuilt category).
  eexists. exists alias. split; [reflexivity|]. split; [exact Hrun|].
  assert (Hcat : forall p cat, List.find p categories = Some cat -> In cat categories)
    by (intros p cat H; now apply find_some in H).
  assert (Hvalid : (match List.find (has_title str_lower category) categories,
                          List.find (has_alias category) categories with
                    | None, None => false
                    | _, _ => true
                    end) = true ->
                   exists cat, In cat categories /\ category_alias cat = Some alias).
  { destruct (List.find (has_alias category) categories) as [c1|] eqn:H1;
      destruct (List.find (has_title str_lower category) categories) as [c2|] eqn:H2;
      try discriminate; intros _.
    - exists c1. split; [eauto|apply Hspec].
    - exists c1. split; [eauto|apply Hspec].
    - exists c2. split; [eauto|exact Hspec]. }
  assert (Hfound : alias <> PNone ->
                   (match List.find (has_title str_lower category) categories,
                          List.find (has_alias category) categories with
                    | None, None => false
                    | _, _ => true
                    end) = true).
  { destruct (List.find (has_alias category) categories) as [c1|];
      destruct (List.find (has_title str_lower category) categories) as [c2|];
      try reflexivity. intros H. now destruct H. }
  split; [exact Hfound|]. split; [exact Hvalid|]. split.
  - intros Hnonull. split; [|exact Hfound].
    intros Hv ->. destruct (Hvalid Hv) as (cat & Hin & Ha).
    rewrite List.Forall_forall in Hnonull. exact (Hnonull cat Hin Ha).
  - intros s ->.
    assert (Hin : exists cat, In cat categories /\ category_alias cat = Some (PStr s)).
    { apply Hvalid. apply Hfound. discriminate. }
    destruct Hin as (cat & Hin & Ha).
    destruct (built_find_alias categories cat s Hin Ha) as (cat' & Hfind).
    rewrite (validate_category_find str_lower categories Hbuilt s), Hfind.
    split; [now destruct (List.find (has_title str_lower s) categories)|].
    destruct (get_category_alias_find str_lower categories Hbuilt s) as (a & Hrun' & Hs).
    rewrite Hfind in Hs. destruct Hs as [_ ->]. exact Hrun'.
Qed.

Lemma category_alias_valid_and_stable_witness :
  exists (valid : bool) (alias : pyval),
    validate_category sample_categories ascii_lower "auto repair" = Ok valid /\
    get_category_alias sample_categories ascii_lower "auto repair" = Ok alias /\
    (alias <> PNone -> valid = true) /\
    (valid = true ->
     exists cat, In cat sample_categories /\ category_alias cat = Some alias) /\
    (Forall (fun cat => category_alias cat <> Some PNone) sample_categories ->
     (valid = true <-> alias <> PNone)) /\
    (forall s, alias = PStr s ->
       validate_category sample_categories ascii_lower s = Ok true /\
       get_category_alias sample_categories ascii_lower s = Ok (PStr s)).
Proof.
  apply (category_alias_valid_and_stable sample_categories ascii_lower "auto repair").
  reflexivity.
Defined.

(** With the title of a category the helper answers its alias. *)
Example get_category_alias_by_title :
  get_category_alias sample_categories ascii_lower "Auto Repair" = Ok (PStr "autorepair") /\
  validate_category sample_categories ascii_lower "Auto Repair" = Ok true /\
  get_category_alias sample_categories ascii_lower "bakeries" = Ok PNone /\
  validate_category sample_categories ascii_lower "bakeries" = Ok false.
Proof. repeat split. Qed.

Section PopularCategories.

Variable categories : list pyval.
Hypothesis categories_ok : Forall category_ok categories.

Lemma popular_categories_loop_spec aliases : forall acc,
  exists found cs,
    popular_categories_loop categories aliases acc = Ok (acc ++ cs)%list /\
    sublist found aliases /\
    Forall2 (fun a c => In c categories /\ category_alias c = Some (PStr a)) found cs.
Proof.
  induction aliases as [|alias rest IH]; intros acc.
  - exists [], []. cbn. rewrite app_nil_r. repeat split; constructor.
  - cbn [popular_categories_loop]. unfold get_category_by_alias.
    rewrite category_by_alias_find by exact categories_ok. cbn [result_bind].
    destruct (List.find (has_alias alias) categories) as [c|] eqn:Hfind.
    + destruct (found_category _ _ _ categories_ok Hfind)
        as (Hin & Hp & Htr & a & Ha & _).
      pose proof (has_alias_eq _ _ _ Ha Hp) as ->.
      rewrite Htr. destruct (IH (acc ++ [c])%list) as (found & cs & Hrun & Hsub & Hall).
      exists (alias :: found), (c :: cs).
      split; [rewrite Hrun; now rewrite <- app_assoc|].
      split; [now apply sublist_skip|]. now constructor.
    + destruct (IH acc) as (found & cs & Hrun & Hsub & Hall).
      exists found, cs. split; [exact Hrun|]. split; [now apply sublist_cons|exact Hall].
Qed.

Lemma categories_view_items_spec cs :
  Forall category_ok cs ->
  exists items,
    categories_view_items cs = Ok items /\
    Forall2 (fun c item =>
               map fst item = ["alias"; "title"] /\
               dict_lookup "alias" item = category_alias c /\
               dict_lookup "title" item = category_title c) cs items.
Proof.
  induction 1 as [|c cs (d & t & a & -> & Ht & Ha) _ (items & Hrun & Hall)].
  - exists []. split; [reflexivity|constructor].
  - cbn [categories_view_items py_getitem]. rewrite Ha, Ht. cbn [result_bind].
    rewrite Hrun. cbn [result_bind]. eexists. split; [reflexivity|].
    constructor; [|exact Hall]. cbn. now rewrite Ha, Ht.
Qed.

Lemma popular_aliases_NoDup : NoDup popular_aliases.
Proof.
  unfold popular_aliases.
  repeat (apply NoDup_cons; split;
          [rewrite !list_elem_of_In; cbn; intuition discriminate|]).
  apply NoDup_nil_2.
Qed.

(** What the view lists, once the helper is constructed. *)
Lemma popular_entries_spec :
  exists items total,
    result_bind (get_popular_categories categories) (fun popular =>
      result_bind (categories_view_items popular) (fun categories =>
      Ok (categories, Z.of_nat (length categories))))
    = Ok (items, total) /\
    total = Z.of_nat (length items) /\
    total <= 13 /\
    NoDup (map (dict_lookup "alias") items) /\
    Forall (popular_entry categories) items.
Proof.
  unfold get_popular_categories.
  destruct (popular_categories_loop_spec popular_aliases [])
    as (found & cs & Hrun & Hsub & Hall).
  rewrite Hrun. cbn [app result_bind].
  assert (Hcs : Forall category_ok cs).
  { apply List.Forall_forall. intros c Hc.
    rewrite List.Forall_forall in categories_ok. apply categories_ok.
    clear - Hall Hc. induction Hall as [|a c' found cs [Hin _] _ IH]; [contradiction|].
    destruct Hc as [<-|Hc]; auto. }
  destruct (categories_view_items_spec cs Hcs) as (items & Hitems & Hent).
  rewrite Hitems. cbn [result_bind]. exists items, (Z.of_nat (length items)).
  split; [reflexivity|]. split; [reflexivity|].
  assert (Hlen : length items = length found).
  { rewrite <- (Forall2_length _ _ _ Hent). symmetry. exact (Forall2_length _ _ _ Hall). }
  assert (Haliases : map (dict_lookup "alias") items = map (fun a => Some (PStr a)) found).
  { clear - Hall Hent. revert items Hent.
    induction Hall as [|a c found cs [_ Ha] _ IH]; intros items Hent.
    - inversion Hent. reflexivity.
    - inversion Hent as [|? item ? items' (_ & Hia & _) Hrest]; subst.
      cbn [map]. rewrite Hia, Ha. f_equal. now apply IH. }
  split.
  { rewrite Hlen. pose proof (sublist_length _ _ Hsub) as H. cbn in H. lia. }
  split.
  { rewrite Haliases.
    assert (Hinj : Inj eq eq (fun a : string => Some (PStr a)))
      by (intros x y [= ->]; reflexivity).
    apply (NoDup_fmap_2 (fun a : string => Some (PStr a))).
    eapply sublist_NoDup; [apply popular_aliases_NoDup|exact Hsub]. }
  assert (Hfound : Forall (fun a => In a popular_aliases) found).
  { apply List.Forall_forall. intros a Ha.
    apply list_elem_of_In. eapply elem_of_sublist; [|exact Hsub].
    now apply list_elem_of_In. }
  clear - Hall Hent Hfound.
  revert items Hent Hfound.
  induction Hall as [|a c found' cs [Hin Ha] _ IH]; intros items Hent Hfound.
  - inversion Hent. constructor.
  - inversion Hent as [|? item ? items' (Hk & Hia & Hit) Hrest]; subst.
    apply Forall_cons in Hfound as [Hpop Hfound].
    constructor.
    + split; [exact Hk|]. exists a, c. rewrite Hia, Hit. auto.
    + now apply IH.
Qed.

End PopularCategories.

Lemma for_each_ok {A} (body : A -> result unit) l :
  Forall (fun x => body x = Ok tt) l -> for_each body l = Ok tt.
Proof.
  induction 1 as [|x l Hx _ IH]; [reflexivity|].
  cbn [for_each]. now rewrite Hx.
Qed.

(** On a well-formed categories file the constructor builds its indexes. *)
Lemma build_search_index_ok categories str_lower :
  Forall category_indexable categories ->
  _build_search_index categories str_lower = Ok tt.
Proof.
  intros Hok. unfold _build_search_index.
  rewrite for_each_ok; cbn [result_bind].
  2:{ eapply Forall_impl; [exact Hok|].
      intros cat [(d & t & a & -> & Ht & Ha) _]. cbn [py_getitem].
      now rewrite Ht, Ha. }
  rewrite for_each_ok; cbn [result_bind].
  2:{ eapply Forall_impl; [exact Hok|].
      intros cat [(d & t & a & -> & Ht & Ha) _]. cbn [py_getitem].
      now rewrite Ht, Ha. }
  apply for_each_ok. eapply Forall_impl; [exact Hok|].
  intros cat [(d & t & a & -> & Ht & Ha) (d' & ps & [= <-] & Hps & Hstr)].
  cbn [py_get result_bind]. rewrite Hps. cbn [py_iter result_bind].
  apply for_each_ok. eapply Forall_impl; [exact Hstr|].
  intros p Hp. destruct p; try discriminate. cbn [py_hashable result_bind py_getitem].
  now rewrite Ha.
Qed.

(** X24: on a categories file as the directory publishes it (every entry
    with a title and an alias that are strings and parent aliases that are
    a list of strings), the categories view answers: at most thirteen
    entries, each the alias and the title of a category of the file whose
    alias is one of the popular aliases, no alias twice, and a [total]
    that is their number. *)
Theorem get_categories_popular_entries categories str_lower :
  Forall category_indexable categories ->
  exists items total,
    get_categories categories str_lower = Ok (items, total) /\
    total = Z.of_nat (length items) /\
    total <= 13 /\
    NoDup (map (dict_lookup "alias") items) /\
    Forall (popular_entry categories) items.
Proof.
  intros Hok. unfold get_categories.
  rewrite (build_search_index_ok _ _ Hok). cbn [result_bind].
  apply popular_entries_spec.
  eapply Forall_impl; [exact Hok|]. now intros cat [H _].
Qed.

Lemma get_categories_popular_entries_witness :
  exists items total,
    get_categories sample_categories ascii_lower = Ok (items, total) /\
    total = Z.of_nat (length items) /\
    total <= 13 /\
    NoDup (map (dict_lookup "alias") items) /\
    Forall (popular_entry sample_categories) items.
Proof.
  apply (get_categories_popular_entries sample_categories ascii_lower).
  unfold sample_categories.
  repeat (apply List.Forall_cons;
          [split;
           [do 3 eexists; repeat split
           |do 2 eexists; split; [reflexivity|]; split; [reflexivity|];
            repeat (apply List.Forall_cons; [reflexivity|]); apply List.Forall_nil]|]).
  apply List.Forall_nil.
Defined.

(** ** The hierarchy of categories *)

Lemma subcategories_loop_spec parent_alias cats : forall acc subs,
  subcategories_loop parent_alias cats acc = Ok subs ->
  exists found,
    subs = (acc ++ found)%list /\ sublist found cats /\
    Forall (fun c => exists d, c = PDict d /\
              py_in_str parent_alias (dict_get d "parent_aliases" (PList [])) = Ok true)
           found.
Proof.
  induction cats as [|cat rest IH]; intros acc subs; cbn [subcategories_loop].
  - intros [= <-]. exists []. rewrite app_nil_r. repeat split; constructor.
  - destruct cat as [| | | | | |d]; try discriminate.
    cbn [py_get result_bind].
    destruct (py_in_str parent_alias (dict_get d "parent_aliases" (PList [])))
      as [[|]|e] eqn:Hin; cbn [result_bind]; try discriminate; intros H.
    + destruct (IH _ _ H) as (found & -> & Hsub & Hall).
      exists (PDict d :: found). rewrite <- app_assoc.
      split; [reflexivity|]. split; [now apply sublist_skip|].
      constructor; [eauto|exact Hall].
    + destruct (IH _ _ H) as (found & -> & Hsub & Hall).
      exists found. split; [reflexivity|]. split; [now apply sublist_cons|exact Hall].
Qed.

Lemma parent_categories_of_spec cats : forall tops,
  parent_categories_of cats = Ok tops ->
  sublist tops cats /\
  Forall (fun c => exists d, c = PDict d /\
            truthy (dict_get d "parent_aliases" PNone) = false) tops.
Proof.
  induction cats as [|cat rest IH]; intros tops; cbn [parent_categories_of].
  - intros [= <-]. split; constructor.
  - destruct cat as [| | | | | |d]; try discriminate.
    cbn [py_get result_bind].
    destruct (parent_categories_of rest) as [tops'|e]; cbn [result_bind];
      [|discriminate].
    destruct (IH tops' eq_refl) as [Hsub Hall].
    destruct (truthy (dict_get d "parent_aliases" PNone)) eqn:Ht; cbn [negb];
      intros [= <-].
    + split; [now apply sublist_cons|exact Hall].
    + split; [now apply sublist_skip|]. constructor; [eauto|exact Hall].
Qed.

(** A value that contains a non-empty string is truthy. *)
Lemma contains_truthy needle d :
  needle <> "" ->
  py_in_str needle (dict_get d "parent_aliases" (PList [])) = Ok true ->
  truthy (dict_get d "parent_aliases" PNone) = true.
Proof.
  intros Hne. unfold dict_get.
  destruct (dict_lookup "parent_aliases" d) as [v|]; [|discriminate].
  destruct v as [| | | |s|items|entries]; cbn; try discriminate.
  - destruct s; [|reflexivity]. cbn. destruct needle; [congruence|discriminate].
  - destruct items; [discriminate|reflexivity].
  - destruct entries; [discriminate|reflexivity].
Qed.

(** X25: the subcategories of a parent and the top-level categories are
    taken from the file in its order, and for a parent alias that is not
    the empty string they do not meet: a category listed under a parent is
    never reported as top-level. *)
Theorem subcategories_are_not_top_level categories parent_alias subs tops :
  get_subcategories categories parent_alias = Ok subs ->
  get_parent_categories categories = Ok tops ->
  sublist subs categories /\
  sublist tops categories /\
  (parent_alias <> "" -> forall c, In c subs -> ~ In c tops).
Proof.
  unfold get_subcategories, get_parent_categories. intros Hs Ht.
  destruct (subcategories_loop_spec _ _ _ _ Hs) as (found & -> & Hsub & Hall).
  destruct (parent_categories_of_spec _ _ Ht) as [Hsub' Hall'].
  cbn [app]. split; [exact Hsub|]. split; [exact Hsub'|].
  intros Hne c Hc Hc'.
  rewrite List.Forall_forall in Hall, Hall'.
  destruct (Hall c Hc) as (d & -> & Hin).
  destruct (Hall' _ Hc') as (d' & [= <-] & Hfalsy).
  rewrite (contains_truthy _ _ Hne Hin) in Hfalsy. discriminate.
Qed.

Lemma subcategories_are_not_top_level_witness :
  exists subs tops,
    get_subcategories sample_categories "auto" = Ok subs /\
    get_parent_categories sample_categories = Ok tops /\
    length subs = 1%nat /\ length tops = 2%nat /\
    sublist subs sample_categories /\
    sublist tops sample_categories /\
    ("auto" <> "" -> forall c, In c subs -> ~ In c tops).
Proof.
  eexists. eexists.
  split; [reflexivity|]. split; [reflexivity|].
  split; [reflexivity|]. split; [reflexivity|].
  apply (subcategories_are_not_top_level sample_categories "auto"); reflexivity.
Defined.

(** ** Details of one listing (yelp_api_client.py) *)



(** ** Page sizes the directory client asks for (yelp_api_client.py) *)

Lemma process_page_pure items : forall max_results businesses,
  preserves eq (process_page items max_results businesses).
Proof.
  induction items as [|business rest IH]; intros max_results businesses;
    cbn [process_page]; pres_solve; try apply process_business_pure; apply IH.
Qed.

Section PageSizes.

Variable svc : Services.
Variables radius max_results limit : Z.

Lemma search_businesses_page_call location business_type current_limit businesses
    offset st :
  exists c,
    snd (search_businesses_page svc location business_type radius max_results
           current_limit businesses offset st)
      = set_calls (fun cs => (cs ++ [c])%list) st /\
    call_kind c = Http /\
    request_param "limit" c = Some (PInt current_limit).
Proof.
  unfold search_businesses_page.
  rewrite try_bind_state.
  - unfold _make_search_request, try_except, requests_get. cbv zeta.
    match goal with
    | |- context [HttpGet ?u ?p ?r] => exists (HttpGet u p r)
    end.
    split.
    + destruct (http_get svc (calls st) _ _) as [data|e]; cbn [snd]; [reflexivity|].
      destruct (is_request_exception e); reflexivity.
    + split; [reflexivity|]. cbn [request_param].
      destruct (truthy business_type); reflexivity.
  - intros response. pres_solve; try apply process_page_pure.
    match goal with
    | |- preserves _ (let (_, _) := ?x in _) => destruct x as [? [?|]]
    end; pres_solve.
  - intros e. pres_solve.
Qed.

Lemma search_by_coordinates_page_call latitude longitude business_type current_limit
    businesses offset st :
  exists c,
    snd (search_by_coordinates_page svc latitude longitude business_type radius
           max_results current_limit businesses offset st)
      = set_calls (fun cs => (cs ++ [c])%list) st /\
    call_kind c = Http /\
    request_param "limit" c = Some (PInt current_limit).
Proof.
  unfold search_by_coordinates_page. cbv zeta.
  rewrite try_bind_state.
  - unfold requests_get. eexists. split; [reflexivity|].
    split; [reflexivity|]. cbn [request_param].
    destruct (truthy business_type); reflexivity.
  - intros data. pres_solve; try apply process_page_pure.
    match goal with
    | |- preserves _ (let (_, _) := ?x in _) => destruct x as [? [?|]]
    end; pres_solve.
  - intros e. pres_solve.
Qed.

Hypothesis limit_positive : 1 <= limit.

Lemma search_businesses_loop_calls location business_type fuel :
  forall businesses offset st,
  exists new,
    calls (snd (search_businesses_loop svc fuel location business_type radius
                  max_results limit businesses offset st))
      = (calls st ++ new)%list /\
    Forall (asks_within limit) new.
Proof.
  induction fuel as [|fuel IH]; intros businesses offset st;
    cbn [search_businesses_loop];
    destruct (Z.ltb_spec (Z.of_nat (length businesses)) max_results) as [Hlt|Hge];
    try (exists []; cbn; rewrite app_nil_r; split; [reflexivity|constructor]).
  cbv zeta.
  set (current_limit := Z.min limit (max_results - Z.of_nat (length businesses))).
  destruct (search_businesses_page_call location business_type current_limit
              businesses offset st) as (c & Hst & Hkind & Hlim).
  assert (Hc : asks_within limit c).
  { split; [exact Hkind|]. exists current_limit. split; [exact Hlim|].
    unfold current_limit. lia. }
  unfold bind.
  destruct (search_businesses_page _ _ _ _ _ _ _ _ _) as [[[[continue bs1] off1]|e] st1];
    cbn [snd] in Hst; subst st1.
  - destruct continue.
    + destruct (IH bs1 off1 (set_calls (fun cs => (cs ++ [c])%list) st))
        as (new & Hcalls & Hall).
      exists (c :: new). split; [|now constructor].
      rewrite Hcalls. st_simpl. now rewrite <- app_assoc.
    + exists [c]. split; [reflexivity|]. constructor; [exact Hc|constructor].
  - exists [c]. split; [reflexivity|]. constructor; [exact Hc|constructor].
Qed.

Lemma search_by_coordinates_loop_calls latitude longitude business_type fuel :
  forall businesses offset st,
  exists new,
    calls (snd (search_by_coordinates_loop svc fuel latitude longitude business_type
                  radius max_results limit businesses offset st))
      = (calls st ++ new)%list /\
    Forall (asks_within limit) new.
Proof.
  induction fuel as [|fuel IH]; intros businesses offset st;
    cbn [search_by_coordinates_loop];
    destruct (Z.ltb_spec (Z.of_nat (length businesses)) max_results) as [Hlt|Hge];
    try (exists []; cbn; rewrite app_nil_r; split; [reflexivity|constructor]).
  cbv zeta.
  set (current_limit := Z.min limit (max_results - Z.of_nat (length businesses))).
  destruct (search_by_coordinates_page_call latitude longitude business_type
              current_limit businesses offset st) as (c & Hst & Hkind & Hlim).
  assert (Hc : asks_within limit c).
  { split; [exact Hkind|]. exists current_limit. split; [exact Hlim|].
    unfold current_limit. lia. }
  unfold bind.
  destruct (search_by_coordinates_page _ _ _ _ _ _ _ _ _ _)
    as [[[[continue bs1] off1]|e] st1];
    cbn [snd] in Hst; subst st1.
  - destruct continue.
    + destruct (IH bs1 off1 (set_calls (fun cs => (cs ++ [c])%list) st))
        as (new & Hcalls & Hall).
      exists (c :: new). split; [|now constructor].
      rewrite Hcalls. st_simpl. now rewrite <- app_assoc.
    + exists [c]. split; [reflexivity|]. constructor; [exact Hc|constructor].
  - exists [c]. split; [reflexivity|]. constructor; [exact Hc|constructor].
Qed.

End PageSizes.

(** X27: with [max_results = N > 0], every request of [search_businesses]
    and of [search_businesses_by_coordinates] is a page request that asks
    for at least one listing and for no more than min(50, N): never for
    more than the directory allows in a page, never for none. *)
Theorem client_searches_ask_within_cap svc radius max_results st :
  0 < max_results ->
  (forall location business_type,
     exists new,
       calls (exec (search_businesses svc location business_type radius max_results) st)
         = (calls st ++ new)%list /\
       Forall (asks_within (page_cap max_results)) new) /\
  (forall latitude longitude business_type,
     exists new,
       calls (exec (search_businesses_by_coordinates svc latitude longitude
                      business_type radius max_results) st)
         = (calls st ++ new)%list /\
       Forall (asks_within (page_cap max_results)) new).
Proof.
  intros Hpos.
  assert (Hcap : 1 <= Z.min DEFAULT_LIMIT max_results) by (unfold DEFAULT_LIMIT; lia).
  assert (Hnone : exists new : list Call,
            calls st = (calls st ++ new)%list /\
            Forall (asks_within (page_cap max_results)) new)
    by (exists []; rewrite app_nil_r; split; [reflexivity|constructor]).
  split.
  - intros location business_type. unfold exec, search_businesses.
    destruct (getenv svc "YELP_API_KEY") as [[|k0 key]|]; try exact Hnone.
    destruct (search_businesses_loop_calls svc radius max_results
                (Z.min DEFAULT_LIMIT max_results) Hcap location business_type
                (Z.to_nat max_results) [] 0 st) as (new & Hcalls & Hall).
    exists new. split; [|exact Hall]. unfold bind.
    destruct (search_businesses_loop _ _ _ _ _ _ _ _ _ _) as [[[l|]|e] st'];
      exact Hcalls.
  - intros latitude longitude business_type.
    unfold exec, search_businesses_by_coordinates.
    destruct (getenv svc "YELP_API_KEY") as [[|k0 key]|]; try exact Hnone.
    destruct (search_by_coordinates_loop_calls svc radius max_results
                (Z.min DEFAULT_LIMIT max_results) Hcap latitude longitude business_type
                (Z.to_nat max_results) [] 0 st) as (new & Hcalls & Hall).
    exists new. split; [|exact Hall]. unfold bind.
    destruct (search_by_coordinates_loop _ _ _ _ _ _ _ _ _ _ _) as [[[l|]|e] st'];
      exact Hcalls.
Qed.

Lemma client_searches_ask_within_cap_witness :
  (forall location business_type,
     exists new,
       calls (exec (search_businesses three_listings location business_type 8000 120)
                   (initial_state ∅))
         = (calls (initial_state ∅) ++ new)%list /\
       Forall (asks_within (page_cap 120)) new) /\
  (forall latitude longitude business_type,
     exists new,
       calls (exec (search_businesses_by_coordinates three_listings latitude longitude
                      business_type 8000 120) (initial_state ∅))
         = (calls (initial_state ∅) ++ new)%list /\
       Forall (asks_within (page_cap 120)) new).
Proof.
  apply (client_searches_ask_within_cap three_listings 8000 120 (initial_state ∅)). lia.
Defined.
